(** * Threshold-FHE Mafia agent: protocol handlers and suspicion notes

    A shallow embedding of the agent process of the repository
    (src/player.py, src/action_handlers.py, src/suspicion.py,
    src/service/agent/agent_service.py, src/model/, and the tools of
    src/agent_logic.py) together with the
    properties of its protocol layer.

    Python integers are [Z], Python [str] is [string], a Python [dict] keyed
    by player index is a [gmap Z _], [Optional[T]] is [option T].  A handler
    that mutates the process-wide [state] object takes the state and returns
    the new one; an exception is a value of [exn]. *)

From Stdlib Require Import ZArith Ascii String List Lia Bool.
From stdpp Require Import base option list gmap strings pretty.

Open Scope string_scope.
Open Scope Z_scope.

(** ** Python values and exceptions *)

Inductive exn : Type :=
| ValueError (msg : string)
| RuntimeError (msg : string)
| IndexError (msg : string)
| KeyError (msg : string)
| AttributeError (msg : string)
| TypeError (msg : string)
| ConnectError (msg : string)
| HTTPStatusError (status : Z)
| OtherError (msg : string).

(** [str(e)] as used in [HTTPException(status_code=500, detail=str(e))]. *)
Definition str_of_exn (e : exn) : string :=
  match e with
  | ValueError m | RuntimeError m | IndexError m | AttributeError m
  | TypeError m | ConnectError m | OtherError m => m
  | KeyError m => "'" +:+ m +:+ "'"
  | HTTPStatusError s => "Server error '" +:+ pretty s +:+ "'"
  end.

Inductive result (A : Type) : Type :=
| Ok (a : A)
| Raise (e : exn).
Arguments Ok {A} a.
Arguments Raise {A} e.

Definition rbind {A B : Type} (m : result A) (k : A -> result B) : result B :=
  match m with
  | Ok a => k a
  | Raise e => Raise e
  end.

Declare Scope py_scope.
Delimit Scope py_scope with py.
Notation "'let!' x ':=' m 'in' k" := (rbind m (fun x => k))
  (at level 10, x pattern, m at level 100, k at level 200) : py_scope.
Open Scope py_scope.

(** A value that must not be [None]: using [None] where an object is expected
    raises. *)
Definition require {A : Type} (what : string) (o : option A) : result A :=
  match o with
  | Some a => Ok a
  | None => Raise (AttributeError ("'NoneType' object: " +:+ what))
  end.

(** The outcome of a FastAPI handler whose body is wrapped in
    [try: ... except Exception as e: raise HTTPException(500, str(e))]. *)
Inductive http (A : Type) : Type :=
| Http200 (body : A)
| HTTPException (status_code : Z) (detail : string).
Arguments Http200 {A} body.
Arguments HTTPException {A} status_code detail.

Definition catch_500 {A : Type} (r : result A) : http A :=
  match r with
  | Ok a => Http200 a
  | Raise e => HTTPException 500 (str_of_exn e)
  end.

(** [l[i]] on a Python list: negative indices count from the end, anything
    out of range raises [IndexError]. *)
Definition py_index {A : Type} (l : list A) (i : Z) : result A :=
  let n := Z.of_nat (length l) in
  let j := if 0 <=? i then i else n + i in
  if (0 <=? j) && (j <? n) then
    match l !! Z.to_nat j with
    | Some a => Ok a
    | None => Raise (IndexError "list index out of range")
    end
  else Raise (IndexError "list index out of range").

(** [range(n)]. *)
Definition range (n : Z) : list Z := seqZ 0 n.

(** [x in l] for a list of integers. *)
Definition py_in (x : option Z) (l : list Z) : bool :=
  match x with
  | Some i => bool_decide (i ∈ l)
  | None => false
  end.

(** [s.lower()].  A Python string is held as its UTF-8 bytes.  [lower] maps
    the ASCII capitals to the small letters, and one character from outside
    ASCII to an ASCII letter: U+212A KELVIN SIGN (bytes 226 132 170) becomes
    ["k"].  The lower case of every other character from outside ASCII
    contains a character from outside ASCII again (U+0130 becomes ["i"]
    followed by U+0307); those bytes are left as they are.  So [str_lower s]
    is a string of ASCII characters exactly when [s.lower()] is one, and then
    the two are the same string: comparing the result with a literal of the
    sources, or looking it up among the values of an enumeration, has the
    outcome it has in Python. *)
Definition ascii_lower (c : ascii) : ascii :=
  let n := nat_of_ascii c in
  if (65 <=? n)%nat && (n <=? 90)%nat then ascii_of_nat (n + 32) else c.

Fixpoint str_lower (s : string) : string :=
  match s with
  | EmptyString => EmptyString
  | String "226" (String "132" (String "170" s')) => String "k" (str_lower s')
  | String c s' => String (ascii_lower c) (str_lower s')
  end.

(** [s.upper()], on the ASCII letters. *)
Definition ascii_upper (c : ascii) : ascii :=
  let n := nat_of_ascii c in
  if (97 <=? n)%nat && (n <=? 122)%nat then ascii_of_nat (n - 32) else c.

Fixpoint str_upper (s : string) : string :=
  match s with
  | EmptyString => EmptyString
  | String c s' => String (ascii_upper c) (str_upper s')
  end.

(** [needle in hay] for strings. *)
Fixpoint str_contains (needle hay : string) : bool :=
  String.prefix needle hay ||
  match hay with
  | EmptyString => false
  | String _ hay' => str_contains needle hay'
  end.

(** Truthiness of a string: [if s:]. *)
Definition str_truthy (s : string) : bool :=
  match s with
  | EmptyString => false
  | _ => true
  end.

(** ** Suspicion notes (src/suspicion.py) *)

Module Suspicion.

(** [class SuspicionLevel(Enum)] *)
Inductive SuspicionLevel : Type :=
| HIGH_SUSPICION | MEDIUM_SUSPICION | LOW_SUSPICION | NEUTRAL | UNKNOWN.

(** [class PoliceSuspicionLevel(Enum)] *)
Inductive PoliceSuspicionLevel : Type :=
| CONFIRMED_MAFIA | CONFIRMED_NOT_MAFIA | SUSPECTED_DOCTOR | SUSPECTED_CITIZEN
| P_HIGH_SUSPICION | P_MEDIUM_SUSPICION | P_LOW_SUSPICION | P_NEUTRAL | P_UNKNOWN.

(** A note's level is a member of one of the two enums. *)
Inductive level : Type :=
| Basic (l : SuspicionLevel)
| Police (l : PoliceSuspicionLevel).

Definition SuspicionLevel_value (l : SuspicionLevel) : string :=
  match l with
  | HIGH_SUSPICION => "high"
  | MEDIUM_SUSPICION => "medium"
  | LOW_SUSPICION => "low"
  | NEUTRAL => "neutral"
  | UNKNOWN => "unknown"
  end.

Definition PoliceSuspicionLevel_value (l : PoliceSuspicionLevel) : string :=
  match l with
  | CONFIRMED_MAFIA => "confirmed_mafia"
  | CONFIRMED_NOT_MAFIA => "confirmed_not_mafia"
  | SUSPECTED_DOCTOR => "suspected_doctor"
  | SUSPECTED_CITIZEN => "suspected_citizen"
  | P_HIGH_SUSPICION => "high"
  | P_MEDIUM_SUSPICION => "medium"
  | P_LOW_SUSPICION => "low"
  | P_NEUTRAL => "neutral"
  | P_UNKNOWN => "unknown"
  end.

Definition level_value (l : level) : string :=
  match l with
  | Basic b => SuspicionLevel_value b
  | Police p => PoliceSuspicionLevel_value p
  end.

(** The two manager classes; [LEVEL_ENUM] is the class attribute that
    differs. *)
Inductive manager_class : Type :=
| SuspicionNoteManager
| PoliceNoteManager.

(** [LEVEL_ENUM(value)]: lookup of an enum member by value, [None] standing
    for the [ValueError] the lookup raises. *)
Definition LEVEL_ENUM (cls : manager_class) (value : string) : option level :=
  match cls with
  | SuspicionNoteManager =>
      Basic <$> List.find (fun l => String.eqb (SuspicionLevel_value l) value)
        [HIGH_SUSPICION; MEDIUM_SUSPICION; LOW_SUSPICION; NEUTRAL; UNKNOWN]
  | PoliceNoteManager =>
      Police <$> List.find (fun l => String.eqb (PoliceSuspicionLevel_value l) value)
        [CONFIRMED_MAFIA; CONFIRMED_NOT_MAFIA; SUSPECTED_DOCTOR; SUSPECTED_CITIZEN;
         P_HIGH_SUSPICION; P_MEDIUM_SUSPICION; P_LOW_SUSPICION; P_NEUTRAL; P_UNKNOWN]
  end.

Definition LEVEL_ENUM_UNKNOWN (cls : manager_class) : level :=
  match cls with
  | SuspicionNoteManager => Basic UNKNOWN
  | PoliceNoteManager => Police P_UNKNOWN
  end.

(** [class SuspicionNote] *)
Record SuspicionNote : Type := mkNote {
  note_player_index : Z;
  note_level : level;
  reasoning : string;
  is_confirmed : bool;
  turn : Z;
  is_dead : bool
}.

(** [SuspicionNote.__init__]: [is_dead] starts [False]. *)
Definition new_note (player_index : Z) (lv : level) (why : string)
    (confirmed : bool) (t : Z) : SuspicionNote :=
  mkNote player_index lv why confirmed t false.

Definition mark_dead (n : SuspicionNote) : SuspicionNote :=
  mkNote (note_player_index n) (note_level n) (reasoning n) (is_confirmed n)
         (turn n) true.

Definition can_update (n : SuspicionNote) : bool := negb (is_confirmed n).

(** [class SuspicionNoteManager] / [class PoliceNoteManager] *)
Record manager : Type := mkManager {
  cls : manager_class;
  num_players : Z;
  player_index : option Z;
  notes : gmap Z SuspicionNote
}.

Definition set_notes (m : manager) (ns : gmap Z SuspicionNote) : manager :=
  mkManager (cls m) (num_players m) (player_index m) ns.

(** [__init__]: every other player starts as UNKNOWN. *)
Definition init (c : manager_class) (n : Z) (me : option Z) : manager :=
  mkManager c n me
    (foldl (fun ns i =>
              if bool_decide (Some i <> me)
              then <[i := new_note i (LEVEL_ENUM_UNKNOWN c) "No information yet" false 0]> ns
              else ns)
           ∅ (range n)).

(** What [write_note] and [add_investigation_result] return; the Python
    functions return the text given with each constructor. *)
Inductive message : Type :=
| CannotWriteSelf                     (* "Cannot write a note about yourself." *)
| CannotInvestigateSelf               (* "Cannot investigate yourself." *)
| InvalidPlayerIndex (i : Z)          (* "Invalid player index: {i}" *)
| CannotUpdateConfirmed (i : Z)       (* "Cannot update Player {i}: This is a confirmed investigation result." *)
| InvalidLevel (lv : string)          (* "Invalid suspicion level: {lv}. Valid options: ..." *)
| NoteUpdated (n : SuspicionNote)     (* "Suspicion note updated: {note}" *)
| InvestigationRecorded (i : Z) (is_mafia : bool).
                                      (* "Investigation result recorded: Player {i} is ..." *)

(** A message that reports a refused write. *)
Definition is_refusal (msg : message) : bool :=
  match msg with
  | NoteUpdated _ | InvestigationRecorded _ _ => false
  | _ => true
  end.

(** [write_note(self, target_index, level, reasoning, current_turn,
    is_confirmed=False)] *)
Definition write_note (m : manager) (target_index : Z) (lv : string)
    (why : string) (current_turn : Z) (confirmed : bool) : manager * message :=
  if bool_decide (Some target_index = player_index m) then (m, CannotWriteSelf)
  else if (target_index <? 0) || (num_players m <=? target_index)
  then (m, InvalidPlayerIndex target_index)
  else
    match notes m !! target_index with
    | Some existing =>
        if negb (can_update existing)
        then (m, CannotUpdateConfirmed target_index)
        else
          match LEVEL_ENUM (cls m) (str_lower lv) with
          | None => (m, InvalidLevel lv)
          | Some suspicion_level =>
              let n := new_note target_index suspicion_level why confirmed current_turn in
              (set_notes m (<[target_index := n]> (notes m)), NoteUpdated n)
          end
    | None =>
        match LEVEL_ENUM (cls m) (str_lower lv) with
        | None => (m, InvalidLevel lv)
        | Some suspicion_level =>
            let n := new_note target_index suspicion_level why confirmed current_turn in
            (set_notes m (<[target_index := n]> (notes m)), NoteUpdated n)
        end
    end.

(** [mark_player_dead(self, player_index)] *)
Definition mark_player_dead (m : manager) (i : Z) : manager :=
  match notes m !! i with
  | Some n => set_notes m (<[i := mark_dead n]> (notes m))
  | None => m
  end.

(** The [reasoning] text of an investigation note. *)
Definition investigation_reasoning (is_mafia : bool) (current_turn : Z) : string :=
  "[INVESTIGATION TURN " +:+ pretty current_turn +:+ "] Police investigation: "
  +:+ (if is_mafia then "MAFIA" else "NOT MAFIA (Citizen/Doctor/Police)").

(** [PoliceNoteManager.add_investigation_result(self, target_index, is_mafia,
    current_turn)] *)
Definition add_investigation_result (m : manager) (target_index : Z)
    (is_mafia : bool) (current_turn : Z) : manager * message :=
  if bool_decide (Some target_index = player_index m) then (m, CannotInvestigateSelf)
  else if (target_index <? 0) || (num_players m <=? target_index)
  then (m, InvalidPlayerIndex target_index)
  else
    let lv := if is_mafia then Police CONFIRMED_MAFIA else Police CONFIRMED_NOT_MAFIA in
    let n := new_note target_index lv (investigation_reasoning is_mafia current_turn)
                      is_mafia current_turn in
    (set_notes m (<[target_index := n]> (notes m)),
     InvestigationRecorded target_index is_mafia).

(** One [write_note] call, as data, and a sequence of them applied in order. *)
Record write_call : Type := mkCall {
  call_target : Z;
  call_level : string;
  call_reasoning : string;
  call_turn : Z;
  call_confirmed : bool
}.

Definition do_write (m : manager) (c : write_call) : manager :=
  fst (write_note m (call_target c) (call_level c) (call_reasoning c)
                  (call_turn c) (call_confirmed c)).

Definition write_notes (m : manager) (calls : list write_call) : manager :=
  foldl do_write m calls.

(** Enum members are compared by identity. *)
#[global] Instance SuspicionLevel_eq_dec : EqDecision SuspicionLevel.
Proof. solve_decision. Defined.

#[global] Instance PoliceSuspicionLevel_eq_dec : EqDecision PoliceSuspicionLevel.
Proof. solve_decision. Defined.

#[global] Instance level_eq_dec : EqDecision level.
Proof. solve_decision. Defined.

(** [self.notes.values()].  A Python dict lists its values in insertion
    order, which the map does not record: the list is the dict's up to the
    order of its elements. *)
Definition notes_values (m : manager) : list SuspicionNote :=
  snd <$> map_to_list (notes m).

(** The comprehension shared by the four getters of [PoliceNoteManager]:
    [[note.player_index for note in self.notes.values()
      if note.level == lv and not note.is_dead]]. *)
Definition players_at (lv : PoliceSuspicionLevel) (m : manager) : list Z :=
  note_player_index
    <$> List.filter (fun note => bool_decide (note_level note = Police lv)
                                 && negb (is_dead note))
                    (notes_values m).

(** [get_confirmed_mafia(self)] *)
Definition get_confirmed_mafia (m : manager) : list Z := players_at CONFIRMED_MAFIA m.

(** [get_confirmed_not_mafia(self)] *)
Definition get_confirmed_not_mafia (m : manager) : list Z :=
  players_at CONFIRMED_NOT_MAFIA m.

(** [get_suspected_doctors(self)] *)
Definition get_suspected_doctors (m : manager) : list Z := players_at SUSPECTED_DOCTOR m.

(** [get_suspected_citizens(self)] *)
Definition get_suspected_citizens (m : manager) : list Z :=
  players_at SUSPECTED_CITIZEN m.

(** A call of one of the methods that change a manager.  Only a
    [PoliceNoteManager] has [add_investigation_result]; on the base class the
    call raises [AttributeError] and changes nothing. *)
Inductive method_call : Type :=
| call_write_note (c : write_call)
| call_add_investigation_result (target_index : Z) (is_mafia : bool) (current_turn : Z)
| call_mark_player_dead (i : Z).

Definition do_call (m : manager) (c : method_call) : manager :=
  match c with
  | call_write_note c => do_write m c
  | call_add_investigation_result target_index is_mafia current_turn =>
      match cls m with
      | PoliceNoteManager =>
          fst (add_investigation_result m target_index is_mafia current_turn)
      | SuspicionNoteManager => m
      end
  | call_mark_player_dead i => mark_player_dead m i
  end.

Definition do_calls (m : manager) (calls : list method_call) : manager :=
  foldl do_call m calls.

(** Every note is filed under the player it is about, who is a player of
    the game other than the owner of the notes. *)
Definition well_formed (m : manager) : Prop :=
  forall (i : Z) (n : SuspicionNote),
    notes m !! i = Some n ->
    note_player_index n = i /\ 0 <= i < num_players m /\ Some i <> player_index m.

End Suspicion.

(** ** The FHE capability

    The crypto service of the repository (service/crypto/: context,
    key_generation, serialization, threshold_decryption, vector_operations,
    roles) is not part of the sources under study; the handlers are
    parameterised by it.  Signatures follow the call sites and section 6 of
    the specification.  Operations that draw fresh randomness take the draw
    as a [nat]. *)

Class FHE : Type := {
  CryptoContext : Type;
  SecretKey : Type;
  PublicKey : Type;
  Ciphertext : Type;
  EvalKey : Type;
  (* service.crypto.key_generation *)
  dkg_keygen_lead : CryptoContext -> nat -> PublicKey * SecretKey;
  dkg_keygen_join : CryptoContext -> PublicKey -> nat -> PublicKey * SecretKey;
  (* service.crypto.serialization *)
  deserialize_crypto_context : string -> result CryptoContext;
  serialize_public_key : CryptoContext -> PublicKey -> string;
  deserialize_public_key : CryptoContext -> option string -> result PublicKey;
  serialize_ciphertext : CryptoContext -> Ciphertext -> string;
  deserialize_ciphertext : CryptoContext -> string -> result Ciphertext;
  serialize_eval_mult_key : CryptoContext -> EvalKey -> string;
  deserialize_eval_mult_key_object : CryptoContext -> option string -> result EvalKey;
  (* inserts the key into the context, which is why a context comes back *)
  deserialize_eval_mult_key : CryptoContext -> string -> result CryptoContext;
  (* methods of the context object *)
  MultiKeySwitchGen : CryptoContext -> SecretKey -> SecretKey -> EvalKey -> result EvalKey;
  MultiMultEvalKey : CryptoContext -> SecretKey -> EvalKey -> option string -> result EvalKey;
  EvalMultKeyGen : CryptoContext -> SecretKey -> result CryptoContext;
  (* service.crypto.threshold_decryption; [fusion_decrypt] includes the
     [GetPackedValue()] that every caller applies to its result *)
  partial_decrypt_lead : CryptoContext -> Ciphertext -> SecretKey -> Ciphertext;
  partial_decrypt_main : CryptoContext -> Ciphertext -> SecretKey -> Ciphertext;
  fusion_decrypt : CryptoContext -> list Ciphertext -> list Z;
  (* service.crypto.vector_operations *)
  encrypt : CryptoContext -> PublicKey -> list Z -> nat -> Ciphertext;
  homomorphic_dot_product : CryptoContext -> Ciphertext -> list Z -> Ciphertext;
  (* service.crypto.roles *)
  one_hot_to_role : list Z -> string
}.

(** Modelled from the spec: service/crypto/roles.py is missing; the role
    roster has the four kinds Citizen, Mafia, Doctor, Police, and the
    investigation indicator [0;1;0;0] has that length. *)
Definition NUM_ROLE_TYPES : Z := 4.

(** Modelled from the spec: service/crypto/vector_operations.py is missing.
    VectorCodec, section 4.2: [one_hot(length, index)] is the plaintext vector
    with 1 at [index] and 0 elsewhere, [zero(length)] the all-zero vector of
    the same length. *)
Definition one_hot_plain (length index : Z) : list Z :=
  (fun j => if j =? index then 1 else 0) <$> range length.

Definition zero_plain (length : Z) : list Z :=
  (fun _ => 0) <$> range length.

(** [lst[:n]] *)
Definition py_take {A : Type} (n : Z) (l : list A) : list A :=
  if 0 <=? n then take (Z.to_nat n) l
  else take (length l - Z.to_nat (- n)) l.

(** [sum(lst)] *)
Definition py_sum (l : list Z) : Z := foldr Z.add 0 l.

(** A list comprehension whose element expression can raise. *)
Fixpoint mapM {A B : Type} (f : A -> result B) (l : list A) : result (list B) :=
  match l with
  | [] => Ok []
  | a :: l' =>
      let! b := f a in
      let! bs := mapM f l' in
      Ok (b :: bs)
  end.

(** ** Request and response models (src/model/) *)

(** [DKGSetupRequest] *)
Record DKGSetupRequest : Type := {
  setup_game_id : string;
  setup_crypto_context : string;
  setup_num_players : Z;
  setup_player_index : Z
}.

(** [DKGRoundRequest]: a round number and the previous party's public key;
    the model has no game identifier. *)
Record DKGRoundRequest : Type := {
  round_number : Z;
  previous_public_key : option string
}.

(** The JSON body posted to /dkg_round.  Pydantic's [BaseModel] ignores keys
    that are not fields of the model, so a [game_id] key in the body is
    dropped when the body is parsed into a [DKGRoundRequest]. *)
Record DKGRoundBody : Type := {
  body_game_id : option string;
  body_round_number : Z;
  body_previous_public_key : option string
}.

Definition parse_DKGRoundRequest (b : DKGRoundBody) : DKGRoundRequest :=
  {| round_number := body_round_number b;
     previous_public_key := body_previous_public_key b |}.

(** [DKGRoundResponse] *)
Record DKGRoundResponse : Type := {
  public_key : string;
  dkg_success : bool
}.

(** The [dict] bodies of the multiplication-key endpoints, with the keys the
    handlers read through [request.get]. *)
Record MultKeyRequest : Type := {
  req_game_id : option string;
  req_prev_key : option string;
  req_combined_key : option string;
  req_key_tag : option string;
  req_mult_keys : option (list string)
}.

(** The [dict] answers of the multiplication-key endpoints. *)
Inductive MultKeyResponse : Type :=
| EvalKeyResponse (eval_key : string)         (* {"eval_key": .., "success": True} *)
| MultKeyResponse_ (mult_key : string)        (* {"mult_key": .., "success": True} *)
| SuccessResponse                             (* {"success": True} *)
| KeysReceived (keys_received : Z).           (* {"success": True, "keys_received": ..} *)

(** [GameUpdateRequest] *)
Record GameUpdateRequest : Type := {
  phase : string;
  message : string;
  survivors : list Z;
  dead_players : list Z;
  remaining_time : option Z
}.

(** [ActionResponse] *)
Record ActionResponse : Type := {
  vote_vector : string;
  attack_vector : string;
  heal_vector : string;
  resp_phase : string;
  chat_messages : list string
}.

(** What /relay_decrypt answers: [{"partial_results": [...]}] or
    [{"decrypted_vector": [...]}]. *)
Inductive RelayResponse : Type :=
| PartialResults (partial_results : list string)
| DecryptedVector (decrypted_vector : list Z).

(** An outbound [client.post(url, json={"ciphertext": body})]. *)
Record Post : Type := {
  post_url : string;
  post_ciphertext : string
}.

(** The agent object of the Agents SDK, of which the handlers only assign
    the tool set. *)
Record Agent : Type := {
  tools : string
}.

(** What one [Runner.run] of the agent (with its lock retries) leaves behind:
    an action tool ran, which sets [state.action_submitted = True] and
    [state.pending_action_target]; or no action tool ran; or the run raised.
    This is the external decision source of section 6. *)
Inductive run_outcome : Type :=
| Submitted (target : option Z)
| NotSubmitted
| RunRaised (e : exn).

(** The outcomes of the two runs [call_ai_with_retry] can make. *)
Record AIRuns : Type := {
  first_run : run_outcome;
  reminder_run : run_outcome
}.

(** [PartialDecryptRequest] *)
Record PartialDecryptRequest : Type := {
  pd_ciphertext : string;
  is_lead : bool
}.

(** [PartialDecryptResponse] *)
Record PartialDecryptResponse : Type := {
  partial_ciphertext : string;
  pd_success : bool
}.

(** The [dict] body of /blind_role_assignment: the keys [my_index],
    [encrypted_roles] and [joint_public_key] are read by subscript, the key
    [player_addresses] only when it is present. *)
Record BlindRoleRequest : Type := {
  blind_my_index : Z;
  blind_encrypted_roles : list string;
  blind_joint_public_key : string;
  blind_player_addresses : option (list string)
}.

(** One entry of the [deaths] list of /death_announcement, as the handler
    reads it: [death.get("player_index")] and [death.get("role", "unknown")],
    the role being a string. *)
Record Death : Type := {
  death_player_index : option Z;
  death_role : string
}.

(** The tools of src/agent_logic.py.  The tools of [memory_tool] read or
    write the chat history, the game memory and the strategic memory only,
    which are kept outside [AgentState]'s modelled attributes. *)
Module Tool.

Inductive memory_tool : Type :=
| view_suspicion_notes
| view_game_history
| view_my_actions
| view_death_timeline
| view_investigation_results
| analyze_player_behavior
| get_strategic_overview
| record_observation
| analyze_voting_patterns
| predict_next_target
| detect_lies_and_contradictions.

Inductive name : Type :=
| read_chat_messages
| send_chat_message
| write_suspicion_note
| submit_vote
| mafia_kill
| doctor_heal
| police_investigate
| record_investigation_result
| memory (t : memory_tool).

#[global] Instance memory_tool_eq_dec : EqDecision memory_tool.
Proof. solve_decision. Defined.

#[global] Instance name_eq_dec : EqDecision name.
Proof. solve_decision. Defined.

End Tool.

(** [create_agent_tools(state, phase)]: the tool list handed to the agent,
    by role and phase, in the order of the source. *)
Definition create_agent_tools (role : option string) (phase : string) : list Tool.name :=
  let police_only :=
    if bool_decide (role = Some "police")
    then [Tool.memory Tool.view_investigation_results] else [] in
  if bool_decide (phase = "chat") || bool_decide (phase = "day") then
    ([Tool.read_chat_messages; Tool.send_chat_message; Tool.write_suspicion_note;
      Tool.memory Tool.view_suspicion_notes; Tool.memory Tool.view_game_history;
      Tool.memory Tool.view_my_actions; Tool.memory Tool.view_death_timeline;
      Tool.memory Tool.analyze_player_behavior; Tool.memory Tool.get_strategic_overview;
      Tool.memory Tool.record_observation; Tool.memory Tool.analyze_voting_patterns;
      Tool.memory Tool.predict_next_target;
      Tool.memory Tool.detect_lies_and_contradictions] ++ police_only)%list
  else if bool_decide (phase = "night") then
    ((if bool_decide (role = Some "mafia") then [Tool.mafia_kill]
      else if bool_decide (role = Some "doctor") then [Tool.doctor_heal]
      else if bool_decide (role = Some "police") then [Tool.police_investigate]
      else [])
     ++ [Tool.read_chat_messages; Tool.memory Tool.view_suspicion_notes;
         Tool.memory Tool.view_game_history; Tool.memory Tool.view_my_actions;
         Tool.memory Tool.view_death_timeline; Tool.memory Tool.get_strategic_overview;
         Tool.memory Tool.analyze_player_behavior]
     ++ police_only)%list
  else if bool_decide (phase = "vote") then
    ([Tool.submit_vote; Tool.read_chat_messages; Tool.memory Tool.view_suspicion_notes;
      Tool.memory Tool.view_game_history; Tool.memory Tool.view_death_timeline;
      Tool.memory Tool.get_strategic_overview; Tool.memory Tool.analyze_player_behavior;
      Tool.memory Tool.analyze_voting_patterns] ++ police_only)%list
  else
    [Tool.write_suspicion_note; Tool.memory Tool.view_suspicion_notes;
     Tool.memory Tool.view_game_history].

(** One call of a tool by the agent, with its arguments.  For
    [read_chat_messages] the argument is what the chat history reports as
    its latest message id. *)
Inductive tool_call : Type :=
| call_read_chat_messages (latest_id : Z)
| call_send_chat_message (message : string)
| call_write_suspicion_note (player_index : Z) (suspicion_level reasoning : string)
| call_submit_vote (target_index : Z)
| call_mafia_kill (target_index : Z)
| call_doctor_heal (target_index : Z)
| call_police_investigate (target_index : Z)
| call_record_investigation_result (target_index : Z) (is_mafia : bool)
| call_memory (t : Tool.memory_tool).

Definition tool_of (c : tool_call) : Tool.name :=
  match c with
  | call_read_chat_messages _ => Tool.read_chat_messages
  | call_send_chat_message _ => Tool.send_chat_message
  | call_write_suspicion_note _ _ _ => Tool.write_suspicion_note
  | call_submit_vote _ => Tool.submit_vote
  | call_mafia_kill _ => Tool.mafia_kill
  | call_doctor_heal _ => Tool.doctor_heal
  | call_police_investigate _ => Tool.police_investigate
  | call_record_investigation_result _ _ => Tool.record_investigation_result
  | call_memory t => Tool.memory t
  end.

Section Agent.
Context `{FHE}.

(** [cc.KeyPair] *)
Record KeyPair : Type := {
  publicKey : PublicKey;
  secretKey : SecretKey
}.

(** [class AgentState] (src/player.py).  The SQLite game memory, the chat
    history and the personality are external collaborators and left out.
    [chat_task] tells whether a background chat task is running.  Three
    components are not Python attributes: [dummy_task] tells whether the
    event loop holds a queued decoy broadcast, [entropy] counts the random
    draws the crypto library has made in this process, and [outbox] lists
    the decoy requests the process has sent. *)
Record AgentState : Type := mkState {
  game_id : option string;
  cc : option CryptoContext;
  keypair : option KeyPair;
  joint_public_key : option PublicKey;
  role : option string;
  player_index : option Z;
  num_players : Z;
  player_addresses : list string;
  agent : option Agent;
  alive : bool;
  current_phase : string;
  current_turn : Z;
  suspicion_notes : option Suspicion.manager;
  session : option string;
  last_read_msg_id : Z;
  pending_action_target : option Z;
  action_submitted : bool;
  pending_chat_messages : list string;
  my_encrypted_role : option string;
  encrypted_role_vector : option string;
  all_encrypted_roles : list string;
  chat_task : bool;
  dummy_task : bool;
  entropy : nat;
  outbox : list Post
}.

(** Attribute assignment [state.f = v], one function per assigned attribute. *)
Definition set_game_id (v : option string) (st : AgentState) : AgentState :=
  mkState v (cc st) (keypair st) (joint_public_key st) (role st) (player_index
    st) (num_players st) (player_addresses st) (agent st) (alive st)
    (current_phase st) (current_turn st) (suspicion_notes st) (session st)
    (last_read_msg_id st) (pending_action_target st) (action_submitted st)
    (pending_chat_messages st) (my_encrypted_role st) (encrypted_role_vector
    st) (all_encrypted_roles st) (chat_task st) (dummy_task st) (entropy st)
    (outbox st).

Definition set_cc (v : option CryptoContext) (st : AgentState) : AgentState :=
  mkState (game_id st) v (keypair st) (joint_public_key st) (role st)
    (player_index st) (num_players st) (player_addresses st) (agent st) (alive
    st) (current_phase st) (current_turn st) (suspicion_notes st) (session st)
    (last_read_msg_id st) (pending_action_target st) (action_submitted st)
    (pending_chat_messages st) (my_encrypted_role st) (encrypted_role_vector
    st) (all_encrypted_roles st) (chat_task st) (dummy_task st) (entropy st)
    (outbox st).

Definition set_keypair (v : option KeyPair) (st : AgentState) : AgentState :=
  mkState (game_id st) (cc st) v (joint_public_key st) (role st) (player_index
    st) (num_players st) (player_addresses st) (agent st) (alive st)
    (current_phase st) (current_turn st) (suspicion_notes st) (session st)
    (last_read_msg_id st) (pending_action_target st) (action_submitted st)
    (pending_chat_messages st) (my_encrypted_role st) (encrypted_role_vector
    st) (all_encrypted_roles st) (chat_task st) (dummy_task st) (entropy st)
    (outbox st).

Definition set_role (v : option string) (st : AgentState) : AgentState :=
  mkState (game_id st) (cc st) (keypair st) (joint_public_key st) v
    (player_index st) (num_players st) (player_addresses st) (agent st) (alive
    st) (current_phase st) (current_turn st) (suspicion_notes st) (session st)
    (last_read_msg_id st) (pending_action_target st) (action_submitted st)
    (pending_chat_messages st) (my_encrypted_role st) (encrypted_role_vector
    st) (all_encrypted_roles st) (chat_task st) (dummy_task st) (entropy st)
    (outbox st).

Definition set_player_index (v : option Z) (st : AgentState) : AgentState :=
  mkState (game_id st) (cc st) (keypair st) (joint_public_key st) (role st) v
    (num_players st) (player_addresses st) (agent st) (alive st)
    (current_phase st) (current_turn st) (suspicion_notes st) (session st)
    (last_read_msg_id st) (pending_action_target st) (action_submitted st)
    (pending_chat_messages st) (my_encrypted_role st) (encrypted_role_vector
    st) (all_encrypted_roles st) (chat_task st) (dummy_task st) (entropy st)
    (outbox st).

Definition set_num_players (v : Z) (st : AgentState) : AgentState :=
  mkState (game_id st) (cc st) (keypair st) (joint_public_key st) (role st)
    (player_index st) v (player_addresses st) (agent st) (alive st)
    (current_phase st) (current_turn st) (suspicion_notes st) (session st)
    (last_read_msg_id st) (pending_action_target st) (action_submitted st)
    (pending_chat_messages st) (my_encrypted_role st) (encrypted_role_vector
    st) (all_encrypted_roles st) (chat_task st) (dummy_task st) (entropy st)
    (outbox st).

Definition set_agent (v : option Agent) (st : AgentState) : AgentState :=
  mkState (game_id st) (cc st) (keypair st) (joint_public_key st) (role st)
    (player_index st) (num_players st) (player_addresses st) v (alive st)
    (current_phase st) (current_turn st) (suspicion_notes st) (session st)
    (last_read_msg_id st) (pending_action_target st) (action_submitted st)
    (pending_chat_messages st) (my_encrypted_role st) (encrypted_role_vector
    st) (all_encrypted_roles st) (chat_task st) (dummy_task st) (entropy st)
    (outbox st).

Definition set_alive (v : bool) (st : AgentState) : AgentState :=
  mkState (game_id st) (cc st) (keypair st) (joint_public_key st) (role st)
    (player_index st) (num_players st) (player_addresses st) (agent st) v
    (current_phase st) (current_turn st) (suspicion_notes st) (session st)
    (last_read_msg_id st) (pending_action_target st) (action_submitted st)
    (pending_chat_messages st) (my_encrypted_role st) (encrypted_role_vector
    st) (all_encrypted_roles st) (chat_task st) (dummy_task st) (entropy st)
    (outbox st).

Definition set_current_phase (v : string) (st : AgentState) : AgentState :=
  mkState (game_id st) (cc st) (keypair st) (joint_public_key st) (role st)
    (player_index st) (num_players st) (player_addresses st) (agent st) (alive
    st) v (current_turn st) (suspicion_notes st) (session st)
    (last_read_msg_id st) (pending_action_target st) (action_submitted st)
    (pending_chat_messages st) (my_encrypted_role st) (encrypted_role_vector
    st) (all_encrypted_roles st) (chat_task st) (dummy_task st) (entropy st)
    (outbox st).

Definition set_current_turn (v : Z) (st : AgentState) : AgentState :=
  mkState (game_id st) (cc st) (keypair st) (joint_public_key st) (role st)
    (player_index st) (num_players st) (player_addresses st) (agent st) (alive
    st) (current_phase st) v (suspicion_notes st) (session st)
    (last_read_msg_id st) (pending_action_target st) (action_submitted st)
    (pending_chat_messages st) (my_encrypted_role st) (encrypted_role_vector
    st) (all_encrypted_roles st) (chat_task st) (dummy_task st) (entropy st)
    (outbox st).

Definition set_suspicion_notes (v : option Suspicion.manager) (st : AgentState) : AgentState :=
  mkState (game_id st) (cc st) (keypair st) (joint_public_key st) (role st)
    (player_index st) (num_players st) (player_addresses st) (agent st) (alive
    st) (current_phase st) (current_turn st) v (session st) (last_read_msg_id
    st) (pending_action_target st) (action_submitted st)
    (pending_chat_messages st) (my_encrypted_role st) (encrypted_role_vector
    st) (all_encrypted_roles st) (chat_task st) (dummy_task st) (entropy st)
    (outbox st).

Definition set_session (v : option string) (st : AgentState) : AgentState :=
  mkState (game_id st) (cc st) (keypair st) (joint_public_key st) (role st)
    (player_index st) (num_players st) (player_addresses st) (agent st) (alive
    st) (current_phase st) (current_turn st) (suspicion_notes st) v
    (last_read_msg_id st) (pending_action_target st) (action_submitted st)
    (pending_chat_messages st) (my_encrypted_role st) (encrypted_role_vector
    st) (all_encrypted_roles st) (chat_task st) (dummy_task st) (entropy st)
    (outbox st).

Definition set_last_read_msg_id (v : Z) (st : AgentState) : AgentState :=
  mkState (game_id st) (cc st) (keypair st) (joint_public_key st) (role st)
    (player_index st) (num_players st) (player_addresses st) (agent st) (alive
    st) (current_phase st) (current_turn st) (suspicion_notes st) (session st)
    v (pending_action_target st) (action_submitted st) (pending_chat_messages
    st) (my_encrypted_role st) (encrypted_role_vector st) (all_encrypted_roles
    st) (chat_task st) (dummy_task st) (entropy st) (outbox st).

Definition set_pending_action_target (v : option Z) (st : AgentState) : AgentState :=
  mkState (game_id st) (cc st) (keypair st) (joint_public_key st) (role st)
    (player_index st) (num_players st) (player_addresses st) (agent st) (alive
    st) (current_phase st) (current_turn st) (suspicion_notes st) (session st)
    (last_read_msg_id st) v (action_submitted st) (pending_chat_messages st)
    (my_encrypted_role st) (encrypted_role_vector st) (all_encrypted_roles st)
    (chat_task st) (dummy_task st) (entropy st) (outbox st).

Definition set_action_submitted (v : bool) (st : AgentState) : AgentState :=
  mkState (game_id st) (cc st) (keypair st) (joint_public_key st) (role st)
    (player_index st) (num_players st) (player_addresses st) (agent st) (alive
    st) (current_phase st) (current_turn st) (suspicion_notes st) (session st)
    (last_read_msg_id st) (pending_action_target st) v (pending_chat_messages
    st) (my_encrypted_role st) (encrypted_role_vector st) (all_encrypted_roles
    st) (chat_task st) (dummy_task st) (entropy st) (outbox st).

Definition set_pending_chat_messages (v : list string) (st : AgentState) : AgentState :=
  mkState (game_id st) (cc st) (keypair st) (joint_public_key st) (role st)
    (player_index st) (num_players st) (player_addresses st) (agent st) (alive
    st) (current_phase st) (current_turn st) (suspicion_notes st) (session st)
    (last_read_msg_id st) (pending_action_target st) (action_submitted st) v
    (my_encrypted_role st) (encrypted_role_vector st) (all_encrypted_roles st)
    (chat_task st) (dummy_task st) (entropy st) (outbox st).

Definition set_encrypted_role_vector (v : option string) (st : AgentState) : AgentState :=
  mkState (game_id st) (cc st) (keypair st) (joint_public_key st) (role st)
    (player_index st) (num_players st) (player_addresses st) (agent st) (alive
    st) (current_phase st) (current_turn st) (suspicion_notes st) (session st)
    (last_read_msg_id st) (pending_action_target st) (action_submitted st)
    (pending_chat_messages st) (my_encrypted_role st) v (all_encrypted_roles
    st) (chat_task st) (dummy_task st) (entropy st) (outbox st).

Definition set_chat_task (v : bool) (st : AgentState) : AgentState :=
  mkState (game_id st) (cc st) (keypair st) (joint_public_key st) (role st)
    (player_index st) (num_players st) (player_addresses st) (agent st) (alive
    st) (current_phase st) (current_turn st) (suspicion_notes st) (session st)
    (last_read_msg_id st) (pending_action_target st) (action_submitted st)
    (pending_chat_messages st) (my_encrypted_role st) (encrypted_role_vector
    st) (all_encrypted_roles st) v (dummy_task st) (entropy st) (outbox st).

Definition set_dummy_task (v : bool) (st : AgentState) : AgentState :=
  mkState (game_id st) (cc st) (keypair st) (joint_public_key st) (role st)
    (player_index st) (num_players st) (player_addresses st) (agent st) (alive
    st) (current_phase st) (current_turn st) (suspicion_notes st) (session st)
    (last_read_msg_id st) (pending_action_target st) (action_submitted st)
    (pending_chat_messages st) (my_encrypted_role st) (encrypted_role_vector
    st) (all_encrypted_roles st) (chat_task st) v (entropy st) (outbox st).

Definition set_entropy (v : nat) (st : AgentState) : AgentState :=
  mkState (game_id st) (cc st) (keypair st) (joint_public_key st) (role st)
    (player_index st) (num_players st) (player_addresses st) (agent st) (alive
    st) (current_phase st) (current_turn st) (suspicion_notes st) (session st)
    (last_read_msg_id st) (pending_action_target st) (action_submitted st)
    (pending_chat_messages st) (my_encrypted_role st) (encrypted_role_vector
    st) (all_encrypted_roles st) (chat_task st) (dummy_task st) v (outbox st).

Definition set_outbox (v : list Post) (st : AgentState) : AgentState :=
  mkState (game_id st) (cc st) (keypair st) (joint_public_key st) (role st)
    (player_index st) (num_players st) (player_addresses st) (agent st) (alive
    st) (current_phase st) (current_turn st) (suspicion_notes st) (session st)
    (last_read_msg_id st) (pending_action_target st) (action_submitted st)
    (pending_chat_messages st) (my_encrypted_role st) (encrypted_role_vector
    st) (all_encrypted_roles st) (chat_task st) (dummy_task st) (entropy st) v.

(** [AgentState.__init__]: the state of a process that has just started. *)
Definition initial_state : AgentState :=
  {| game_id := None;
     cc := None;
     keypair := None;
     joint_public_key := None;
     role := None;
     player_index := None;
     num_players := 0;
     player_addresses := [];
     agent := None;
     alive := true;
     current_phase := "setup";
     current_turn := 0;
     suspicion_notes := None;
     session := None;
     last_read_msg_id := -1;
     pending_action_target := None;
     action_submitted := false;
     pending_chat_messages := [];
     my_encrypted_role := None;
     encrypted_role_vector := None;
     all_encrypted_roles := [];
     chat_task := false;
     dummy_task := false;
     entropy := 0;
     outbox := [] |}.

(** ** DKG endpoints (src/player.py) *)

(** [POST /dkg_setup]: the identifiers are stored before the context is
    deserialized. *)
Definition dkg_setup (st : AgentState) (request : DKGSetupRequest)
    : AgentState * http string :=
  let st := set_game_id (Some (setup_game_id request)) st in
  let st := set_num_players (setup_num_players request) st in
  let st := set_player_index (Some (setup_player_index request)) st in
  match deserialize_crypto_context (setup_crypto_context request) with
  | Raise e => (st, HTTPException 500 (str_of_exn e))
  | Ok c =>
      (set_cc (Some c) st,
       Http200 ("DKG setup complete for player " +:+ pretty (setup_player_index request)))
  end.

(** [POST /dkg_round] *)
Definition dkg_round (st : AgentState) (request : DKGRoundRequest)
    : AgentState * http DKGRoundResponse :=
  match cc st with
  | None =>
      (st, HTTPException 500
             (str_of_exn (ValueError "CryptoContext not initialized. Call /dkg_setup first.")))
  | Some c =>
      let generated :=
        if (round_number request =? 1) && bool_decide (previous_public_key request = None)
        then Ok (dkg_keygen_lead c (entropy st))
        else
          let! prev_pk := deserialize_public_key c (previous_public_key request) in
          Ok (dkg_keygen_join c prev_pk (entropy st)) in
      match generated with
      | Raise e => (st, HTTPException 500 (str_of_exn e))
      | Ok (pk, sk) =>
          let st := set_keypair (Some {| publicKey := pk; secretKey := sk |}) st in
          let st := set_entropy (S (entropy st)) st in
          (st, Http200 {| public_key := serialize_public_key c pk; dkg_success := true |})
      end
  end.

(** The endpoint as reached over HTTP: the body is parsed into the request
    model first. *)
Definition dkg_round_endpoint (st : AgentState) (body : DKGRoundBody)
    : AgentState * http DKGRoundResponse :=
  dkg_round st (parse_DKGRoundRequest body).

Definition keys_not_initialized : exn :=
  ValueError "Keys not initialized. Complete DKG first.".

(** [f"Game ID mismatch: expected {state.game_id}, got {game_id}"] *)
Definition str_of_optional (o : option string) : string :=
  match o with
  | Some s => s
  | None => "None"
  end.

Definition game_id_mismatch (expected got : option string) : exn :=
  ValueError ("Game ID mismatch: expected " +:+ str_of_optional expected
              +:+ ", got " +:+ str_of_optional got).

(** [POST /generate_keyswitchgen] *)
Definition generate_keyswitchgen (st : AgentState) (request : MultKeyRequest)
    : AgentState * http MultKeyResponse :=
  (st,
   catch_500
     match cc st, keypair st with
     | Some c, Some kp =>
         if bool_decide (req_game_id request <> game_id st)
         then Raise (game_id_mismatch (game_id st) (req_game_id request))
         else
           let! prev_key := deserialize_eval_mult_key_object c (req_prev_key request) in
           let! local_key := MultiKeySwitchGen c (secretKey kp) (secretKey kp) prev_key in
           Ok (EvalKeyResponse (serialize_eval_mult_key c local_key))
     | _, _ => Raise keys_not_initialized
     end).

(** [POST /generate_multmultkey] *)
Definition generate_multmultkey (st : AgentState) (request : MultKeyRequest)
    : AgentState * http MultKeyResponse :=
  (st,
   catch_500
     match cc st, keypair st with
     | Some c, Some kp =>
         if bool_decide (req_game_id request <> game_id st)
         then Raise (game_id_mismatch (game_id st) (req_game_id request))
         else
           let! combined_key := deserialize_eval_mult_key_object c (req_combined_key request) in
           let! mult_key := MultiMultEvalKey c (secretKey kp) combined_key (req_key_tag request) in
           Ok (MultKeyResponse_ (serialize_eval_mult_key c mult_key))
     | _, _ => Raise keys_not_initialized
     end).

(** [POST /generate_mult_key] (legacy): the generated key is inserted into
    the context. *)
Definition generate_mult_key (st : AgentState) (request : MultKeyRequest)
    : AgentState * http MultKeyResponse :=
  match cc st, keypair st with
  | Some c, Some kp =>
      if bool_decide (req_game_id request <> game_id st)
      then (st, catch_500 (Raise (game_id_mismatch (game_id st) (req_game_id request))))
      else
        match EvalMultKeyGen c (secretKey kp) with
        | Raise e => (st, HTTPException 500 (str_of_exn e))
        | Ok c' => (set_cc (Some c') st, Http200 SuccessResponse)
        end
  | _, _ => (st, catch_500 (Raise keys_not_initialized))
  end.

(** The marker by which [receive_mult_keys] recognises the library's
    complaint about a key that is already in the context. *)
Definition already_saved_marker : string := "Can not save a EvalMultKeys vector".

(** The insertion loop of [receive_mult_keys]: a [RuntimeError] that carries
    the marker counts the key as skipped, any other exception leaves the loop.
    Keys inserted before an exception stay in the context. *)
Fixpoint insert_mult_keys (c : CryptoContext) (mult_keys : list string)
    (inserted_count skipped_count : Z) : CryptoContext * result (Z * Z) :=
  match mult_keys with
  | [] => (c, Ok (inserted_count, skipped_count))
  | key_b64 :: rest =>
      match deserialize_eval_mult_key c key_b64 with
      | Ok c' => insert_mult_keys c' rest (inserted_count + 1) skipped_count
      | Raise (RuntimeError msg) =>
          if str_contains already_saved_marker msg
          then insert_mult_keys c rest inserted_count (skipped_count + 1)
          else (c, Raise (RuntimeError msg))
      | Raise e => (c, Raise e)
      end
  end.

(** What the loop is meant to achieve: every key the library accepts goes
    in, a key it refuses is passed over.  Gives the resulting context and the
    keys that went in. *)
Fixpoint insert_new_keys (c : CryptoContext) (mult_keys : list string)
    : CryptoContext * list string :=
  match mult_keys with
  | [] => (c, [])
  | key_b64 :: rest =>
      match deserialize_eval_mult_key c key_b64 with
      | Ok c' => (fst (insert_new_keys c' rest), key_b64 :: snd (insert_new_keys c' rest))
      | Raise _ => insert_new_keys c rest
      end
  end.

(** [POST /receive_mult_keys] *)
Definition receive_mult_keys (st : AgentState) (request : MultKeyRequest)
    : AgentState * http MultKeyResponse :=
  match cc st with
  | None =>
      (st, catch_500 (Raise (ValueError
             "CryptoContext not initialized. Complete DKG setup first.")))
  | Some c =>
      if bool_decide (req_game_id request <> game_id st)
      then (st, catch_500 (Raise (game_id_mismatch (game_id st) (req_game_id request))))
      else
        let mult_keys := default [] (req_mult_keys request) in
        match insert_mult_keys c mult_keys 0 0 with
        | (c', Ok (inserted_count, _)) =>
            (set_cc (Some c') st, Http200 (KeysReceived inserted_count))
        | (c', Raise e) =>
            (set_cc (Some c') st, HTTPException 500 (str_of_exn e))
        end
  end.

(** ** Threshold decryption endpoints (src/player.py) *)

(** [POST /investigate_parallel]: the answer is [{"partial_result": ..}]. *)
Definition investigate_parallel (st : AgentState) (ciphertext_b64 : string)
    : http string :=
  catch_500
    match cc st, keypair st with
    | Some c, Some kp =>
        let! ciphertext := deserialize_ciphertext c ciphertext_b64 in
        let partial := partial_decrypt_main c ciphertext (secretKey kp) in
        Ok (serialize_ciphertext c partial)
    | _, _ => Raise (ValueError "Keys not initialized")
    end.

(** The processes reachable over HTTP, by address. *)
Definition network : Type := gmap string AgentState.

(** [POST /relay_decrypt].  The handler of the next party is reached through
    [client.post]; [response.raise_for_status()] turns its error answer into
    an exception here.  The recursion follows [remaining_order], which loses
    its head at every hop. *)
Fixpoint relay_decrypt (net : network) (st : AgentState) (ciphertext_b64 : string)
    (partial_results_b64 : list string) (remaining_order : list Z)
    (player_addresses : list string) : http RelayResponse :=
  match cc st, keypair st with
  | Some c, Some kp =>
      match deserialize_ciphertext c ciphertext_b64 with
      | Raise e => HTTPException 500 (str_of_exn e)
      | Ok ciphertext =>
          let partial := partial_decrypt_main c ciphertext (secretKey kp) in
          let partial_b64 := serialize_ciphertext c partial in
          let partial_results_b64 := (partial_results_b64 ++ [partial_b64])%list in
          match remaining_order with
          | [] => Http200 (PartialResults partial_results_b64)
          | next_index :: new_remaining =>
              match py_index player_addresses next_index with
              | Raise e => HTTPException 500 (str_of_exn e)
              | Ok next_address =>
                  match net !! next_address with
                  | None =>
                      HTTPException 500 (str_of_exn (ConnectError "All connection attempts failed"))
                  | Some next_player =>
                      match relay_decrypt net next_player ciphertext_b64
                              partial_results_b64 new_remaining player_addresses with
                      | HTTPException status _ =>
                          HTTPException 500 (str_of_exn (HTTPStatusError status))
                      | Http200 (PartialResults partials) =>
                          match mapM (deserialize_ciphertext c) partials with
                          | Raise e => HTTPException 500 (str_of_exn e)
                          | Ok all_partials =>
                              Http200 (DecryptedVector (fusion_decrypt c all_partials))
                          end
                      | Http200 result => Http200 result
                      end
                  end
              end
          end
      end
  | _, _ => HTTPException 500 (str_of_exn keys_not_initialized)
  end.


(** The share a party with key pair [kp] contributes for [ciphertext]. *)
Definition own_share (c : CryptoContext) (ciphertext : Ciphertext) (kp : KeyPair)
    : Ciphertext :=
  partial_decrypt_main c ciphertext (secretKey kp).

(** Player [i] of [player_addresses] is the process [p], which works in the
    context [c] with the key pair [kp], and whose share survives the wire. *)
Definition reachable (net : network) (player_addresses : list string)
    (c : CryptoContext) (ciphertext : Ciphertext) (i : Z)
    (p : AgentState * KeyPair) : Prop :=
  (exists a, py_index player_addresses i = Ok a /\ net !! a = Some (fst p))
  /\ cc (fst p) = Some c
  /\ keypair (fst p) = Some (snd p)
  /\ deserialize_ciphertext c (serialize_ciphertext c (own_share c ciphertext (snd p)))
     = Ok (own_share c ciphertext (snd p)).

(** Whether an answer of /relay_decrypt is a list of shares. *)
Definition is_share_list (r : http RelayResponse) : bool :=
  match r with
  | Http200 (PartialResults _) => true
  | _ => false
  end.

(** ** Blind role assignment (src/player.py) *)

(** [POST /complete_role_decryption]; [conversation] is the outcome of the
    call to the Conversations API.  The role is assigned before that call, so
    it stays assigned when the call fails. *)
Definition complete_role_decryption (st : AgentState)
    (partial_ciphertexts_b64 : list string) (conversation : result string)
    : AgentState * http string :=
  let fused :=
    let! c := require "cc" (cc st) in
    let! partial_results := mapM (deserialize_ciphertext c) partial_ciphertexts_b64 in
    let! my_encrypted_role := require "my_encrypted_role" (my_encrypted_role st) in
    let! my_role_enc := deserialize_ciphertext c my_encrypted_role in
    let! kp := require "keypair" (keypair st) in
    let my_partial := partial_decrypt_main c my_role_enc (secretKey kp) in
    let partial_results := (partial_results ++ [my_partial])%list in
    Ok (py_take NUM_ROLE_TYPES (fusion_decrypt c partial_results)) in
  match fused with
  | Raise e => (st, HTTPException 500 (str_of_exn e))
  | Ok decrypted_vector =>
      let my_role := one_hot_to_role decrypted_vector in
      let st := set_role (Some (str_lower my_role)) st in
      let st := set_encrypted_role_vector (my_encrypted_role st) st in
      let st :=
        if bool_decide (role st = Some "police")
        then set_suspicion_notes
               (Some (Suspicion.init Suspicion.PoliceNoteManager (num_players st) (player_index st))) st
        else set_suspicion_notes
               (Some (Suspicion.init Suspicion.SuspicionNoteManager (num_players st) (player_index st))) st in
      match conversation with
      | Raise e => (st, HTTPException 500 (str_of_exn e))
      | Ok conversation_id =>
          let st := set_session (Some conversation_id) st in
          let st := set_last_read_msg_id (-1) st in
          let st := set_agent (Some {| tools := "" |}) st in
          (st, Http200 (default "" (role st)))
      end
  end.

(** ** Parallel investigation (src/service/agent/agent_service.py) *)

(** [collect_partial(player_idx, address)]: one request to a peer, bounded by
    the client's timeout; every failure (no answer in time, an error answer,
    an answer without the key) gives [None]. *)
Definition collect_partial (net : network) (investigate_result_b64 : string)
    (address : option string) : option string :=
  match address with
  | None => None
  | Some a =>
      match net !! a with
      | None => None
      | Some peer =>
          match investigate_parallel peer investigate_result_b64 with
          | Http200 partial_result => Some partial_result
          | HTTPException _ _ => None
          end
      end
  end.

(** The address list built by [_execute_police_investigation]. *)
Definition investigation_addresses (st : AgentState) : result (list (option string)) :=
  mapM (fun i =>
          if i =? 0 then Ok (Some "http://localhost:9000")
          else if bool_decide (Some i = player_index st) then Ok None
          else
            match player_addresses st with
            | [] => Ok (Some ("http://localhost:" +:+ pretty (8764 + i)))
            | _ => let! a := py_index (player_addresses st) i in Ok (Some a)
            end)
       (range (num_players st)).

(** The addresses that get a request: every index but the investigator's own,
    when the address is set. *)
Definition investigation_targets (st : AgentState) (addresses : list (option string))
    : list (option string) :=
  snd <$> List.filter (fun ia => bool_decide (Some (fst ia) <> player_index st)
                                 && from_option str_truthy false (snd ia))
                      (zip (range (num_players st)) addresses).

(** The shares the investigator fuses: its own, then the one of every peer
    that answered, in index order. *)
Definition gather_partials (st : AgentState) (net : network)
    (c : CryptoContext) (my_partial : Ciphertext) (investigate_result_b64 : string)
    : result (list Ciphertext) :=
  let! addresses := investigation_addresses st in
  let partial_results :=
    collect_partial net investigate_result_b64 <$> investigation_targets st addresses in
  let answered := List.filter str_truthy (omap id partial_results) in
  let! partials := mapM (deserialize_ciphertext c) answered in
  Ok (my_partial :: partials).

(** The text returned to the agent, as data: the target and the verdict. *)
Record InvestigationReport : Type := {
  report_target : Z;
  report_is_mafia : bool
}.

(** [_execute_police_investigation(state, target_index)] *)
Definition _execute_police_investigation (st : AgentState) (net : network)
    (target_index : Z) : AgentState * result InvestigationReport :=
  let verdict :=
    let! target_role_enc_b64 := py_index (all_encrypted_roles st) target_index in
    let! c := require "cc" (cc st) in
    let! target_role_enc := deserialize_ciphertext c target_role_enc_b64 in
    let mafia_check_vector := [0; 1; 0; 0] in
    let investigate_result_enc := homomorphic_dot_product c target_role_enc mafia_check_vector in
    let investigate_result_b64 := serialize_ciphertext c investigate_result_enc in
    let! kp := require "keypair" (keypair st) in
    let my_partial := partial_decrypt_main c investigate_result_enc (secretKey kp) in
    let! all_partials := gather_partials st net c my_partial investigate_result_b64 in
    let decrypted_vector := fusion_decrypt c all_partials in
    Ok (1 <=? py_sum (py_take NUM_ROLE_TYPES decrypted_vector)) in
  match verdict with
  | Raise e => (st, Raise e)
  | Ok is_mafia =>
      let st :=
        match suspicion_notes st with
        | Some m =>
            match Suspicion.cls m with
            | Suspicion.PoliceNoteManager =>
                set_suspicion_notes
                  (Some (fst (Suspicion.add_investigation_result m target_index is_mafia
                                (current_turn st)))) st
            | Suspicion.SuspicionNoteManager => st
            end
        | None => st
        end in
      let st := set_pending_action_target (Some target_index) st in
      let st := set_action_submitted true st in
      (st, Ok {| report_target := target_index; report_is_mafia := is_mafia |})
  end.


(** ** Handlers as state transformers

    The action handlers assign attributes of [state] between calls that can
    raise; [py A] threads the state through and keeps the assignments made
    before an exception. *)

Definition py (A : Type) : Type := AgentState -> AgentState * result A.

Definition pure {A : Type} (a : A) : py A := fun st => (st, Ok a).

Definition bind {A B : Type} (m : py A) (k : A -> py B) : py B :=
  fun st =>
    match m st with
    | (st', Ok a) => k a st'
    | (st', Raise e) => (st', Raise e)
    end.

Definition lift {A : Type} (r : result A) : py A := fun st => (st, r).

Definition get : py AgentState := fun st => (st, Ok st).

Definition assign (f : AgentState -> AgentState) : py unit := fun st => (f st, Ok tt).

Notation "'let*' x ':=' m 'in' k" := (bind m (fun x => k))
  (at level 10, x pattern, m at level 100, k at level 200) : py_scope.

(** [create_zero_vector(state.num_players, state.cc, state.joint_public_key)]
    followed by nothing else: one fresh encryption of the zero vector. *)
Definition create_zero_vector : py Ciphertext :=
  let* st := get in
  let* c := lift (require "cc" (cc st)) in
  let* pk := lift (require "joint_public_key" (joint_public_key st)) in
  let* _ := assign (set_entropy (S (entropy st))) in
  pure (encrypt c pk (zero_plain (num_players st)) (entropy st)).

(** [create_one_hot_vector(state.num_players, index, state.cc,
    state.joint_public_key)] *)
Definition create_one_hot_vector (index : Z) : py Ciphertext :=
  let* st := get in
  let* c := lift (require "cc" (cc st)) in
  let* pk := lift (require "joint_public_key" (joint_public_key st)) in
  let* _ := assign (set_entropy (S (entropy st))) in
  pure (encrypt c pk (one_hot_plain (num_players st) index) (entropy st)).

(** [serialize_ciphertext(state.cc, ct)] *)
Definition serialize (ct : Ciphertext) : py string :=
  let* st := get in
  let* c := lift (require "cc" (cc st)) in
  pure (serialize_ciphertext c ct).

(** [state.agent.tools = create_agent_tools(state, phase=p)] *)
Definition set_tools (p : string) : py unit :=
  let* st := get in
  let* _ := lift (require "agent" (agent st)) in
  assign (set_agent (Some {| tools := p |})).

(** ** Action handlers (src/action_handlers.py) *)

(** The effect of a run that called an action tool. *)
Definition submit (target : option Z) : py unit :=
  let* _ := assign (set_pending_action_target target) in
  assign (set_action_submitted true).

(** [call_ai_with_retry(state, prompt)]: a first run, and a reminder run when
    no action was submitted; an exception of the reminder run is caught. *)
Definition call_ai_with_retry (runs : AIRuns) : py bool :=
  let* _ :=
    match first_run runs with
    | Submitted target => submit target
    | NotSubmitted => pure tt
    | RunRaised e => lift (Raise e)
    end in
  let* st := get in
  if action_submitted st then pure true
  else
    match reminder_run runs with
    | Submitted target =>
        let* _ := submit target in
        pure true
    | NotSubmitted | RunRaised _ =>
        let* _ := assign (set_pending_action_target None) in
        pure false
    end.

(** [handle_vote_phase(state, request)] *)
Definition handle_vote_phase (request : GameUpdateRequest) (runs : AIRuns)
    : py (string * string * string) :=
  let* _ := set_tools "vote" in
  let* _ := call_ai_with_retry runs in
  let* st := get in
  let* vote_vec :=
    match pending_action_target st with
    | Some target => if 0 <=? target then create_one_hot_vector target else create_zero_vector
    | None => create_zero_vector
    end in
  let* attack_vec := create_zero_vector in
  let* heal_vec := create_zero_vector in
  let* vote_b64 := serialize vote_vec in
  let* attack_b64 := serialize attack_vec in
  let* heal_b64 := serialize heal_vec in
  pure (vote_b64, attack_b64, heal_b64).

(** [asyncio.create_task(send_dummy_investigation_packets(state))]: the task
    is queued and runs once the handler gives the event loop control. *)
Definition create_dummy_task : py unit := assign (set_dummy_task true).

(** [handle_night_phase(state, request)]; the citizen's random sleep takes
    time only. *)
Definition handle_night_phase (request : GameUpdateRequest) (runs : AIRuns)
    : py (option Z) :=
  let* st := get in
  let* _ := assign (set_current_turn (current_turn st + 1)) in
  if bool_decide (role st = Some "citizen") then
    let* _ := assign (set_pending_action_target None) in
    let* _ := assign (set_action_submitted true) in
    let* _ := create_dummy_task in
    pure None
  else
    let* _ := set_tools "night" in
    let* _ := call_ai_with_retry runs in
    let* st := get in
    pure (pending_action_target st).

(** [handle_chat_phase(state, request)]: starts the background chat task and
    answers with one zero-vector ciphertext in all three places. *)
Definition handle_chat_phase (request : GameUpdateRequest)
    : py (string * string * string) :=
  let* _ := set_tools "chat" in
  let* _ := assign (set_chat_task true) in
  let* zero_vec := create_zero_vector in
  let* zero_vec_b64 := serialize zero_vec in
  pure (zero_vec_b64, zero_vec_b64, zero_vec_b64).

(** [generate_vote_vector(state, target_index)] *)
Definition generate_vote_vector (target_index : option Z)
    : py (string * string * string) :=
  let* vote_vec :=
    match target_index with
    | Some target => if 0 <=? target then create_one_hot_vector target else create_zero_vector
    | None => create_zero_vector
    end in
  let* attack_vec := create_zero_vector in
  let* heal_vec := create_zero_vector in
  let* vote_b64 := serialize vote_vec in
  let* attack_b64 := serialize attack_vec in
  let* heal_b64 := serialize heal_vec in
  pure (vote_b64, attack_b64, heal_b64).

(** [_generate_night_vectors(state, target_index)] *)
Definition _generate_night_vectors (target_index : Z) : py Ciphertext :=
  create_one_hot_vector target_index.

(** [generate_night_work_vectors(state, phase, target_index)]: three zero
    vectors first, then the role's own vector replaces one of them. *)
Definition generate_night_work_vectors (phase : string) (target_index : option Z)
    : py (string * string * string) :=
  if bool_decide (phase = "vote") then generate_vote_vector target_index
  else
    let* vote_vec := create_zero_vector in
    let* attack_vec := create_zero_vector in
    let* heal_vec := create_zero_vector in
    let* st := get in
    let* vecs :=
      if bool_decide (phase = "night") then
        match target_index with
        | Some target =>
            if bool_decide (role st = Some "mafia") then
              let* attack_vec := _generate_night_vectors target in
              pure (attack_vec, heal_vec)
            else if bool_decide (role st = Some "doctor") then
              let* heal_vec := _generate_night_vectors target in
              pure (attack_vec, heal_vec)
            else pure (attack_vec, heal_vec)
        | None => pure (attack_vec, heal_vec)
        end
      else pure (attack_vec, heal_vec) in
    let* vote_b64 := serialize vote_vec in
    let* attack_b64 := serialize (fst vecs) in
    let* heal_b64 := serialize (snd vecs) in
    pure (vote_b64, attack_b64, heal_b64).

(** The address [send_dummy_investigation_packets] derives for player [i]. *)
Definition dummy_address (i : Z) : string :=
  "http://localhost:" +:+ pretty (if i =? 0 then 9000 else 8764 + i).

(** [send_dummy_investigation_packets(state)]: one zero-vector ciphertext,
    posted to /investigate_parallel of every other player. *)
Definition send_dummy_investigation_packets : py unit :=
  let* zero_vec := create_zero_vector in
  let* dummy_ciphertext := serialize zero_vec in
  let* st := get in
  let tasks :=
    (fun i => {| post_url := dummy_address i +:+ "/investigate_parallel";
                 post_ciphertext := dummy_ciphertext |})
      <$> List.filter (fun i => bool_decide (Some i <> player_index st))
                      (range (num_players st)) in
  assign (set_outbox (outbox st ++ tasks)%list).

(** The event loop runs a queued task after the handler; an exception inside
    a task stays inside it. *)
Definition run_queued_tasks (st : AgentState) : AgentState :=
  if dummy_task st
  then fst (send_dummy_investigation_packets (set_dummy_task false st))
  else st.

(** ** The action endpoint (src/player.py) *)

(** The loop that marks the players missing from [survivors] as dead in the
    suspicion notes. *)
Definition mark_dead_players (request : GameUpdateRequest) (st : AgentState)
    : AgentState :=
  match suspicion_notes st with
  | Some m =>
      set_suspicion_notes
        (Some (foldl (fun m i =>
                        if negb (bool_decide (i ∈ survivors request))
                           && bool_decide (Some i <> player_index st)
                        then Suspicion.mark_player_dead m i else m)
                     m (range (num_players st)))) st
  | None => st
  end.

Definition action_response (request : GameUpdateRequest)
    (vectors : string * string * string) : ActionResponse :=
  {| vote_vector := fst (fst vectors);
     attack_vector := snd (fst vectors);
     heal_vector := snd vectors;
     resp_phase := phase request;
     chat_messages := [] |}.

(** The body of [request_action] inside its [try]. *)
Definition request_action_body (request : GameUpdateRequest) (runs : AIRuns)
    : py ActionResponse :=
  let* _ := assign (set_chat_task false) in
  let* _ := assign (set_action_submitted false) in
  let* _ := assign (set_pending_action_target None) in
  let* _ := assign (set_pending_chat_messages []) in
  let* _ := assign (set_current_phase (phase request)) in
  let* st := get in
  let* _ :=
    if negb (py_in (player_index st) (survivors request))
    then assign (set_alive false) else pure tt in
  let* _ := assign (mark_dead_players request) in
  let* st := get in
  if negb (alive st) then
    let* encrypted_vector := create_zero_vector in
    let* ct_b64 := serialize encrypted_vector in
    pure (action_response request (ct_b64, ct_b64, ct_b64))
  else
    let* vectors :=
      if bool_decide (phase request = "vote") then handle_vote_phase request runs
      else if bool_decide (phase request = "night") then
        let* target_index := handle_night_phase request runs in
        let* _ := assign (set_pending_action_target target_index) in
        generate_night_work_vectors (phase request) target_index
      else if bool_decide (phase request = "chat") || bool_decide (phase request = "day")
      then handle_chat_phase request
      else
        let* zero_vec := create_zero_vector in
        let* zero_vec_b64 := serialize zero_vec in
        pure (zero_vec_b64, zero_vec_b64, zero_vec_b64) in
    pure (action_response request vectors).

(** [POST /request_action]: the answer, and the state once the event loop has
    run what the handler queued. *)
Definition request_action (st : AgentState) (request : GameUpdateRequest)
    (runs : AIRuns) : AgentState * http ActionResponse :=
  match request_action_body request runs st with
  | (st', r) => (run_queued_tasks st', catch_500 r)
  end.

(** ** Further endpoints (src/player.py) *)

Definition set_joint_public_key (v : option PublicKey) (st : AgentState) : AgentState :=
  mkState (game_id st) (cc st) (keypair st) v (role st) (player_index st)
    (num_players st) (player_addresses st) (agent st) (alive st)
    (current_phase st) (current_turn st) (suspicion_notes st) (session st)
    (last_read_msg_id st) (pending_action_target st) (action_submitted st)
    (pending_chat_messages st) (my_encrypted_role st) (encrypted_role_vector
    st) (all_encrypted_roles st) (chat_task st) (dummy_task st) (entropy st)
    (outbox st).

Definition set_player_addresses (v : list string) (st : AgentState) : AgentState :=
  mkState (game_id st) (cc st) (keypair st) (joint_public_key st) (role st)
    (player_index st) (num_players st) v (agent st) (alive st)
    (current_phase st) (current_turn st) (suspicion_notes st) (session st)
    (last_read_msg_id st) (pending_action_target st) (action_submitted st)
    (pending_chat_messages st) (my_encrypted_role st) (encrypted_role_vector
    st) (all_encrypted_roles st) (chat_task st) (dummy_task st) (entropy st)
    (outbox st).

Definition set_my_encrypted_role (v : option string) (st : AgentState) : AgentState :=
  mkState (game_id st) (cc st) (keypair st) (joint_public_key st) (role st)
    (player_index st) (num_players st) (player_addresses st) (agent st) (alive
    st) (current_phase st) (current_turn st) (suspicion_notes st) (session st)
    (last_read_msg_id st) (pending_action_target st) (action_submitted st)
    (pending_chat_messages st) v (encrypted_role_vector st)
    (all_encrypted_roles st) (chat_task st) (dummy_task st) (entropy st)
    (outbox st).

Definition set_all_encrypted_roles (v : list string) (st : AgentState) : AgentState :=
  mkState (game_id st) (cc st) (keypair st) (joint_public_key st) (role st)
    (player_index st) (num_players st) (player_addresses st) (agent st) (alive
    st) (current_phase st) (current_turn st) (suspicion_notes st) (session st)
    (last_read_msg_id st) (pending_action_target st) (action_submitted st)
    (pending_chat_messages st) (my_encrypted_role st) (encrypted_role_vector
    st) v (chat_task st) (dummy_task st) (entropy st) (outbox st).

(** [POST /partial_decrypt] *)
Definition partial_decrypt (st : AgentState) (request : PartialDecryptRequest)
    : http PartialDecryptResponse :=
  catch_500
    match cc st, keypair st with
    | Some c, Some kp =>
        let! ciphertext := deserialize_ciphertext c (pd_ciphertext request) in
        let partial :=
          if is_lead request
          then partial_decrypt_lead c ciphertext (secretKey kp)
          else partial_decrypt_main c ciphertext (secretKey kp) in
        Ok {| partial_ciphertext := serialize_ciphertext c partial; pd_success := true |}
    | _, _ => Raise keys_not_initialized
    end.

(** [POST /blind_role_assignment]: the joint key, the role list and the
    address list are stored before the party's own entry is looked up and
    deserialized. *)
Definition blind_role_assignment (st : AgentState) (request : BlindRoleRequest)
    : AgentState * http string :=
  let joint :=
    let! c := require "cc" (cc st) in
    deserialize_public_key c (Some (blind_joint_public_key request)) in
  match joint with
  | Raise e => (st, HTTPException 500 (str_of_exn e))
  | Ok pk =>
      let st := set_joint_public_key (Some pk) st in
      let st := set_all_encrypted_roles (blind_encrypted_roles request) st in
      let st :=
        match blind_player_addresses request with
        | Some addresses => set_player_addresses addresses st
        | None => st
        end in
      let mine :=
        let! enc := py_index (blind_encrypted_roles request) (blind_my_index request) in
        let! c := require "cc" (cc st) in
        let! _ := deserialize_ciphertext c enc in
        Ok enc in
      match mine with
      | Raise e => (st, HTTPException 500 (str_of_exn e))
      | Ok enc =>
          (set_my_encrypted_role (Some enc) st, Http200 "Waiting for threshold decryption")
      end
  end.

(** [POST /get_encrypted_role_vector] *)
Definition get_encrypted_role_vector (st : AgentState) : http string :=
  catch_500
    match encrypted_role_vector st with
    | None => Raise (ValueError "Encrypted role vector not available")
    | Some v => Ok v
    end.

(** [GET /reveal_role] *)
Definition reveal_role (st : AgentState) : http string :=
  match role st with
  | None => HTTPException 400 "Role not assigned yet"
  | Some r => Http200 r
  end.

(** [GET /chat/messages]: the queue is handed over and emptied. *)
Definition get_chat_messages (st : AgentState) : AgentState * list string :=
  (set_pending_chat_messages [] st, pending_chat_messages st).

(** The reasoning text of the note the death announcement tries to write. *)
Definition death_reasoning (role : string) : string :=
  "사망 확인 - 역할: " +:+ str_upper role.

(** What one entry of the announcement does to the notes:
    [mark_player_dead] and then [write_note] with the level
    ["confirmed_dead"].  An entry without a player index is no key of the
    notes; in [write_note] it equals the owner's index only when that is
    [None] too, and otherwise the comparison [None < 0] raises. *)
Definition announce_death (current_turn : Z) (m : Suspicion.manager) (death : Death)
    : result Suspicion.manager :=
  match death_player_index death with
  | Some i =>
      let m := Suspicion.mark_player_dead m i in
      Ok (fst (Suspicion.write_note m i "confirmed_dead"
                 (death_reasoning (death_role death)) current_turn false))
  | None =>
      if bool_decide (Suspicion.player_index m = None) then Ok m
      else Raise (TypeError "'<' not supported between instances of 'NoneType' and 'int'")
  end.

(** [POST /death_announcement].  The handler has no [try]: an exception
    ends the loop and the framework answers 500. *)
Fixpoint receive_death_announcement (st : AgentState) (deaths : list Death)
    : AgentState * http string :=
  match deaths with
  | [] => (st, Http200 "ok")
  | death :: rest =>
      match suspicion_notes st with
      | Some m =>
          match announce_death (current_turn st) m death with
          | Ok m' => receive_death_announcement (set_suspicion_notes (Some m') st) rest
          | Raise _ => (st, HTTPException 500 "Internal Server Error")
          end
      | None => receive_death_announcement st rest
      end
  end.

(** ** The agent's tools (src/agent_logic.py) *)

(** What a tool returns to the agent, as data. *)
Inductive tool_reply : Type :=
| DeadCannotAct                        (* the refusal given to a dead player *)
| AlreadySubmitted                     (* "You have already submitted ... for this phase." *)
| TargetRecorded (target_index : Z)    (* "Vote submitted: Player {i}", "Mafia kill: Player {i}", "Doctor heal: {i}" *)
| NoTarget                             (* "Vote abstained", "...: Invalid target (...)" *)
| InvestigationResult (report : InvestigationReport)
| InvestigationFailed (e : exn)        (* "Investigation failed due to error: {e}" *)
| MessageSent (text : string)
| NotesNotInitialized
| NoteReply (msg : Suspicion.message)
| OnlyPolice                           (* "ERROR: Only Police can use this tool." *)
| NotPoliceManager                     (* "ERROR: Police note manager not properly initialized." *)
| ToolText.                            (* the text of a tool that changes nothing here *)

(** [read_chat_messages]: the read position moves to the latest message. *)
Definition read_chat_messages (latest_id : Z) (st : AgentState)
    : AgentState * tool_reply :=
  (if 0 <=? latest_id then set_last_read_msg_id latest_id st else st, ToolText).

(** [send_chat_message(message)]; the typing delay takes time only. *)
Definition send_chat_message (text : string) (st : AgentState)
    : AgentState * tool_reply :=
  if negb (alive st) then (st, DeadCannotAct)
  else (set_pending_chat_messages (pending_chat_messages st ++ [text])%list st,
        MessageSent text).

(** [write_suspicion_note(player_index, suspicion_level, reasoning)] *)
Definition write_suspicion_note (index : Z) (suspicion_level why : string)
    (st : AgentState) : AgentState * tool_reply :=
  match suspicion_notes st with
  | None => (st, NotesNotInitialized)
  | Some m =>
      match Suspicion.write_note m index suspicion_level why (current_turn st) false with
      | (m', msg) => (set_suspicion_notes (Some m') st, NoteReply msg)
      end
  end.

(** [submit_vote(target_index)] *)
Definition submit_vote (target_index : Z) (st : AgentState) : AgentState * tool_reply :=
  if negb (alive st) then (st, DeadCannotAct)
  else if action_submitted st then (st, AlreadySubmitted)
  else if (0 <=? target_index) && (target_index <? num_players st)
          && bool_decide (Some target_index <> player_index st)
  then (set_action_submitted true (set_pending_action_target (Some target_index) st),
        TargetRecorded target_index)
  else (set_action_submitted true (set_pending_action_target None st), NoTarget).

(** [mafia_kill(target_index)] *)
Definition mafia_kill (target_index : Z) (st : AgentState) : AgentState * tool_reply :=
  if negb (alive st) then (st, DeadCannotAct)
  else if action_submitted st then (st, AlreadySubmitted)
  else if (0 <=? target_index) && (target_index <? num_players st)
          && bool_decide (Some target_index <> player_index st)
  then (set_action_submitted true (set_pending_action_target (Some target_index) st),
        TargetRecorded target_index)
  else (set_action_submitted true (set_pending_action_target None st), NoTarget).

(** [doctor_heal(target_index)]: the doctor may name itself. *)
Definition doctor_heal (target_index : Z) (st : AgentState) : AgentState * tool_reply :=
  if negb (alive st) then (st, DeadCannotAct)
  else if action_submitted st then (st, AlreadySubmitted)
  else if (0 <=? target_index) && (target_index <? num_players st)
  then (set_action_submitted true (set_pending_action_target (Some target_index) st),
        TargetRecorded target_index)
  else (set_action_submitted true (set_pending_action_target None st), NoTarget).

(** [police_investigate(target_index)]: an exception of the investigation
    is caught, and the action counts as submitted. *)
Definition police_investigate (net : network) (target_index : Z) (st : AgentState)
    : AgentState * tool_reply :=
  if negb (alive st) then (st, DeadCannotAct)
  else if action_submitted st then (st, AlreadySubmitted)
  else if (0 <=? target_index) && (target_index <? num_players st)
          && bool_decide (Some target_index <> player_index st)
  then
    match _execute_police_investigation st net target_index with
    | (st', Ok report) => (st', InvestigationResult report)
    | (st', Raise e) => (set_action_submitted true st', InvestigationFailed e)
    end
  else (set_action_submitted true (set_pending_action_target None st), NoTarget).

(** [record_investigation_result(target_index, is_mafia)] *)
Definition record_investigation_result (target_index : Z) (is_mafia : bool)
    (st : AgentState) : AgentState * tool_reply :=
  if bool_decide (role st <> Some "police") then (st, OnlyPolice)
  else
    match suspicion_notes st with
    | None => (st, NotesNotInitialized)
    | Some m =>
        match Suspicion.cls m with
        | Suspicion.SuspicionNoteManager => (st, NotPoliceManager)
        | Suspicion.PoliceNoteManager =>
            match Suspicion.add_investigation_result m target_index is_mafia
                    (current_turn st) with
            | (m', msg) => (set_suspicion_notes (Some m') st, NoteReply msg)
            end
        end
    end.

(** One tool call, and the calls of a run in order. *)
Definition run_tool (net : network) (st : AgentState) (c : tool_call) : AgentState :=
  fst match c with
      | call_read_chat_messages latest_id => read_chat_messages latest_id st
      | call_send_chat_message text => send_chat_message text st
      | call_write_suspicion_note index suspicion_level why =>
          write_suspicion_note index suspicion_level why st
      | call_submit_vote target_index => submit_vote target_index st
      | call_mafia_kill target_index => mafia_kill target_index st
      | call_doctor_heal target_index => doctor_heal target_index st
      | call_police_investigate target_index => police_investigate net target_index st
      | call_record_investigation_result target_index is_mafia =>
          record_investigation_result target_index is_mafia st
      | call_memory _ => (st, ToolText)
      end.

Definition run_tools (net : network) (st : AgentState) (calls : list tool_call)
    : AgentState :=
  foldl (run_tool net) st calls.

(** ** Notions used to state the properties of the action endpoint *)

(** [m] leaves the attribute [f] as it finds it, whether it returns or
    raises. *)
Definition preserves {A F : Type} (f : AgentState -> F) (m : py A) : Prop :=
  forall st, f (fst (m st)) = f st.

(** Run from a state in [P], [m] returns a value and a state in [Q], or it
    raises an exception and leaves a state in [E]. *)
Definition outcome {A : Type} (P : AgentState -> Prop) (m : py A)
    (Q : A -> AgentState -> Prop) (E : exn -> AgentState -> Prop) : Prop :=
  forall st, P st ->
    match m st with
    | (st', Ok a) => Q a st'
    | (st', Raise e) => E e st'
    end.

(** The party has its context, the joint key and its agent. *)
Definition initialised (st : AgentState) : Prop :=
  is_Some (cc st) /\ is_Some (joint_public_key st) /\ is_Some (agent st).

(** The submission flags of [st] fit a run of the agent of [st0] in [phase]:
    the party is the same, a target is pending only once an action was
    submitted, actions are submitted in the vote and night phases only, and
    a pending target is a player of the game, the party itself only for a
    Doctor at night. *)
Definition consistent_submission (st0 : AgentState) (phase : string) (st : AgentState)
    : Prop :=
  role st = role st0 /\ num_players st = num_players st0
  /\ player_index st = player_index st0
  /\ (action_submitted st = false -> pending_action_target st = None)
  /\ (action_submitted st = true -> phase = "vote" \/ phase = "night")
  /\ (forall t, pending_action_target st = Some t ->
        0 <= t < num_players st0
        /\ (Some t = player_index st0 -> phase = "night" /\ role st0 = Some "doctor")).

(** [field] is the serialized encryption of [v] made with the draw [draw]. *)
Definition encrypts (c : CryptoContext) (pk : PublicKey) (field : string)
    (v : list Z) (draw : nat) : Prop :=
  field = serialize_ciphertext c (encrypt c pk v draw).

(** The vote of the vote phase: a one-hot vector at a non-negative target, or
    the zero vector. *)
Definition vote_plain (n : Z) (v : list Z) : Prop :=
  v = zero_plain n \/ exists t, 0 <= t /\ v = one_hot_plain n t.

(** The attack and heal plaintexts of a night round and the draws that
    encrypt them, counted from the draw of the vote vector. *)
Definition night_vectors (st : AgentState) (target : option Z)
    : (list Z * nat) * (list Z * nat) :=
  let n := num_players st in
  match target with
  | Some t =>
      if bool_decide (role st = Some "mafia")
      then ((one_hot_plain n t, 3%nat), (zero_plain n, 2%nat))
      else if bool_decide (role st = Some "doctor")
      then ((zero_plain n, 1%nat), (one_hot_plain n t, 3%nat))
      else ((zero_plain n, 1%nat), (zero_plain n, 2%nat))
  | None => ((zero_plain n, 1%nat), (zero_plain n, 2%nat))
  end.

(** The components the vector codec reads are the same in both states. *)
Definition same_codec (st st' : AgentState) : Prop :=
  cc st' = cc st /\ joint_public_key st' = joint_public_key st
  /\ num_players st' = num_players st /\ role st' = role st.


End Agent.

(** ** A small instance of the capability

    An additive masking scheme over [Z], used to run the handlers on concrete
    inputs.  A ciphertext is its nonce followed by the masked payload; the
    joint public key is the sum of the secret shares; every share removes its
    own part of the mask.  It makes no claim of security. *)

Module Toy.

(** Decimal text of an integer list, and back. *)
Fixpoint parse_digits (acc : Z) (s : string) : option Z :=
  match s with
  | EmptyString => Some acc
  | String c s' =>
      match Ascii.is_nat c with
      | Some d => parse_digits (10 * acc + Z.of_nat d) s'
      | None => None
      end
  end.

Definition parse_Z (s : string) : result Z :=
  match s with
  | EmptyString => Raise (RuntimeError "empty number")
  | String "-" (String c s') =>
      match parse_digits 0 (String c s') with
      | Some n => Ok (- n)
      | None => Raise (RuntimeError "malformed number")
      end
  | _ =>
      match parse_digits 0 s with
      | Some n => Ok n
      | None => Raise (RuntimeError "malformed number")
      end
  end.

Fixpoint split_commas (cur : string) (s : string) : list string :=
  match s with
  | EmptyString => [String.rev cur]
  | String "," s' => String.rev cur :: split_commas EmptyString s'
  | String c s' => split_commas (String c cur) s'
  end.

Definition print_list (l : list Z) : string := String.concat "," (pretty <$> l).

Definition parse_list (s : string) : result (list Z) :=
  mapM parse_Z (split_commas EmptyString s).

(** A share repeats the payload and appends, per slot, the part of the mask
    that the holder of [sk] removes; the head tells lead from non-lead. *)
Definition share (ct : list Z) (sk : Z) (lead : bool) : list Z :=
  match ct with
  | [] => []
  | c1 :: payload =>
      ((if lead then 1 else 0) :: payload ++ ((fun _ => - c1 * sk) <$> payload))%list
  end.

Definition payload_of (s : list Z) : list Z :=
  take (length (tail s) / 2)%nat (tail s).

Definition correction_of (s : list Z) : list Z :=
  drop (length (tail s) / 2)%nat (tail s).

Fixpoint add_vectors (a b : list Z) : list Z :=
  match a, b with
  | x :: a', y :: b' => (x + y) :: add_vectors a' b'
  | _, [] => a
  | [], _ => b
  end.

(** The payload of the first share plus every share's correction. *)
Definition fuse (shares : list (list Z)) : list Z :=
  foldr add_vectors (from_option payload_of [] (head shares)) (correction_of <$> shares).

Fixpoint dot (a b : list Z) : Z :=
  match a, b with
  | x :: a', y :: b' => x * y + dot a' b'
  | _, _ => 0
  end.

Definition role_of (v : list Z) : string :=
  match v with
  | [1; 0; 0; 0] => "Citizen"
  | [0; 1; 0; 0] => "Mafia"
  | [0; 0; 1; 0] => "Doctor"
  | [0; 0; 0; 1] => "Police"
  | _ => "Unknown"
  end.

Definition insert_key (c : list string) (key_b64 : string) : result (list string) :=
  if bool_decide (key_b64 ∈ c)
  then Raise (RuntimeError
                "Can not save a EvalMultKeys vector with the key ID that already exists")
  else if str_truthy key_b64 then Ok (key_b64 :: c)
  else Raise (RuntimeError "Cannot deserialize an empty key").

Definition parse_optional (o : option string) : result Z :=
  match o with
  | Some s => parse_Z s
  | None => Raise (TypeError "expected str, got NoneType")
  end.

#[global] Instance fhe : FHE := {|
  CryptoContext := list string;
  SecretKey := Z;
  PublicKey := Z;
  Ciphertext := list Z;
  EvalKey := Z;
  dkg_keygen_lead := fun _ draw => (Z.of_nat draw + 1, Z.of_nat draw + 1);
  dkg_keygen_join := fun _ prev draw => (prev + Z.of_nat draw + 1, Z.of_nat draw + 1);
  deserialize_crypto_context := fun _ => Ok [];
  serialize_public_key := fun _ pk => pretty pk;
  deserialize_public_key := fun _ => parse_optional;
  serialize_ciphertext := fun _ => print_list;
  deserialize_ciphertext := fun _ => parse_list;
  serialize_eval_mult_key := fun _ k => pretty k;
  deserialize_eval_mult_key_object := fun _ => parse_optional;
  deserialize_eval_mult_key := insert_key;
  MultiKeySwitchGen := fun _ sk _ prev => Ok (prev + sk);
  MultiMultEvalKey := fun _ sk combined _ => Ok (combined * sk);
  EvalMultKeyGen := fun c sk => Ok (pretty sk :: c);
  partial_decrypt_lead := fun _ ct sk => share ct sk true;
  partial_decrypt_main := fun _ ct sk => share ct sk false;
  fusion_decrypt := fun _ => fuse;
  encrypt := fun _ pk v draw =>
    (Z.of_nat draw + 1) :: ((fun x => x + (Z.of_nat draw + 1) * pk) <$> v);
  homomorphic_dot_product := fun _ ct v =>
    match ct with
    | [] => []
    | c1 :: payload => [c1; dot payload v]
    end;
  one_hot_to_role := role_of
|}.

(** A four-player game after DKG: player [i] holds the secret share [i + 1],
    the joint public key is 10, and the roles are 0 Citizen, 1 Mafia,
    2 Doctor, 3 Police. *)
Definition joint_key : Z := 10.

Definition role_name (i : Z) : string :=
  match i with
  | 0 => "citizen"
  | 1 => "mafia"
  | 2 => "doctor"
  | _ => "police"
  end.

Definition role_code (i : Z) : Z := if (0 <=? i) && (i <? 3) then i else 3.

(** The role ciphertexts every player holds, encrypted with draws 0..3. *)
Definition encrypted_roles : list string :=
  (fun i => print_list (encrypt ([] : list string) joint_key
                          (one_hot_plain 4 (role_code i)) (Z.to_nat i)))
    <$> range 4.

Definition addresses : list string :=
  ["http://localhost:9000"; "http://localhost:8765";
   "http://localhost:8766"; "http://localhost:8767"].

Definition keys (i : Z) : KeyPair :=
  {| publicKey := joint_key; secretKey := i + 1 |}.

Definition player (i : Z) : AgentState :=
  {| game_id := Some "game-1";
     cc := Some [];
     keypair := Some (keys i);
     joint_public_key := Some joint_key;
     role := Some (role_name i);
     player_index := Some i;
     num_players := 4;
     player_addresses := addresses;
     agent := Some {| tools := "" |};
     alive := true;
     current_phase := "setup";
     current_turn := 0;
     suspicion_notes :=
       Some (Suspicion.init
               (if i =? 3 then Suspicion.PoliceNoteManager else Suspicion.SuspicionNoteManager)
               4 (Some i));
     session := None;
     last_read_msg_id := -1;
     pending_action_target := None;
     action_submitted := false;
     pending_chat_messages := [];
     my_encrypted_role := encrypted_roles !! Z.to_nat i;
     encrypted_role_vector := None;
     all_encrypted_roles := encrypted_roles;
     chat_task := false;
     dummy_task := false;
     entropy := 10;
     outbox := [] |}.

(** The four processes, by address. *)
Definition net : network :=
  list_to_map (zip addresses (player <$> range 4)).



(** A request of the game host. *)
Definition update (p : string) (alive_players : list Z) : GameUpdateRequest :=
  {| phase := p; message := ""; survivors := alive_players;
     dead_players := []; remaining_time := None |}.

(** An agent run that submits [target]. *)
Definition decides (target : option Z) : AIRuns :=
  {| first_run := Submitted target; reminder_run := NotSubmitted |}.

(** The shares of the role ciphertext of [owner] that the other players
    send to it. *)
Definition role_ciphertext (owner : Z) : list Z :=
  encrypt ([] : list string) joint_key (one_hot_plain 4 (role_code owner)) (Z.to_nat owner).

Definition shares_for (owner : Z) : list string :=
  (fun i => print_list (share (role_ciphertext owner) (i + 1) false))
    <$> List.filter (fun i => negb (i =? owner)) (range 4).

(** The ciphertext sent down the relay chain in the examples: the role
    ciphertext of player 1; and the share of it that player [i] computes. *)
Definition relay_ciphertext : string := print_list (role_ciphertext 1).

Definition relay_share (i : Z) : list Z := share (role_ciphertext 1) (i + 1) false.

(** A police notebook with one confirmed investigation, and two later
    attempts to rewrite it. *)
Definition notebook : Suspicion.manager :=
  fst (Suspicion.add_investigation_result
         (Suspicion.init Suspicion.PoliceNoteManager 4 (Some 3)) 1 true 2).

Definition mafia_note : Suspicion.SuspicionNote :=
  Suspicion.new_note 1 (Suspicion.Police Suspicion.CONFIRMED_MAFIA)
    (Suspicion.investigation_reasoning true 2) true 2.

Definition rewrites : list Suspicion.write_call :=
  [Suspicion.mkCall 1 "low" "seems friendly" 3 false;
   Suspicion.mkCall 2 "HIGH" "voted oddly" 3 false;
   Suspicion.mkCall 1 "suspected_citizen" "changed my mind" 4 true].

(** A context that already holds the party's own multiplication key, and the
    merged key list that is sent to every party. *)
Definition with_own_key (st : AgentState) : AgentState :=
  set_cc (Some ["key-1"]) st.

Definition merged_keys : MultKeyRequest :=
  {| req_game_id := Some "game-1";
     req_prev_key := None;
     req_combined_key := None;
     req_key_tag := None;
     req_mult_keys := Some ["key-0"; "key-1"; "key-2"; "key-3"] |}.

(** A key-switch request that names another game. *)
Definition foreign_request : MultKeyRequest :=
  {| req_game_id := Some "game-2";
     req_prev_key := Some "7";
     req_combined_key := Some "7";
     req_key_tag := Some "tag";
     req_mult_keys := Some ["key-0"] |}.

(** A /dkg_round body that names another game. *)
Definition foreign_round : DKGRoundBody :=
  {| body_game_id := Some "game-2";
     body_round_number := 1;
     body_previous_public_key := None |}.

(** The setup request of game-1 for player 1, and the first key round. *)
Definition setup_request : DKGSetupRequest :=
  {| setup_game_id := "game-1";
     setup_crypto_context := "context";
     setup_num_players := 4;
     setup_player_index := 1 |}.

Definition lead_round : DKGRoundRequest :=
  {| round_number := 1; previous_public_key := None |}.

(** A key-switch request of game-1. *)
Definition switch_request : MultKeyRequest :=
  {| req_game_id := Some "game-1";
     req_prev_key := Some "7";
     req_combined_key := None;
     req_key_tag := None;
     req_mult_keys := None |}.

(** The same scheme with a context parser that refuses the empty string,
    and a party of game-1 in that scheme that is sent a malformed setup
    request of game-2. *)
Definition strict : FHE := {|
  CryptoContext := list string;
  SecretKey := Z;
  PublicKey := Z;
  Ciphertext := list Z;
  EvalKey := Z;
  dkg_keygen_lead := fun _ draw => (Z.of_nat draw + 1, Z.of_nat draw + 1);
  dkg_keygen_join := fun _ prev draw => (prev + Z.of_nat draw + 1, Z.of_nat draw + 1);
  deserialize_crypto_context := fun s =>
    if str_truthy s then Ok [] else Raise (RuntimeError "Cannot deserialize an empty context");
  serialize_public_key := fun _ pk => pretty pk;
  deserialize_public_key := fun _ => parse_optional;
  serialize_ciphertext := fun _ => print_list;
  deserialize_ciphertext := fun _ => parse_list;
  serialize_eval_mult_key := fun _ k => pretty k;
  deserialize_eval_mult_key_object := fun _ => parse_optional;
  deserialize_eval_mult_key := insert_key;
  MultiKeySwitchGen := fun _ sk _ prev => Ok (prev + sk);
  MultiMultEvalKey := fun _ sk combined _ => Ok (combined * sk);
  EvalMultKeyGen := fun c sk => Ok (pretty sk :: c);
  partial_decrypt_lead := fun _ ct sk => share ct sk true;
  partial_decrypt_main := fun _ ct sk => share ct sk false;
  fusion_decrypt := fun _ => fuse;
  encrypt := fun _ pk v draw =>
    (Z.of_nat draw + 1) :: ((fun x => x + (Z.of_nat draw + 1) * pk) <$> v);
  homomorphic_dot_product := fun _ ct v =>
    match ct with
    | [] => []
    | c1 :: payload => [c1; dot payload v]
    end;
  one_hot_to_role := role_of
|}.

Definition strict_keys : @KeyPair strict :=
  @Build_KeyPair strict 10 2.

Definition strict_player : @AgentState strict :=
  @set_keypair strict (Some strict_keys)
    (@set_cc strict (Some [])
       (@set_game_id strict (Some "game-1") (@initial_state strict))).

Definition malformed_setup : DKGSetupRequest :=
  {| setup_game_id := "game-2";
     setup_crypto_context := "";
     setup_num_players := 4;
     setup_player_index := 1 |}.

Definition switch_request_2 : MultKeyRequest :=
  {| req_game_id := Some "game-2";
     req_prev_key := Some "7";
     req_combined_key := None;
     req_key_tag := None;
     req_mult_keys := None |}.

(** A merged key list with an empty key in the middle. *)
Definition broken_keys : MultKeyRequest :=
  {| req_game_id := Some "game-1";
     req_prev_key := None;
     req_combined_key := None;
     req_key_tag := None;
     req_mult_keys := Some ["key-0"; ""; "key-2"] |}.

(** The blind role assignment sent to player 3. *)
Definition blind_request : BlindRoleRequest :=
  {| blind_my_index := 3;
     blind_encrypted_roles := encrypted_roles;
     blind_joint_public_key := "10";
     blind_player_addresses := Some addresses |}.

(** An announcement of two deaths. *)
Definition deaths : list Death :=
  [{| death_player_index := Some 1; death_role := "mafia" |};
   {| death_player_index := Some 2; death_role := "doctor" |}].

(** An agent whose first run raises. *)
Definition failing_run : AIRuns :=
  {| first_run := RunRaised (OtherError "rate limit exceeded");
     reminder_run := NotSubmitted |}.

(** The tool calls of a Doctor's night run. *)
Definition doctor_calls : list tool_call :=
  [call_read_chat_messages 4; call_doctor_heal 2; call_doctor_heal 1].

End Toy.

(** * Properties *)

(** ** Suspicion notes *)

Section SuspicionFacts.
Import Suspicion.

Lemma write_note_refused (m : manager) (i : Z) (n : SuspicionNote)
    (lv why : string) (t : Z) (c : bool) :
  notes m !! i = Some n -> is_confirmed n = true ->
  exists msg, write_note m i lv why t c = (m, msg) /\ is_refusal msg = true.
Proof.
  intros Hn Hc. unfold write_note.
  destruct (bool_decide (Some i = player_index m)); [by eexists|].
  destruct ((i <? 0) || (num_players m <=? i)); [by eexists|].
  rewrite Hn. unfold can_update. rewrite Hc. by eexists.
Qed.

Lemma write_note_keeps_confirmed (m : manager) (i : Z) (n : SuspicionNote)
    (c : write_call) :
  notes m !! i = Some n -> is_confirmed n = true ->
  notes (do_write m c) !! i = Some n.
Proof.
  intros Hn Hc. unfold do_write.
  destruct (decide (call_target c = i)) as [->|Hne].
  - destruct (write_note_refused m i n (call_level c) (call_reasoning c)
                (call_turn c) (call_confirmed c) Hn Hc) as (msg & -> & _).
    exact Hn.
  - unfold write_note.
    repeat match goal with
           | |- context [if ?b then _ else _] => destruct b; simpl; try exact Hn
           | |- context [match ?o with Some _ => _ | None => _ end] =>
               destruct o; simpl; try exact Hn
           end; by rewrite lookup_insert_ne.
Qed.

Lemma write_notes_keep_confirmed (calls : list write_call) :
  forall (m : manager) (i : Z) (n : SuspicionNote),
    notes m !! i = Some n -> is_confirmed n = true ->
    notes (write_notes m calls) !! i = Some n.
Proof.
  induction calls as [|c calls IH]; intros m i n Hn Hc; [exact Hn|].
  simpl. apply IH; [|exact Hc]. by apply write_note_keeps_confirmed.
Qed.

Lemma add_investigation_result_stored (p : manager) (j : Z) (is_mafia : bool) (t : Z) :
  Some j <> player_index p -> 0 <= j < num_players p ->
  fst (add_investigation_result p j is_mafia t)
  = set_notes p (<[j := new_note j (if is_mafia then Police CONFIRMED_MAFIA
                                    else Police CONFIRMED_NOT_MAFIA)
                          (investigation_reasoning is_mafia t) is_mafia t]> (notes p)).
Proof.
  intros Hself Hrange. unfold add_investigation_result.
  rewrite bool_decide_eq_false_2 by done.
  replace ((j <? 0) || (num_players p <=? j)) with false; [done|].
  symmetry. apply orb_false_intro; [apply Z.ltb_ge | apply Z.leb_gt]; lia.
Qed.

(** C10.  Once a note is stored as confirmed, no sequence of [write_note]
    calls changes it, and a [write_note] call aimed at it is refused and
    leaves the manager as it was.  [add_investigation_result] stores its note
    with [is_confirmed] equal to [is_mafia], so a NOT-MAFIA result is
    replaced by a later [write_note] with a valid level. *)
Theorem confirmed_notes_are_final
    (m : manager) (i : Z) (n : SuspicionNote) (calls : list write_call)
    (lv why : string) (t : Z) (c : bool)
    (p : manager) (j turn' : Z) (lv' why' : string) (t' : Z) (c' : bool)
    (parsed : level) :
  notes m !! i = Some n -> is_confirmed n = true ->
  Some j <> player_index p -> 0 <= j < num_players p ->
  LEVEL_ENUM (cls p) (str_lower lv') = Some parsed ->
  notes (write_notes m calls) !! i = Some n
  /\ (exists msg, write_note m i lv why t c = (m, msg) /\ is_refusal msg = true)
  /\ (forall is_mafia, exists n',
        notes (fst (add_investigation_result p j is_mafia turn')) !! j = Some n'
        /\ is_confirmed n' = is_mafia)
  /\ write_note (fst (add_investigation_result p j false turn')) j lv' why' t' c'
     = (set_notes p (<[j := new_note j parsed why' c' t']> (notes p)),
        NoteUpdated (new_note j parsed why' c' t')).
Proof.
  intros Hn Hc Hself Hrange Hparse. split; [|split; [|split]].
  - by apply write_notes_keep_confirmed.
  - by apply (write_note_refused m i n).
  - intros is_mafia. rewrite add_investigation_result_stored by done.
    eexists. split; [apply lookup_insert_eq|done].
  - rewrite add_investigation_result_stored by done.
    unfold write_note. simpl.
    rewrite bool_decide_eq_false_2 by done.
    replace ((j <? 0) || (num_players p <=? j)) with false.
    2:{ symmetry. apply orb_false_intro; [apply Z.ltb_ge | apply Z.leb_gt]; lia. }
    rewrite lookup_insert_eq. simpl. rewrite Hparse.
    unfold set_notes. simpl. by rewrite insert_insert_eq.
Qed.

End SuspicionFacts.

(** ** Distributed key generation *)

Section DKGFacts.
Context `{FHE}.

Lemma game_id_guard (st : AgentState) (request : MultKeyRequest) :
  req_game_id request <> game_id st ->
  bool_decide (req_game_id request <> game_id st) = true.
Proof. intros Hne. by apply bool_decide_eq_true_2. Qed.

(** C3, as the code has it.  The key-switch round, the multi-mult-key round,
    the legacy multiplication-key round and the key merge answer a request
    that names another game with an error and leave the state as it was.
    The public-key chain round reads no game identifier: whatever the body
    says about the game, the outcome is the same. *)
Theorem mult_key_rounds_reject_foreign_game
    (st : AgentState) (request : MultKeyRequest) (body : DKGRoundBody)
    (named : option string) :
  req_game_id request <> game_id st ->
  (exists detail, generate_keyswitchgen st request = (st, HTTPException 500 detail))
  /\ (exists detail, generate_multmultkey st request = (st, HTTPException 500 detail))
  /\ (exists detail, generate_mult_key st request = (st, HTTPException 500 detail))
  /\ (exists detail, receive_mult_keys st request = (st, HTTPException 500 detail))
  /\ dkg_round_endpoint st body
     = dkg_round_endpoint st
         {| body_game_id := named;
            body_round_number := body_round_number body;
            body_previous_public_key := body_previous_public_key body |}.
Proof.
  intros Hne. pose proof (game_id_guard st request Hne) as Hguard.
  repeat split.
  - unfold generate_keyswitchgen.
    destruct (cc st), (keypair st); rewrite ?Hguard; by eexists.
  - unfold generate_multmultkey.
    destruct (cc st), (keypair st); rewrite ?Hguard; by eexists.
  - unfold generate_mult_key.
    destruct (cc st), (keypair st); rewrite ?Hguard; by eexists.
  - unfold receive_mult_keys.
    destruct (cc st); rewrite ?Hguard; by eexists.
Qed.

Lemma insert_mult_keys_counts (keys : list string) :
  forall (c : CryptoContext) (inserted skipped : Z),
    (forall c' k, k ∈ keys ->
       (exists c'', deserialize_eval_mult_key c' k = Ok c'')
       \/ (exists msg, deserialize_eval_mult_key c' k = Raise (RuntimeError msg)
                       /\ str_contains already_saved_marker msg = true)) ->
    insert_mult_keys c keys inserted skipped
    = (fst (insert_new_keys c keys),
       Ok (inserted + Z.of_nat (length (snd (insert_new_keys c keys))),
           skipped + Z.of_nat (length keys - length (snd (insert_new_keys c keys))))).
Proof.
  induction keys as [|k keys IH]; intros c inserted skipped Hall; simpl.
  - do 3 f_equal; lia.
  - assert (Hrest : forall c' k', k' ∈ keys ->
       (exists c'', deserialize_eval_mult_key c' k' = Ok c'')
       \/ (exists msg, deserialize_eval_mult_key c' k' = Raise (RuntimeError msg)
                       /\ str_contains already_saved_marker msg = true)).
    { intros c' k' Hk'. apply Hall. by right. }
    assert (Hlen : forall c', (length (snd (insert_new_keys c' keys)) <= length keys)%nat).
    { clear. induction keys as [|k keys IH]; intros c'; simpl; [lia|].
      destruct (deserialize_eval_mult_key c' k); simpl.
      - specialize (IH a). lia.
      - specialize (IH c'). lia. }
    destruct (Hall c k) as [[c'' Hok]|(msg & Herr & Hmark)]; [by left| |].
    + rewrite Hok. simpl. rewrite IH by done. specialize (Hlen c'').
      do 3 f_equal; lia.
    + rewrite Herr, Hmark. rewrite IH by done. specialize (Hlen c).
      do 3 f_equal; lia.
Qed.

(** C8.  A key the party already holds makes the library raise its
    "Can not save a EvalMultKeys vector" error; [receive_mult_keys] passes
    over it, goes on with the keys that follow, and answers with success and
    the number of keys that went in. *)
Theorem receive_mult_keys_skips_duplicates
    (st : AgentState) (request : MultKeyRequest) (c : CryptoContext)
    (keys : list string) :
  cc st = Some c ->
  req_game_id request = game_id st ->
  req_mult_keys request = Some keys ->
  (forall c' k, k ∈ keys ->
     (exists c'', deserialize_eval_mult_key c' k = Ok c'')
     \/ (exists msg, deserialize_eval_mult_key c' k = Raise (RuntimeError msg)
                     /\ str_contains already_saved_marker msg = true)) ->
  receive_mult_keys st request
  = (set_cc (Some (fst (insert_new_keys c keys))) st,
     Http200 (KeysReceived (Z.of_nat (length (snd (insert_new_keys c keys)))))).
Proof.
  intros Hcc Hgame Hkeys Hall. unfold receive_mult_keys.
  rewrite Hcc, Hkeys. rewrite bool_decide_eq_false_2 by (intros Hne; by apply Hne).
  simpl. rewrite (insert_mult_keys_counts keys c 0 0 Hall). simpl.
  by rewrite Z.add_0_l.
Qed.

End DKGFacts.

(** ** Threshold decryption *)

Section ThresholdFacts.
Context `{FHE}.


(** C7.  The owner deserializes the shares it received, computes its own
    share of its role ciphertext and appends it after them, fuses that list,
    and the label of the first [NUM_ROLE_TYPES] coordinates, in lower case,
    becomes its role; the role is assigned whatever happens to the
    conversation that is opened afterwards. *)
Theorem complete_role_decryption_own_share_last
    (st : AgentState) (received : list string) (conversation_id : string)
    (c : CryptoContext) (shares : list Ciphertext) (enc : string)
    (ct : Ciphertext) (kp : KeyPair) :
  cc st = Some c ->
  mapM (deserialize_ciphertext c) received = Ok shares ->
  my_encrypted_role st = Some enc ->
  deserialize_ciphertext c enc = Ok ct ->
  keypair st = Some kp ->
  let own := partial_decrypt_main c ct (secretKey kp) in
  let label :=
    str_lower (one_hot_to_role
                 (py_take NUM_ROLE_TYPES (fusion_decrypt c (shares ++ [own])%list))) in
  (forall conversation,
     role (fst (complete_role_decryption st received conversation)) = Some label)
  /\ snd (complete_role_decryption st received (Ok conversation_id)) = Http200 label.
Proof.
  intros Hcc Hshares Henc Hct Hkp own label.
  unfold complete_role_decryption.
  rewrite Hcc, Henc, Hkp. simpl. rewrite Hshares. simpl. rewrite Hct. simpl.
  fold own. fold label. split.
  - intros conversation. by destruct (bool_decide _), conversation.
  - by destruct (bool_decide _).
Qed.











(** One hop of the relay, spelled out. *)
Lemma relay_decrypt_unfold (net : network) (st : AgentState) (ciphertext_b64 : string)
    (partial_results_b64 : list string) (remaining_order : list Z)
    (player_addresses : list string) (c : CryptoContext) (kp : KeyPair)
    (ct : Ciphertext) :
  cc st = Some c -> keypair st = Some kp ->
  deserialize_ciphertext c ciphertext_b64 = Ok ct ->
  relay_decrypt net st ciphertext_b64 partial_results_b64 remaining_order player_addresses
  = let collected :=
      (partial_results_b64 ++ [serialize_ciphertext c (own_share c ct kp)])%list in
    match remaining_order with
    | [] => Http200 (PartialResults collected)
    | next_index :: new_remaining =>
        match py_index player_addresses next_index with
        | Raise e => HTTPException 500 (str_of_exn e)
        | Ok next_address =>
            match net !! next_address with
            | None =>
                HTTPException 500 (str_of_exn (ConnectError "All connection attempts failed"))
            | Some next_player =>
                match relay_decrypt net next_player ciphertext_b64 collected
                        new_remaining player_addresses with
                | HTTPException status _ =>
                    HTTPException 500 (str_of_exn (HTTPStatusError status))
                | Http200 (PartialResults partials) =>
                    match mapM (deserialize_ciphertext c) partials with
                    | Raise e => HTTPException 500 (str_of_exn e)
                    | Ok all_partials =>
                        Http200 (DecryptedVector (fusion_decrypt c all_partials))
                    end
                | Http200 result => Http200 result
                end
            end
        end
    end.
Proof.
  intros Hcc Hkp Hct.
  destruct remaining_order; simpl; rewrite Hcc, Hkp, Hct; reflexivity.
Qed.

(** A hop that still has parties to visit never answers with a list of
    shares: it answers with an error or with a decrypted vector. *)
Lemma relay_nonfinal_no_share_list (net : network) (st : AgentState)
    (ciphertext_b64 : string) (partial_results_b64 : list string)
    (next_index : Z) (new_remaining : list Z) (player_addresses : list string) :
  is_share_list (relay_decrypt net st ciphertext_b64 partial_results_b64
                   (next_index :: new_remaining) player_addresses) = false.
Proof.
  simpl.
  repeat match goal with
         | |- context [match ?x with _ => _ end] => destruct x; simpl; try reflexivity
         end.
Qed.

Lemma mapM_round_trip (c : CryptoContext) (l : list Ciphertext) :
  Forall (fun x => deserialize_ciphertext c (serialize_ciphertext c x) = Ok x) l ->
  mapM (deserialize_ciphertext c) (serialize_ciphertext c <$> l) = Ok l.
Proof.
  induction 1 as [|x l Hx _ IH]; [done|].
  simpl. rewrite Hx. simpl. fold (fmap (M:=list) (serialize_ciphertext c) l).
  by rewrite IH.
Qed.

(** What a chain answers when every party on it is reachable: the last hop
    hands back the list of shares, every earlier hop a decrypted vector
    computed from that list. *)
Lemma relay_decrypt_outcome (net : network) (ciphertext_b64 : string)
    (player_addresses : list string) (c : CryptoContext) (ct : Ciphertext)
    (order : list Z) :
  forall (st : AgentState) (kp : KeyPair) (earlier : list Ciphertext)
         (peers : list (AgentState * KeyPair)),
    cc st = Some c -> keypair st = Some kp ->
    deserialize_ciphertext c ciphertext_b64 = Ok ct ->
    deserialize_ciphertext c (serialize_ciphertext c (own_share c ct kp))
      = Ok (own_share c ct kp) ->
    Forall (fun x => deserialize_ciphertext c (serialize_ciphertext c x) = Ok x) earlier ->
    Forall2 (reachable net player_addresses c ct) order peers ->
    let shares := (earlier ++ own_share c ct kp :: (own_share c ct ∘ snd <$> peers))%list in
    relay_decrypt net st ciphertext_b64 (serialize_ciphertext c <$> earlier) order
      player_addresses
    = match order with
      | [] => Http200 (PartialResults (serialize_ciphertext c <$> shares))
      | _ :: _ => Http200 (DecryptedVector (fusion_decrypt c shares))
      end.
Proof.
  induction order as [|i order IH]; intros st kp earlier peers Hcc Hkp Hct Hown Hearlier Hpeers shares.
  - inversion Hpeers; subst. rewrite (relay_decrypt_unfold _ _ _ _ _ _ c kp ct) by done.
    simpl. unfold shares. by rewrite fmap_app.
  - inversion Hpeers as [|? p ? peers' Hp Hrest]; subst.
    destruct Hp as ((a & Ha & Hnet) & Hcc' & Hkp' & Hown').
    rewrite (relay_decrypt_unfold _ _ _ _ _ _ c kp ct) by done.
    simpl. rewrite Ha, Hnet.
    replace ((serialize_ciphertext c <$> earlier) ++ [serialize_ciphertext c (own_share c ct kp)])%list
      with (serialize_ciphertext c <$> (earlier ++ [own_share c ct kp]))%list
      by (by rewrite fmap_app).
    rewrite (IH (fst p) (snd p) (earlier ++ [own_share c ct kp])%list peers');
      try done.
    2:{ apply Forall_app. split; [done|]. by constructor. }
    assert (Hshares : ((earlier ++ [own_share c ct kp]) ++
                         own_share c ct (snd p) :: (own_share c ct ∘ snd <$> peers'))%list
                      = shares).
    { unfold shares. by rewrite <- app_assoc. }
    rewrite Hshares.
    destruct order; [|reflexivity].
    rewrite mapM_round_trip; [reflexivity|].
    inversion Hrest; subst. unfold shares. simpl.
    apply Forall_app. split; [done|]. constructor; [done|]. by constructor.
Qed.

(** C2, as the code has it.  A chain that starts at a party with nothing
    collected yet and visits the parties of [order], all of them reachable,
    collects the share of the first party followed by one share per entry of
    [order], in that order: one more than [order] is long.  That list is what
    the chain's answer is made of. *)
Theorem relay_chain_collects
    (net : network) (st : AgentState) (ciphertext_b64 : string) (order : list Z)
    (player_addresses : list string) (c : CryptoContext) (ct : Ciphertext)
    (kp : KeyPair) (peers : list (AgentState * KeyPair)) :
  cc st = Some c -> keypair st = Some kp ->
  deserialize_ciphertext c ciphertext_b64 = Ok ct ->
  deserialize_ciphertext c (serialize_ciphertext c (own_share c ct kp))
    = Ok (own_share c ct kp) ->
  Forall2 (reachable net player_addresses c ct) order peers ->
  let shares := own_share c ct kp :: (own_share c ct ∘ snd <$> peers) in
  let answer := relay_decrypt net st ciphertext_b64 [] order player_addresses in
  (answer = Http200 (PartialResults (serialize_ciphertext c <$> shares))
   \/ answer = Http200 (DecryptedVector (fusion_decrypt c shares)))
  /\ length shares = S (length order).
Proof.
  intros Hcc Hkp Hct Hown Hpeers shares answer. split.
  - unfold answer.
    change ([] : list string) with (serialize_ciphertext c <$> ([] : list Ciphertext)).
    rewrite (relay_decrypt_outcome net ciphertext_b64 player_addresses c ct order
               st kp [] peers) by done.
    destruct order; [by left|by right].
  - unfold shares. simpl. rewrite length_fmap. f_equal.
    symmetry. by eapply Forall2_length.
Qed.

(** C1, as the code has it.  The last hop of a chain hands back the list of
    shares it has accumulated, its own appended, and no plaintext.  In a
    chain of two hops the first hop, which the handler takes to be the
    requester, fuses the list that comes back and answers with the decrypted
    vector; the second hop is handed the ciphertext and the first share, and
    the first hop's answer is made from what the second hop answers. *)
Theorem relay_requester_fuses
    (net : network) (st : AgentState) (ciphertext_b64 : string)
    (earlier : list string) (next_index : Z) (player_addresses : list string)
    (c : CryptoContext) (ct : Ciphertext) (kp : KeyPair) (p : AgentState * KeyPair) :
  cc st = Some c -> keypair st = Some kp ->
  deserialize_ciphertext c ciphertext_b64 = Ok ct ->
  deserialize_ciphertext c (serialize_ciphertext c (own_share c ct kp))
    = Ok (own_share c ct kp) ->
  reachable net player_addresses c ct next_index p ->
  let mine := own_share c ct kp in
  let theirs := own_share c ct (snd p) in
  relay_decrypt net st ciphertext_b64 earlier [] player_addresses
  = Http200 (PartialResults (earlier ++ [serialize_ciphertext c mine]))
  /\ relay_decrypt net (fst p) ciphertext_b64 [serialize_ciphertext c mine] []
       player_addresses
     = Http200 (PartialResults [serialize_ciphertext c mine; serialize_ciphertext c theirs])
  /\ relay_decrypt net st ciphertext_b64 [] [next_index] player_addresses
     = Http200 (DecryptedVector (fusion_decrypt c [mine; theirs]))
  /\ relay_decrypt net st ciphertext_b64 [] [next_index] player_addresses
     = match relay_decrypt net (fst p) ciphertext_b64 [serialize_ciphertext c mine] []
               player_addresses with
       | HTTPException status _ => HTTPException 500 (str_of_exn (HTTPStatusError status))
       | Http200 (PartialResults partials) =>
           match mapM (deserialize_ciphertext c) partials with
           | Raise e => HTTPException 500 (str_of_exn e)
           | Ok all_partials => Http200 (DecryptedVector (fusion_decrypt c all_partials))
           end
       | Http200 result => Http200 result
       end.
Proof.
  intros Hcc Hkp Hct Hown Hp mine theirs. split; [|split; [|split]].
  - by rewrite (relay_decrypt_unfold _ _ _ _ _ _ c kp ct).
  - destruct Hp as (_ & Hcc' & Hkp' & _).
    by rewrite (relay_decrypt_unfold _ _ _ _ _ _ c (snd p) ct).
  - change (relay_decrypt net st ciphertext_b64 [] [next_index] player_addresses)
      with (relay_decrypt net st ciphertext_b64
              (serialize_ciphertext c <$> ([] : list Ciphertext)) [next_index]
              player_addresses).
    rewrite (relay_decrypt_outcome net ciphertext_b64 player_addresses c ct [next_index]
               st kp [] [p]);
      first [reflexivity | done | by constructor | by constructor; [exact Hp|constructor]].
  - destruct Hp as ((a & Ha & Hnet) & _).
    rewrite (relay_decrypt_unfold net st ciphertext_b64 [] [next_index] player_addresses
               c kp ct Hcc Hkp Hct).
    cbv zeta. rewrite Ha, Hnet. reflexivity.
Qed.

End ThresholdFacts.

(** ** The action endpoint *)

Section ActionFacts.
Context `{FHE}.

Lemma bind_ok {A B : Type} (m : py A) (k : A -> py B) (st st' : AgentState) (b : B) :
  bind m k st = (st', Ok b) ->
  exists st1 a, m st = (st1, Ok a) /\ k a st1 = (st', Ok b).
Proof.
  unfold bind. destruct (m st) as [st1 [a|e]]; [|discriminate]. eauto.
Qed.

Lemma get_ok (st st' a : AgentState) : get st = (st', Ok a) -> st' = st /\ a = st.
Proof. unfold get. by intros [= <- <-]. Qed.

Lemma assign_ok f (st st' : AgentState) (u : unit) : assign f st = (st', Ok u) -> st' = f st.
Proof. unfold assign. by intros [= <-]. Qed.

Lemma pure_ok {A : Type} (a b : A) (st st' : AgentState) : pure a st = (st', Ok b) -> st' = st /\ b = a.
Proof. unfold pure. by intros [= <- <-]. Qed.

Lemma lift_ok {A : Type} (r : result A) (a : A) (st st' : AgentState) :
  lift r st = (st', Ok a) -> st' = st /\ r = Ok a.
Proof. unfold lift. by intros [= <- <-]. Qed.

Lemma require_ok {A : Type} (what : string) (o : option A) (a : A) :
  require what o = Ok a -> o = Some a.
Proof. destruct o; simpl; congruence. Qed.

Ltac py_inv H :=
  let st1 := fresh "st" in
  let a := fresh "a" in
  let H1 := fresh "Hstep" in
  lazymatch type of H with
  | bind _ _ _ = (_, Ok _) =>
      apply bind_ok in H; destruct H as (st1 & a & H1 & H); cbv beta in H;
      py_inv H1; py_inv H
  | get _ = (_, Ok _) => apply get_ok in H; destruct H as [-> ->]
  | assign _ _ = (_, Ok _) => apply assign_ok in H; subst
  | pure _ _ = (_, Ok _) => apply pure_ok in H; destruct H as [-> H]
  | lift _ _ = (_, Ok _) =>
      apply lift_ok in H; destruct H as [-> H]; try apply require_ok in H
  | _ => idtac
  end.

Lemma same_codec_refl (st : AgentState) : same_codec st st.
Proof. by repeat split. Qed.

Lemma same_codec_trans (st1 st2 st3 : AgentState) :
  same_codec st1 st2 -> same_codec st2 st3 -> same_codec st1 st3.
Proof. intros (?&?&?&?) (?&?&?&?). repeat split; congruence. Qed.

Lemma create_zero_vector_ok (st st' : AgentState) (ct : Ciphertext)
    (c : CryptoContext) (pk : PublicKey) :
  cc st = Some c -> joint_public_key st = Some pk ->
  create_zero_vector st = (st', Ok ct) ->
  ct = encrypt c pk (zero_plain (num_players st)) (entropy st)
  /\ same_codec st st' /\ entropy st' = S (entropy st).
Proof.
  intros Hcc Hpk Hrun. unfold create_zero_vector in Hrun. py_inv Hrun.
  simplify_eq. repeat split.
Qed.

Lemma create_one_hot_vector_ok (index : Z) (st st' : AgentState) (ct : Ciphertext)
    (c : CryptoContext) (pk : PublicKey) :
  cc st = Some c -> joint_public_key st = Some pk ->
  create_one_hot_vector index st = (st', Ok ct) ->
  ct = encrypt c pk (one_hot_plain (num_players st) index) (entropy st)
  /\ same_codec st st' /\ entropy st' = S (entropy st).
Proof.
  intros Hcc Hpk Hrun. unfold create_one_hot_vector in Hrun. py_inv Hrun.
  simplify_eq. repeat split.
Qed.

Lemma serialize_ok (ct : Ciphertext) (st st' : AgentState) (s : string) (c : CryptoContext) :
  cc st = Some c ->
  serialize ct st = (st', Ok s) -> s = serialize_ciphertext c ct /\ st' = st.
Proof.
  intros Hcc Hrun. unfold serialize in Hrun. py_inv Hrun.
  by simplify_eq.
Qed.

Lemma set_tools_ok (p : string) (st st' : AgentState) (u : unit) :
  set_tools p st = (st', Ok u) -> same_codec st st' /\ entropy st' = entropy st.
Proof.
  intros Hrun. unfold set_tools in Hrun. py_inv Hrun. repeat split.
Qed.

Lemma call_ai_with_retry_ok (runs : AIRuns) (st st' : AgentState) (b : bool) :
  call_ai_with_retry runs st = (st', Ok b) ->
  same_codec st st' /\ entropy st' = entropy st.
Proof.
  intros Hrun. unfold call_ai_with_retry, submit in Hrun.
  destruct (first_run runs), (reminder_run runs); py_inv Hrun;
    repeat match goal with
    | H : (if ?b then _ else _) _ = _ |- _ => destruct b; py_inv H
    end; try discriminate; repeat split.
Qed.

Lemma generate_vote_vector_ok (target : option Z) (st st' : AgentState)
    (v a h : string) (c : CryptoContext) (pk : PublicKey) :
  cc st = Some c -> joint_public_key st = Some pk ->
  generate_vote_vector target st = (st', Ok (v, a, h)) ->
  exists vote,
    vote_plain (num_players st) vote
    /\ v = serialize_ciphertext c (encrypt c pk vote (entropy st))
    /\ a = serialize_ciphertext c
             (encrypt c pk (zero_plain (num_players st)) (S (entropy st)))
    /\ h = serialize_ciphertext c
             (encrypt c pk (zero_plain (num_players st)) (S (S (entropy st)))).
Proof.
  intros Hcc Hpk Hrun. unfold generate_vote_vector in Hrun. py_inv Hrun.
  assert (Hvote : exists vote, vote_plain (num_players st) vote
            /\ a0 = encrypt c pk vote (entropy st)
            /\ same_codec st st0 /\ entropy st0 = S (entropy st)).
  { destruct target as [t|].
    - destruct (0 <=? t) eqn:Ht.
      + apply (create_one_hot_vector_ok _ _ _ _ c pk) in Hstep; [|done..].
        destruct Hstep as (-> & Hsame & Hent). eexists. split; [|done].
        right. exists t. split; [lia|done].
      + apply (create_zero_vector_ok _ _ _ c pk) in Hstep; [|done..].
        destruct Hstep as (-> & Hsame & Hent). eexists. split; [by left|done].
    - apply (create_zero_vector_ok _ _ _ c pk) in Hstep; [|done..].
      destruct Hstep as (-> & Hsame & Hent). eexists. split; [by left|done]. }
  destruct Hvote as (vote & Hvote & -> & (Hcc0 & Hpk0 & Hn0 & _) & Hent0).
  apply (create_zero_vector_ok _ _ _ c pk) in Hstep0; [|congruence..].
  destruct Hstep0 as (-> & (Hcc1 & Hpk1 & Hn1 & _) & Hent1).
  apply (create_zero_vector_ok _ _ _ c pk) in Hstep1; [|congruence..].
  destruct Hstep1 as (-> & (Hcc2 & Hpk2 & Hn2 & _) & Hent2).
  apply (serialize_ok _ _ _ _ c) in Hstep2; [|congruence]. destruct Hstep2 as [-> ->].
  apply (serialize_ok _ _ _ _ c) in Hstep3; [|congruence]. destruct Hstep3 as [-> ->].
  apply (serialize_ok _ _ _ _ c) in Hstep4; [|congruence]. destruct Hstep4 as [-> ->].
  simplify_eq.
  exists vote. rewrite Hn1, Hn0, Hent1, Hent0. done.
Qed.
Lemma handle_night_phase_ok (request : GameUpdateRequest) (runs : AIRuns)
    (st st' : AgentState) (target : option Z) :
  handle_night_phase request runs st = (st', Ok target) ->
  same_codec st st' /\ entropy st' = entropy st.
Proof.
  intros Hrun. unfold handle_night_phase, create_dummy_task in Hrun. py_inv Hrun.
  destruct (bool_decide _); py_inv Hrun.
  - simplify_eq. repeat split.
  - apply set_tools_ok in Hstep as [Hs1 He1].
    apply call_ai_with_retry_ok in Hstep0 as [Hs2 He2].
    split; [|by rewrite He2, He1].
    eapply same_codec_trans; [|exact Hs2]. eapply same_codec_trans; [|exact Hs1].
    repeat split.
Qed.

Ltac codec_step c pk :=
  match goal with
  | Hs : create_zero_vector _ = (_, Ok _) |- _ =>
      apply (create_zero_vector_ok _ _ _ c pk) in Hs;
      [destruct Hs as (-> & (? & ? & ? & ?) & ?); simpl in *
      | simpl; congruence | simpl; congruence]
  | Hs : create_one_hot_vector _ _ = (_, Ok _) |- _ =>
      apply (create_one_hot_vector_ok _ _ _ _ c pk) in Hs;
      [destruct Hs as (-> & (? & ? & ? & ?) & ?); simpl in *
      | simpl; congruence | simpl; congruence]
  | Hs : serialize _ _ = (_, Ok _) |- _ =>
      apply (serialize_ok _ _ _ _ c) in Hs;
      [destruct Hs as [-> ->] | simpl; congruence]
  | Hs : bind _ _ _ = (_, Ok _) |- _ => py_inv Hs
  | Hs : pure _ _ = (_, Ok _) |- _ => py_inv Hs
  end.

(** Rewrites the goal so that it speaks of the first state only. *)
Ltac codec_norm :=
  repeat match goal with
         | He : entropy ?s = _ |- context [entropy ?s] => rewrite He
         | He : num_players ?s = _ |- context [num_players ?s] => rewrite He
         end.

Lemma generate_night_work_vectors_ok (target : option Z) (st st' : AgentState)
    (v a h : string) (c : CryptoContext) (pk : PublicKey) :
  cc st = Some c -> joint_public_key st = Some pk ->
  generate_night_work_vectors "night" target st = (st', Ok (v, a, h)) ->
  let e := entropy st in
  let attack := fst (night_vectors st target) in
  let heal := snd (night_vectors st target) in
  v = serialize_ciphertext c (encrypt c pk (zero_plain (num_players st)) e)
  /\ a = serialize_ciphertext c (encrypt c pk (fst attack) (snd attack + e))
  /\ h = serialize_ciphertext c (encrypt c pk (fst heal) (snd heal + e)).
Proof.
  intros Hcc Hpk Hrun. unfold generate_night_work_vectors in Hrun.
  rewrite bool_decide_eq_false_2 in Hrun by discriminate.
  rewrite (bool_decide_eq_true_2 ("night" = "night")) in Hrun by reflexivity.
  unfold _generate_night_vectors in Hrun.
  py_inv Hrun. do 3 codec_step c pk.
  unfold night_vectors.
  destruct target as [t|].
  - match goal with
    | Hs : context [bool_decide (role ?s = Some "mafia")] |- _ =>
        assert (Hrole : role s = role st) by congruence; rewrite Hrole in Hs
    end.
    destruct (bool_decide (role st = Some "mafia"));
      [|destruct (bool_decide (role st = Some "doctor"))];
      repeat codec_step c pk; simplify_eq; simpl; codec_norm; done.
  - repeat codec_step c pk. simplify_eq. simpl. codec_norm. done.
Qed.
Lemma handle_vote_phase_ok (request : GameUpdateRequest) (runs : AIRuns)
    (st st' : AgentState) (v a h : string) (c : CryptoContext) (pk : PublicKey) :
  cc st = Some c -> joint_public_key st = Some pk ->
  handle_vote_phase request runs st = (st', Ok (v, a, h)) ->
  exists vote,
    vote_plain (num_players st) vote
    /\ encrypts c pk v vote (entropy st)
    /\ encrypts c pk a (zero_plain (num_players st)) (S (entropy st))
    /\ encrypts c pk h (zero_plain (num_players st)) (S (S (entropy st))).
Proof.
  intros Hcc Hpk Hrun. unfold handle_vote_phase in Hrun. py_inv Hrun.
  apply set_tools_ok in Hstep as [(? & ? & ? & ?) ?].
  apply call_ai_with_retry_ok in Hstep0 as [(? & ? & ? & ?) ?].
  assert (Hvote : exists vote st2, vote_plain (num_players st) vote
            /\ a2 = encrypt c pk vote (entropy st)
            /\ create_zero_vector st2 = (st3, Ok a3)
            /\ same_codec st st2 /\ entropy st2 = S (entropy st)).
  { assert (Hn : num_players st1 = num_players st) by congruence.
    assert (He : entropy st1 = entropy st) by congruence.
    destruct (pending_action_target st1) as [t|]; [destruct (0 <=? t) eqn:Ht|];
      codec_step c pk; rewrite Hn, He; eexists _, _;
      (split; [|split; [reflexivity|split; [eassumption|
         split; [repeat split; congruence|congruence]]]]).
    - right. exists t. split; [lia|done].
    - by left.
    - by left. }
  clear Hstep1. destruct Hvote as (vote & st2' & Hvote & -> & Hstep1 & (? & ? & ? & ?) & ?).
  repeat codec_step c pk. simplify_eq.
  exists vote. unfold encrypts. split; [done|]. codec_norm. repeat split.
Qed.

Lemma handle_chat_phase_ok (request : GameUpdateRequest)
    (st st' : AgentState) (v a h : string) (c : CryptoContext) (pk : PublicKey) :
  cc st = Some c -> joint_public_key st = Some pk ->
  handle_chat_phase request st = (st', Ok (v, a, h)) ->
  encrypts c pk v (zero_plain (num_players st)) (entropy st) /\ a = v /\ h = v.
Proof.
  intros Hcc Hpk Hrun. unfold handle_chat_phase in Hrun. py_inv Hrun.
  apply set_tools_ok in Hstep as [(? & ? & ? & ?) ?].
  repeat codec_step c pk. simplify_eq. unfold encrypts. codec_norm. repeat split.
Qed.

Lemma mark_dead_players_same (request : GameUpdateRequest) (st : AgentState) :
  same_codec st (mark_dead_players request st)
  /\ entropy (mark_dead_players request st) = entropy st
  /\ alive (mark_dead_players request st) = alive st.
Proof.
  unfold mark_dead_players. destruct (suspicion_notes st); repeat split.
Qed.

Lemma night_vectors_ext (st st' : AgentState) (target : option Z) :
  role st' = role st -> num_players st' = num_players st ->
  night_vectors st' target = night_vectors st target.
Proof. intros Hr Hn. unfold night_vectors. by rewrite Hr, Hn. Qed.

(** What a live party answers, phase by phase. *)
Lemma live_response_shape (st : AgentState) (request : GameUpdateRequest)
    (runs : AIRuns) (c : CryptoContext) (pk : PublicKey) (resp : ActionResponse) :
  cc st = Some c -> joint_public_key st = Some pk ->
  alive st = true -> py_in (player_index st) (survivors request) = true ->
  snd (request_action st request runs) = Http200 resp ->
  let n := num_players st in
  let e := entropy st in
  (phase request = "vote"
   /\ exists vote, vote_plain n vote
        /\ encrypts c pk (vote_vector resp) vote e
        /\ encrypts c pk (attack_vector resp) (zero_plain n) (S e)
        /\ encrypts c pk (heal_vector resp) (zero_plain n) (S (S e)))
  \/ (phase request = "night"
      /\ exists target,
           encrypts c pk (vote_vector resp) (zero_plain n) e
           /\ encrypts c pk (attack_vector resp)
                (fst (fst (night_vectors st target))) (snd (fst (night_vectors st target)) + e)
           /\ encrypts c pk (heal_vector resp)
                (fst (snd (night_vectors st target))) (snd (snd (night_vectors st target)) + e))
  \/ (phase request <> "vote" /\ phase request <> "night"
      /\ encrypts c pk (vote_vector resp) (zero_plain n) e
      /\ attack_vector resp = vote_vector resp
      /\ heal_vector resp = vote_vector resp).
Proof.
  intros Hcc Hpk Halive Hin Hresp n e.
  unfold request_action in Hresp.
  destruct (request_action_body request runs st) as [st' [r|err]] eqn:Hbody;
    simpl in Hresp; [|discriminate].
  injection Hresp as ->.
  unfold request_action_body in Hbody. py_inv Hbody.
  simpl in Hstep. rewrite Hin in Hstep. simpl in Hstep. py_inv Hstep.
  match type of Hbody with
  | _ (mark_dead_players request ?s) = _ =>
      destruct (mark_dead_players_same request s) as ((Hc1 & Hp1 & Hn1 & Hr1) & He1 & Hal);
      set (s1 := mark_dead_players request s) in *; clearbody s1
  end.
  simpl in Hc1, Hp1, Hn1, Hr1, He1, Hal.
  rewrite Hal, Halive in Hbody. simpl in Hbody. py_inv Hbody.
  rewrite Hcc in Hc1. rewrite Hpk in Hp1. subst n e.
  match goal with
  | Hr : resp = action_response request ?vs |- _ => destruct vs as [[v a'] h]; subst resp
  | Hr : action_response request ?vs = resp |- _ => destruct vs as [[v a'] h]; subst resp
  end.
  simpl.
  destruct (bool_decide (phase request = "vote")) eqn:Hvote.
  { apply bool_decide_eq_true in Hvote. left. split; [done|].
    match goal with
    | Hs : handle_vote_phase _ _ _ = _ |- _ =>
        apply (handle_vote_phase_ok _ _ _ _ _ _ _ c pk) in Hs; [|done..];
        by rewrite Hn1, He1 in Hs
    end. }
  apply bool_decide_eq_false in Hvote.
  destruct (bool_decide (phase request = "night")) eqn:Hnight.
  { apply bool_decide_eq_true in Hnight. right. left. split; [done|].
    match goal with Hs : bind _ _ _ = _ |- _ => py_inv Hs end.
    match goal with
    | Hs : handle_night_phase _ _ _ = (_, Ok ?t) |- _ =>
        apply handle_night_phase_ok in Hs as [(? & ? & ? & ?) ?]; exists t
    end.
    match goal with
    | Hs : generate_night_work_vectors _ _ ?s2 = _ |- _ =>
        rewrite Hnight in Hs;
        apply (generate_night_work_vectors_ok _ _ _ _ _ _ c pk) in Hs;
        [|simpl; congruence..];
        rewrite (night_vectors_ext st s2) in Hs by (simpl; congruence);
        replace (num_players s2) with (num_players st) in Hs by (simpl; congruence);
        replace (entropy s2) with (entropy st) in Hs by (simpl; congruence);
        exact Hs
    end. }
  apply bool_decide_eq_false in Hnight.
  right. right. split; [done|]. split; [done|].
  destruct (bool_decide (phase request = "chat") || bool_decide (phase request = "day")).
  - match goal with
    | Hs : handle_chat_phase _ _ = _ |- _ =>
        apply (handle_chat_phase_ok _ _ _ _ _ _ c pk) in Hs; [|done..];
        by rewrite Hn1, He1 in Hs
    end.
  - repeat codec_step c pk. simplify_eq. unfold encrypts. by rewrite Hn1, He1.
Qed.
Lemma zero_plain_length (n : Z) : length (zero_plain n) = Z.to_nat n.
Proof. unfold zero_plain, range. by rewrite length_fmap, length_seqZ. Qed.

Lemma one_hot_plain_length (n t : Z) : length (one_hot_plain n t) = Z.to_nat n.
Proof. unfold one_hot_plain, range. by rewrite length_fmap, length_seqZ. Qed.

(** The codec's one-hot vector has a one at the index and zeros elsewhere. *)
Lemma one_hot_plain_lookup (n t i : Z) :
  0 <= i < n ->
  one_hot_plain n t !! Z.to_nat i = Some (if i =? t then 1 else 0).
Proof.
  intros Hi. unfold one_hot_plain, range. rewrite list_lookup_fmap.
  rewrite lookup_seqZ_lt by lia. simpl. by rewrite Z2Nat.id by lia.
Qed.

(** C5.  A live party's answer carries three ciphertexts that encrypt
    vectors of length [num_players]; two of them at least encrypt the zero
    vector.  The third is the vote in the vote phase, the attack of a Mafia
    or the heal of a Doctor in the night phase; a Citizen's and a Police's
    night answer is three zero vectors. *)
Theorem action_triple_shape
    (st : AgentState) (request : GameUpdateRequest) (runs : AIRuns)
    (c : CryptoContext) (pk : PublicKey) (resp : ActionResponse) :
  cc st = Some c -> joint_public_key st = Some pk ->
  alive st = true -> py_in (player_index st) (survivors request) = true ->
  snd (request_action st request runs) = Http200 resp ->
  let n := num_players st in
  exists (vote attack heal : list Z) (d1 d2 d3 : nat),
    encrypts c pk (vote_vector resp) vote d1
    /\ encrypts c pk (attack_vector resp) attack d2
    /\ encrypts c pk (heal_vector resp) heal d3
    /\ length vote = Z.to_nat n /\ length attack = Z.to_nat n
    /\ length heal = Z.to_nat n
    /\ ((attack = zero_plain n /\ heal = zero_plain n
         /\ (vote = zero_plain n
             \/ (phase request = "vote" /\ exists t, 0 <= t /\ vote = one_hot_plain n t)))
        \/ (phase request = "night" /\ role st = Some "mafia"
            /\ vote = zero_plain n /\ heal = zero_plain n
            /\ exists t, attack = one_hot_plain n t)
        \/ (phase request = "night" /\ role st = Some "doctor"
            /\ vote = zero_plain n /\ attack = zero_plain n
            /\ exists t, heal = one_hot_plain n t))
    /\ (phase request = "night" ->
        role st = Some "citizen" \/ role st = Some "police" ->
        vote = zero_plain n /\ attack = zero_plain n /\ heal = zero_plain n).
Proof.
  intros Hcc Hpk Halive Hin Hresp n.
  destruct (live_response_shape st request runs c pk resp Hcc Hpk Halive Hin Hresp)
    as [(Hphase & vote & Hvote & Hv & Ha & Hh)
       |[(Hphase & target & Hv & Ha & Hh)
        |(Hnv & Hnn & Hv & Ha & Hh)]].
  - exists vote, (zero_plain n), (zero_plain n). eexists _, _, _.
    split; [exact Hv|]. split; [exact Ha|]. split; [exact Hh|].
    split; [destruct Hvote as [->|(t & _ & ->)];
            [apply zero_plain_length|apply one_hot_plain_length]|].
    split; [apply zero_plain_length|]. split; [apply zero_plain_length|].
    split.
    + left. split; [done|]. split; [done|].
      destruct Hvote as [->|(t & Ht & ->)]; [by left|right; eauto].
    + intros Hnight. rewrite Hphase in Hnight. discriminate.
  - eexists _, _, _, _, _, _.
    split; [exact Hv|]. split; [exact Ha|]. split; [exact Hh|].
    unfold night_vectors. fold n.
    destruct target as [t|];
      [destruct (bool_decide (role st = Some "mafia")) eqn:Hm;
         [apply bool_decide_eq_true in Hm
         |destruct (bool_decide (role st = Some "doctor")) eqn:Hd;
            [apply bool_decide_eq_true in Hd|]]|];
      simpl; rewrite ?zero_plain_length, ?one_hot_plain_length;
      (split; [done|]); (split; [done|]); (split; [done|]); split.
    + right. left. eauto 10.
    + intros _ [Hr|Hr]; rewrite Hm in Hr; discriminate.
    + right. right. eauto 10.
    + intros _ [Hr|Hr]; rewrite Hd in Hr; discriminate.
    + left. eauto.
    + done.
    + left. eauto.
    + done.
  - exists (zero_plain n), (zero_plain n), (zero_plain n). eexists _, _, _.
    rewrite Ha, Hh. split; [exact Hv|]. split; [exact Hv|]. split; [exact Hv|].
    rewrite zero_plain_length. repeat split; eauto.
Qed.

Lemma send_dummy_keeps_alive (s : AgentState) :
  alive (fst (send_dummy_investigation_packets s)) = alive s.
Proof.
  unfold send_dummy_investigation_packets, create_zero_vector, serialize,
    bind, get, lift, assign, pure, require.
  destruct (cc s) eqn:Hc; [|done].
  destruct (joint_public_key s) eqn:Hp; [|done].
  simpl. rewrite Hc. done.
Qed.

Lemma run_queued_tasks_alive (s : AgentState) :
  alive (run_queued_tasks s) = alive s.
Proof.
  unfold run_queued_tasks. destruct (dummy_task s); [|done].
  by rewrite send_dummy_keeps_alive.
Qed.

Lemma bind_run {A B : Type} (m : py A) (k : A -> py B) (s s' : AgentState) (a : A) :
  m s = (s', Ok a) -> bind m k s = k a s'.
Proof. intros Hm. unfold bind. by rewrite Hm. Qed.

Lemma create_zero_vector_run (s : AgentState) (c : CryptoContext) (pk : PublicKey) :
  cc s = Some c -> joint_public_key s = Some pk ->
  create_zero_vector s
  = (set_entropy (S (entropy s)) s,
     Ok (encrypt c pk (zero_plain (num_players s)) (entropy s))).
Proof.
  intros Hc Hp. unfold create_zero_vector, bind, get, lift, assign, pure.
  by rewrite Hc, Hp.
Qed.

Lemma serialize_run (ct : Ciphertext) (s : AgentState) (c : CryptoContext) :
  cc s = Some c -> serialize ct s = (s, Ok (serialize_ciphertext c ct)).
Proof. intros Hc. unfold serialize, bind, get, lift, pure. by rewrite Hc. Qed.

Lemma bind_assign {B : Type} (f : AgentState -> AgentState) (k : unit -> py B)
    (s : AgentState) :
  bind (assign f) k s = k tt (f s).
Proof. reflexivity. Qed.

Lemma bind_get {B : Type} (k : AgentState -> py B) (s : AgentState) :
  bind get k s = k s s.
Proof. reflexivity. Qed.

(** The body of the endpoint for a party that is missing from the
    survivors. *)
Lemma request_action_body_dead (st : AgentState) (request : GameUpdateRequest)
    (runs : AIRuns) (c : CryptoContext) (pk : PublicKey) :
  cc st = Some c -> joint_public_key st = Some pk ->
  py_in (player_index st) (survivors request) = false ->
  let zero_b64 :=
    serialize_ciphertext c (encrypt c pk (zero_plain (num_players st)) (entropy st)) in
  exists st',
    request_action_body request runs st
    = (st', Ok (action_response request (zero_b64, zero_b64, zero_b64)))
    /\ alive st' = false.
Proof.
  intros Hcc Hpk Hin zero_b64.
  unfold request_action_body.
  rewrite !bind_assign, bind_get.
  match goal with
  | |- context [py_in (player_index ?s) _] =>
      change (player_index s) with (player_index st)
  end.
  rewrite Hin. change (negb false) with true. cbv iota.
  rewrite !bind_assign, bind_get.
  match goal with
  | |- context [mark_dead_players request ?s] =>
      destruct (mark_dead_players_same request s) as ((Hc1 & Hp1 & Hn1 & _) & He1 & Hal);
      change (cc s) with (cc st) in Hc1;
      change (joint_public_key s) with (joint_public_key st) in Hp1;
      change (num_players s) with (num_players st) in Hn1;
      change (entropy s) with (entropy st) in He1;
      change (alive s) with false in Hal;
      generalize dependent (mark_dead_players request s)
  end.
  intros s1 Hc1 Hp1 Hn1 He1 Hal.
  rewrite Hcc in Hc1. rewrite Hpk in Hp1.
  rewrite Hal. change (negb false) with true. cbv iota.
  rewrite (bind_run _ _ _ _ _ (create_zero_vector_run s1 c pk Hc1 Hp1)).
  rewrite (bind_run _ _ _ _ _ (serialize_run _ (set_entropy _ s1) c Hc1)).
  unfold pure. subst zero_b64. rewrite Hn1, He1.
  eexists. split; [reflexivity|exact Hal].
Qed.

(** What a party answers once it is missing from the survivors. *)
Lemma dead_response (st : AgentState) (request : GameUpdateRequest) (runs : AIRuns)
    (c : CryptoContext) (pk : PublicKey) :
  cc st = Some c -> joint_public_key st = Some pk ->
  py_in (player_index st) (survivors request) = false ->
  let zero_b64 :=
    serialize_ciphertext c (encrypt c pk (zero_plain (num_players st)) (entropy st)) in
  alive (fst (request_action st request runs)) = false
  /\ snd (request_action st request runs)
     = Http200 (action_response request (zero_b64, zero_b64, zero_b64)).
Proof.
  intros Hcc Hpk Hin zero_b64.
  destruct (request_action_body_dead st request runs c pk Hcc Hpk Hin)
    as (st' & Hbody & Hal).
  unfold request_action. rewrite Hbody. simpl.
  rewrite run_queued_tasks_alive. by split.
Qed.

(** C9, as the code has it.  A party that is missing from the survivors
    marks itself dead and answers with one encryption of the zero vector in
    all three places, whatever it was before and whatever the phase.  A live
    party that is among the survivors answers, in the vote and night phases,
    with three ciphertexts made with three different draws; in every other
    phase it answers like a dead one, with one encryption of the zero vector
    in all three places. *)
Theorem dead_party_duplicates_one_ciphertext
    (st : AgentState) (request : GameUpdateRequest) (runs : AIRuns)
    (c : CryptoContext) (pk : PublicKey) :
  cc st = Some c -> joint_public_key st = Some pk ->
  let zero_b64 :=
    serialize_ciphertext c (encrypt c pk (zero_plain (num_players st)) (entropy st)) in
  (py_in (player_index st) (survivors request) = false ->
   alive (fst (request_action st request runs)) = false
   /\ snd (request_action st request runs)
      = Http200 (action_response request (zero_b64, zero_b64, zero_b64)))
  /\ (alive st = true -> py_in (player_index st) (survivors request) = true ->
      forall resp : ActionResponse,
        snd (request_action st request runs) = Http200 resp ->
        (phase request = "vote" \/ phase request = "night" ->
         exists (vote attack heal : list Z) (d1 d2 d3 : nat),
           encrypts c pk (vote_vector resp) vote d1
           /\ encrypts c pk (attack_vector resp) attack d2
           /\ encrypts c pk (heal_vector resp) heal d3
           /\ d1 <> d2 /\ d2 <> d3 /\ d1 <> d3)
        /\ (phase request <> "vote" -> phase request <> "night" ->
            vote_vector resp = zero_b64
            /\ attack_vector resp = zero_b64
            /\ heal_vector resp = zero_b64)).
Proof.
  intros Hcc Hpk zero_b64. split.
  - intros Hdead. by apply dead_response.
  - intros Halive Hin resp Hresp.
    destruct (live_response_shape st request runs c pk resp Hcc Hpk Halive Hin Hresp)
      as [(Hvote & vote & _ & Hv & Ha & Hh)
         |[(Hnight & target & Hv & Ha & Hh)
          |(Hnv & Hnn & Hv & Ha & Hh)]].
    + split; [|by intros Hnv _].
      intros _. eexists _, _, _, _, _, _. split; [exact Hv|]. split; [exact Ha|].
      split; [exact Hh|]. lia.
    + split; [|by intros _ Hnn].
      intros _. eexists _, _, _, _, _, _. split; [exact Hv|]. split; [exact Ha|].
      split; [exact Hh|]. unfold night_vectors.
      destruct target; repeat destruct (bool_decide _); simpl; lia.
    + split; [by intros [Hp|Hp]|].
      intros _ _. unfold encrypts in Hv. rewrite Ha, Hh.
      by repeat split.
Qed.

End ActionFacts.

(** ** Suspicion notes: what a manager holds *)

Section NoteFacts.
Import Suspicion.

Lemma init_notes_lookup_aux (c : manager_class) (me : option Z) (l : list Z) :
  forall (acc : gmap Z SuspicionNote) (i : Z),
    foldl (fun ns i =>
             if bool_decide (Some i <> me)
             then <[i := new_note i (LEVEL_ENUM_UNKNOWN c) "No information yet" false 0]> ns
             else ns) acc l !! i
    = if bool_decide (i ∈ l) && bool_decide (Some i <> me)
      then Some (new_note i (LEVEL_ENUM_UNKNOWN c) "No information yet" false 0)
      else acc !! i.
Proof.
  induction l as [|j l IH]; intros acc i; cbn [foldl].
  - rewrite bool_decide_eq_false_2 by apply not_elem_of_nil. done.
  - rewrite IH.
    assert (Hhere : (if bool_decide (Some j <> me)
                     then <[j := new_note j (LEVEL_ENUM_UNKNOWN c) "No information yet" false 0]> acc
                     else acc) !! i
                    = if bool_decide (i = j) && bool_decide (Some i <> me)
                      then Some (new_note i (LEVEL_ENUM_UNKNOWN c) "No information yet" false 0)
                      else acc !! i).
    { destruct (decide (i = j)) as [->|Hne].
      - rewrite (bool_decide_eq_true_2 (j = j)) by done. simpl.
        destruct (bool_decide (Some j <> me)); [by rewrite lookup_insert_eq|done].
      - rewrite (bool_decide_eq_false_2 (i = j)) by done. simpl.
        destruct (bool_decide (Some j <> me)); [by rewrite lookup_insert_ne|done]. }
    rewrite Hhere.
    replace (bool_decide (i ∈ j :: l)) with (bool_decide (i = j) || bool_decide (i ∈ l)).
    2:{ destruct (decide (i = j)), (decide (i ∈ l));
          rewrite ?(bool_decide_eq_true_2 (i = j)), ?(bool_decide_eq_false_2 (i = j)),
            ?(bool_decide_eq_true_2 (i ∈ l)), ?(bool_decide_eq_false_2 (i ∈ l)) by done;
          simpl; symmetry;
          first [apply bool_decide_eq_true_2 | apply bool_decide_eq_false_2];
          rewrite elem_of_cons; tauto. }
    by destruct (bool_decide (i = j)), (bool_decide (i ∈ l)), (bool_decide (Some i <> me)).
Qed.

(** X1.  A fresh manager holds one note for every player index from 0 to
    [num_players - 1] except the owner's, each at level UNKNOWN with the
    text "No information yet", unconfirmed, alive, of turn 0; it holds no
    note for the owner, for a negative index or for an index from
    [num_players] on. *)
Theorem init_notes_lookup (c : manager_class) (n : Z) (me : option Z) (i : Z) :
  notes (init c n me) !! i
  = if (0 <=? i) && (i <? n) && bool_decide (Some i <> me)
    then Some (new_note i (LEVEL_ENUM_UNKNOWN c) "No information yet" false 0)
    else None.
Proof.
  unfold init. cbn [notes]. rewrite init_notes_lookup_aux.
  rewrite lookup_empty. unfold range.
  destruct (decide (0 <= i < n)) as [Hi|Hi].
  - rewrite bool_decide_eq_true_2 by (apply elem_of_seqZ; lia).
    replace ((0 <=? i) && (i <? n)) with true; [done|].
    symmetry. apply andb_true_intro. split; [apply Z.leb_le|apply Z.ltb_lt]; lia.
  - rewrite bool_decide_eq_false_2 by (rewrite elem_of_seqZ; lia).
    replace ((0 <=? i) && (i <? n)) with false; [done|].
    symmetry. apply andb_false_iff. rewrite Z.leb_gt, Z.ltb_ge. lia.
Qed.

Lemma well_formed_init (c : manager_class) (n : Z) (me : option Z) :
  well_formed (init c n me).
Proof.
  intros i note Hnote. unfold init in Hnote. cbn [notes] in Hnote.
  rewrite init_notes_lookup_aux in Hnote.
  rewrite lookup_empty in Hnote.
  destruct (bool_decide (i ∈ range n)) eqn:Hin; [|discriminate].
  destruct (bool_decide (Some i <> me)) eqn:Hme; [|discriminate].
  simpl in Hnote. injection Hnote as <-.
  apply bool_decide_eq_true in Hin. apply bool_decide_eq_true in Hme.
  unfold range in Hin. apply elem_of_seqZ in Hin.
  split; [reflexivity|]. simpl. split; [lia|exact Hme].
Qed.

Lemma well_formed_insert (m : manager) (i : Z) (n : SuspicionNote) :
  well_formed m ->
  note_player_index n = i -> 0 <= i < num_players m -> Some i <> player_index m ->
  well_formed (set_notes m (<[i := n]> (notes m))).
Proof.
  intros Hwf Hidx Hrange Hself j n' Hn'. simpl in Hn'.
  destruct (decide (i = j)) as [<-|Hne].
  - rewrite lookup_insert_eq in Hn'. injection Hn' as <-. done.
  - rewrite lookup_insert_ne in Hn' by done. by apply Hwf.
Qed.

Lemma LEVEL_ENUM_value (c : manager_class) (v : string) (l : level) :
  LEVEL_ENUM c v = Some l -> level_value l = v.
Proof.
  unfold LEVEL_ENUM. destruct c; intros Hl;
    apply fmap_Some in Hl as (x & Hfind & ->);
    apply find_some in Hfind as [_ Heq]; by apply String.eqb_eq in Heq.
Qed.

Lemma in_range_test (i n : Z) :
  (i <? 0) || (n <=? i) = false <-> 0 <= i < n.
Proof. rewrite orb_false_iff, Z.ltb_ge, Z.leb_gt. lia. Qed.

(** What [write_note] does, in full: it refuses and leaves the manager alone,
    or it files exactly the note it reports. *)
Lemma write_note_cases (m : manager) (i : Z) (lv why : string) (t : Z) (c : bool) :
  (is_refusal (snd (write_note m i lv why t c)) = true
   /\ fst (write_note m i lv why t c) = m)
  \/ (exists parsed,
        LEVEL_ENUM (cls m) (str_lower lv) = Some parsed
        /\ write_note m i lv why t c
           = (set_notes m (<[i := new_note i parsed why c t]> (notes m)),
              NoteUpdated (new_note i parsed why c t))
        /\ 0 <= i < num_players m /\ Some i <> player_index m
        /\ (forall old, notes m !! i = Some old -> is_confirmed old = false)).
Proof.
  unfold write_note.
  destruct (bool_decide (Some i = player_index m)) eqn:Hself; [by left|].
  destruct ((i <? 0) || (num_players m <=? i)) eqn:Hrange; [by left|].
  apply bool_decide_eq_false in Hself. apply in_range_test in Hrange.
  destruct (notes m !! i) as [existing|] eqn:Hold.
  - unfold can_update. destruct (is_confirmed existing) eqn:Hconf; [by left|]. simpl.
    destruct (LEVEL_ENUM (cls m) (str_lower lv)) as [parsed|]; [|by left].
    right. exists parsed. repeat split; try done; try lia. by intros old [= <-].
  - destruct (LEVEL_ENUM (cls m) (str_lower lv)) as [parsed|]; [|by left].
    right. exists parsed. repeat split; try done; lia.
Qed.

Lemma write_note_well_formed (m : manager) (i : Z) (lv why : string) (t : Z) (c : bool) :
  well_formed m -> well_formed (fst (write_note m i lv why t c)).
Proof.
  intros Hwf.
  destruct (write_note_cases m i lv why t c) as [[_ ->]|(parsed & _ & -> & Hr & Hs & _)];
    [done|].
  by apply well_formed_insert.
Qed.

Lemma add_investigation_result_well_formed (m : manager) (i : Z) (b : bool) (t : Z) :
  well_formed m -> well_formed (fst (add_investigation_result m i b t)).
Proof.
  intros Hwf. unfold add_investigation_result.
  destruct (bool_decide (Some i = player_index m)) eqn:Hself; [done|].
  destruct ((i <? 0) || (num_players m <=? i)) eqn:Hrange; [done|].
  apply bool_decide_eq_false in Hself. apply in_range_test in Hrange.
  by apply well_formed_insert.
Qed.

Lemma mark_player_dead_well_formed (m : manager) (i : Z) :
  well_formed m -> well_formed (mark_player_dead m i).
Proof.
  intros Hwf. unfold mark_player_dead.
  destruct (notes m !! i) as [n|] eqn:Hn; [|done].
  destruct (Hwf i n Hn) as (Hidx & Hrange & Hself).
  by apply well_formed_insert.
Qed.

Lemma do_call_well_formed (m : manager) (c : method_call) :
  well_formed m -> well_formed (do_call m c).
Proof.
  intros Hwf. destruct c as [c|i b t|i]; simpl.
  - by apply write_note_well_formed.
  - destruct (cls m); [done|]. by apply add_investigation_result_well_formed.
  - by apply mark_player_dead_well_formed.
Qed.

(** X2.  Whatever sequence of [write_note], [add_investigation_result] and
    [mark_player_dead] calls a manager has seen since it was created, every
    note is filed under the index of the player it is about, that index is
    a player of the game, and it is never the owner's own. *)
Theorem notes_stay_well_formed (c : manager_class) (n : Z) (me : option Z)
    (calls : list method_call) :
  well_formed (do_calls (init c n me) calls).
Proof.
  unfold do_calls. generalize (well_formed_init c n me).
  generalize (init c n me). induction calls as [|call calls IH]; intros m Hwf; [done|].
  simpl. apply IH. by apply do_call_well_formed.
Qed.

(** X3.  [write_note] either refuses, and then leaves the manager as it
    was, or reports the note it has filed: that note sits under the target
    index, every other note is untouched, its level is the enum member whose
    value is the lower-cased level string, and it starts alive whatever the
    note it replaces said. *)
Theorem write_note_files_what_it_reports
    (m : manager) (i : Z) (lv why : string) (t : Z) (c : bool) :
  (is_refusal (snd (write_note m i lv why t c)) = true
   /\ fst (write_note m i lv why t c) = m)
  \/ (exists n,
        snd (write_note m i lv why t c) = NoteUpdated n
        /\ notes (fst (write_note m i lv why t c)) !! i = Some n
        /\ (forall j, j <> i ->
              notes (fst (write_note m i lv why t c)) !! j = notes m !! j)
        /\ note_player_index n = i
        /\ level_value (note_level n) = str_lower lv
        /\ reasoning n = why /\ turn n = t /\ is_confirmed n = c
        /\ is_dead n = false).
Proof.
  destruct (write_note_cases m i lv why t c) as [?|(parsed & Hparse & -> & _)];
    [by left|right].
  eexists. split; [reflexivity|]. simpl. split; [apply lookup_insert_eq|].
  split; [intros j Hj; by apply lookup_insert_ne|].
  repeat split. by apply (LEVEL_ENUM_value (cls m)).
Qed.

(** X4.  [mark_player_dead] sets the dead mark of an existing note and
    keeps the rest of it, and marking twice is marking once.  A later
    [write_note] with a valid level about that player replaces the note by
    a fresh one, so the dead mark is gone again. *)
Theorem rewriting_a_note_clears_the_dead_mark
    (m : manager) (i : Z) (n : SuspicionNote) (lv why : string) (t : Z) (c : bool)
    (parsed : level) :
  notes m !! i = Some n ->
  is_confirmed n = false ->
  Some i <> player_index m -> 0 <= i < num_players m ->
  LEVEL_ENUM (cls m) (str_lower lv) = Some parsed ->
  notes (mark_player_dead m i) !! i
  = Some (mkNote (note_player_index n) (note_level n) (reasoning n) (is_confirmed n)
                 (turn n) true)
  /\ mark_player_dead (mark_player_dead m i) i = mark_player_dead m i
  /\ notes (fst (write_note (mark_player_dead m i) i lv why t c)) !! i
     = Some (mkNote i parsed why c t false).
Proof.
  intros Hn Hconf Hself Hrange Hparse.
  assert (Hdead : mark_player_dead m i = set_notes m (<[i := mark_dead n]> (notes m))).
  { unfold mark_player_dead. by rewrite Hn. }
  split; [|split].
  - rewrite Hdead. simpl. by rewrite lookup_insert_eq.
  - rewrite Hdead. unfold mark_player_dead at 1. simpl. rewrite lookup_insert_eq.
    unfold set_notes. simpl. by rewrite insert_insert_eq.
  - rewrite Hdead. unfold write_note. simpl.
    rewrite bool_decide_eq_false_2 by done.
    rewrite (proj2 (in_range_test i (num_players m))) by done.
    rewrite lookup_insert_eq. unfold can_update. simpl. rewrite Hconf. simpl.
    rewrite Hparse. simpl. by rewrite lookup_insert_eq.
Qed.

Lemma players_at_spec (lv : PoliceSuspicionLevel) (m : manager) (i : Z) :
  well_formed m ->
  i ∈ players_at lv m
  <-> exists n, notes m !! i = Some n /\ note_level n = Police lv /\ is_dead n = false.
Proof.
  intros Hwf. unfold players_at, notes_values. split.
  - intros Hin. apply list_elem_of_fmap in Hin as (n & -> & Hin).
    apply list_elem_of_In, filter_In in Hin as [Hin Htest].
    apply list_elem_of_In, list_elem_of_fmap in Hin as ([k n'] & -> & Hin).
    apply elem_of_map_to_list in Hin. simpl in *.
    destruct (Hwf k n' Hin) as (-> & _).
    apply andb_true_iff in Htest as [Hlv Hdead].
    apply bool_decide_eq_true in Hlv. apply negb_true_iff in Hdead. eauto.
  - intros (n & Hn & Hlv & Hdead).
    destruct (Hwf i n Hn) as (Hidx & _).
    apply list_elem_of_fmap. exists n. split; [done|].
    apply list_elem_of_In, filter_In. split.
    + apply list_elem_of_In, list_elem_of_fmap. exists (i, n). split; [done|].
      by apply elem_of_map_to_list.
    + rewrite Hdead. rewrite bool_decide_eq_true_2 by done. done.
Qed.

(** X5.  After [add_investigation_result] the target is listed by
    [get_confirmed_mafia] exactly when the verdict was MAFIA and by
    [get_confirmed_not_mafia] exactly when it was not; once the target is
    marked dead, neither getter lists it. *)
Theorem investigated_player_listed_until_dead
    (p : manager) (j : Z) (is_mafia : bool) (t : Z) :
  well_formed p ->
  Some j <> player_index p -> 0 <= j < num_players p ->
  let p' := fst (add_investigation_result p j is_mafia t) in
  (j ∈ get_confirmed_mafia p' <-> is_mafia = true)
  /\ (j ∈ get_confirmed_not_mafia p' <-> is_mafia = false)
  /\ (j ∉ get_confirmed_mafia (mark_player_dead p' j))
  /\ (j ∉ get_confirmed_not_mafia (mark_player_dead p' j)).
Proof.
  intros Hwf Hself Hrange p'.
  assert (Hwf' : well_formed p') by (by apply add_investigation_result_well_formed).
  assert (Hp' : notes p' !! j
                = Some (new_note j (if is_mafia then Police CONFIRMED_MAFIA
                                    else Police CONFIRMED_NOT_MAFIA)
                          (investigation_reasoning is_mafia t) is_mafia t)).
  { unfold p'. rewrite add_investigation_result_stored by done. simpl.
    apply lookup_insert_eq. }
  assert (Hdead : forall n, notes (mark_player_dead p' j) !! j = Some n -> is_dead n = true).
  { unfold mark_player_dead. rewrite Hp'. simpl. rewrite lookup_insert_eq.
    by intros n [= <-]. }
  unfold get_confirmed_mafia, get_confirmed_not_mafia.
  rewrite !players_at_spec by first [done | by apply mark_player_dead_well_formed].
  repeat split.
  - intros (n & Hn & Hlv & _). rewrite Hp' in Hn. injection Hn as <-.
    destruct is_mafia; [done|discriminate Hlv].
  - intros ->. eauto.
  - intros (n & Hn & Hlv & _). rewrite Hp' in Hn. injection Hn as <-.
    destruct is_mafia; [discriminate Hlv|done].
  - intros ->. eauto.
  - intros (n & Hn & _ & Hd). apply Hdead in Hn. congruence.
  - intros (n & Hn & _ & Hd). apply Hdead in Hn. congruence.
Qed.

End NoteFacts.

(** ** A key-generation session *)

Section SessionFacts.
Context `{FHE}.

Lemma dkg_setup_fields (st st1 : AgentState) (setup : DKGSetupRequest) (r : http string) :
  dkg_setup st setup = (st1, r) ->
  game_id st1 = Some (setup_game_id setup)
  /\ num_players st1 = setup_num_players setup
  /\ player_index st1 = Some (setup_player_index setup)
  /\ keypair st1 = keypair st
  /\ match r with
     | Http200 _ => exists c, deserialize_crypto_context (setup_crypto_context setup) = Ok c
                              /\ cc st1 = Some c
     | HTTPException _ _ => cc st1 = cc st
     end.
Proof.
  unfold dkg_setup.
  destruct (deserialize_crypto_context (setup_crypto_context setup)) as [c|e];
    intros [= <- <-]; repeat split; eauto.
Qed.

Lemma dkg_round_fields (st st2 : AgentState) (round : DKGRoundRequest)
    (resp : DKGRoundResponse) :
  dkg_round st round = (st2, Http200 resp) ->
  exists c kp,
    cc st = Some c /\ cc st2 = Some c /\ keypair st2 = Some kp
    /\ public_key resp = serialize_public_key c (publicKey kp)
    /\ game_id st2 = game_id st /\ num_players st2 = num_players st
    /\ player_index st2 = player_index st
    /\ entropy st2 = S (entropy st).
Proof.
  unfold dkg_round. destruct (cc st) as [c|] eqn:Hcc; [|discriminate].
  match goal with
  | |- context [match ?g with Ok _ => _ | Raise _ => _ end] => destruct g as [[pk sk]|e]
  end; [|discriminate].
  intros [= <- <-]. eexists c, _. repeat split; try reflexivity. exact Hcc.
Qed.

(** X7.  After a successful /dkg_setup and a successful /dkg_round the
    party works in the context of the setup request, the public key it
    answered with is the one of the key pair it stores, and
    /generate_keyswitchgen is served for the game of the setup (its answer
    is what the library computes from the stored secret key) and refused,
    with the mismatch message, for any other game. *)
Theorem key_switch_round_follows_setup
    (st st1 st2 : AgentState) (setup : DKGSetupRequest) (round : DKGRoundRequest)
    (request : MultKeyRequest) (msg : string) (resp : DKGRoundResponse) :
  dkg_setup st setup = (st1, Http200 msg) ->
  dkg_round st1 round = (st2, Http200 resp) ->
  exists c kp,
    deserialize_crypto_context (setup_crypto_context setup) = Ok c
    /\ cc st2 = Some c /\ keypair st2 = Some kp
    /\ public_key resp = serialize_public_key c (publicKey kp)
    /\ game_id st2 = Some (setup_game_id setup)
    /\ (req_game_id request = Some (setup_game_id setup) ->
        snd (generate_keyswitchgen st2 request)
        = catch_500
            (let! prev_key := deserialize_eval_mult_key_object c (req_prev_key request) in
             let! local_key := MultiKeySwitchGen c (secretKey kp) (secretKey kp) prev_key in
             Ok (EvalKeyResponse (serialize_eval_mult_key c local_key))))
    /\ (req_game_id request <> Some (setup_game_id setup) ->
        snd (generate_keyswitchgen st2 request)
        = HTTPException 500
            (str_of_exn (game_id_mismatch (Some (setup_game_id setup))
                           (req_game_id request)))).
Proof.
  intros Hsetup Hround.
  apply dkg_setup_fields in Hsetup as (Hgame & _ & _ & _ & c & Hctx & Hcc1).
  apply dkg_round_fields in Hround as (c' & kp & Hcc1' & Hcc2 & Hkp & Hpk & Hgame2 & _).
  assert (c' = c) as -> by congruence.
  exists c, kp. repeat split; try done; try congruence.
  - intros Hreq. unfold generate_keyswitchgen. rewrite Hcc2, Hkp. simpl.
    rewrite bool_decide_eq_false_2 by (intros Hne; apply Hne; congruence). done.
  - intros Hreq. unfold generate_keyswitchgen. rewrite Hcc2, Hkp. simpl.
    rewrite bool_decide_eq_true_2 by congruence. simpl. by rewrite Hgame2, Hgame.
Qed.

(** X8.  /dkg_setup stores the identifiers before it deserializes the
    context.  A setup that fails on the context leaves the party with the
    new game identifier and the old context and key pair: from then on it
    serves the key-switch round of the new game with the old keys and
    refuses the game it was set up for. *)
Theorem failed_setup_switches_the_game
    (st st1 : AgentState) (setup : DKGSetupRequest) (request : MultKeyRequest)
    (status : Z) (detail : string) (c : CryptoContext) (kp : KeyPair) :
  dkg_setup st setup = (st1, HTTPException status detail) ->
  cc st = Some c -> keypair st = Some kp ->
  game_id st1 = Some (setup_game_id setup)
  /\ cc st1 = Some c /\ keypair st1 = Some kp
  /\ (req_game_id request = Some (setup_game_id setup) ->
      snd (generate_keyswitchgen st1 request)
      = catch_500
          (let! prev_key := deserialize_eval_mult_key_object c (req_prev_key request) in
           let! local_key := MultiKeySwitchGen c (secretKey kp) (secretKey kp) prev_key in
           Ok (EvalKeyResponse (serialize_eval_mult_key c local_key))))
  /\ (req_game_id request = game_id st ->
      game_id st <> Some (setup_game_id setup) ->
      exists detail', snd (generate_keyswitchgen st1 request) = HTTPException 500 detail').
Proof.
  intros Hsetup Hcc Hkp.
  apply dkg_setup_fields in Hsetup as (Hgame & _ & _ & Hkp1 & Hcc1).
  rewrite Hcc in Hcc1. rewrite Hkp in Hkp1.
  repeat split; try done.
  - intros Hreq. unfold generate_keyswitchgen. rewrite Hcc1, Hkp1. simpl.
    rewrite bool_decide_eq_false_2 by (intros Hne; apply Hne; congruence). done.
  - intros Hreq Hother. unfold generate_keyswitchgen. rewrite Hcc1, Hkp1. simpl.
    rewrite bool_decide_eq_true_2 by congruence. by eexists.
Qed.

Lemma insert_mult_keys_app (pre : list string) :
  forall (c : CryptoContext) (post : list string) (inserted skipped : Z),
    (forall c' k, k ∈ pre ->
       (exists c'', deserialize_eval_mult_key c' k = Ok c'')
       \/ (exists msg, deserialize_eval_mult_key c' k = Raise (RuntimeError msg)
                       /\ str_contains already_saved_marker msg = true)) ->
    insert_mult_keys c (pre ++ post)%list inserted skipped
    = insert_mult_keys (fst (insert_new_keys c pre)) post
        (inserted + Z.of_nat (length (snd (insert_new_keys c pre))))
        (skipped + Z.of_nat (length pre - length (snd (insert_new_keys c pre)))).
Proof.
  induction pre as [|k pre IH]; intros c post inserted skipped Hall; simpl.
  - by rewrite !Z.add_0_r.
  - assert (Hrest : forall c' k', k' ∈ pre ->
       (exists c'', deserialize_eval_mult_key c' k' = Ok c'')
       \/ (exists msg, deserialize_eval_mult_key c' k' = Raise (RuntimeError msg)
                       /\ str_contains already_saved_marker msg = true)).
    { intros c' k' Hk'. apply Hall. by right. }
    assert (Hlen : forall c', (length (snd (insert_new_keys c' pre)) <= length pre)%nat).
    { clear. induction pre as [|k pre IH]; intros c'; simpl; [lia|].
      destruct (deserialize_eval_mult_key c' k); simpl.
      - specialize (IH a). lia.
      - specialize (IH c'). lia. }
    destruct (Hall c k) as [[c'' Hok]|(msg & Herr & Hmark)]; [by left| |].
    + rewrite Hok. simpl. rewrite IH by done. specialize (Hlen c'').
      f_equal; lia.
    + rewrite Herr, Hmark. rewrite IH by done. specialize (Hlen c).
      f_equal; lia.
Qed.

(** X9.  When a key of the merged list makes the library raise anything
    but its already-saved complaint, /receive_mult_keys answers 500 with
    that error; the keys before it have gone into the context and stay
    there, the keys after it are not tried. *)
Theorem receive_mult_keys_keeps_keys_before_failure
    (st : AgentState) (request : MultKeyRequest) (c : CryptoContext)
    (pre post : list string) (bad : string) (e : exn) :
  cc st = Some c ->
  req_game_id request = game_id st ->
  req_mult_keys request = Some (pre ++ bad :: post)%list ->
  (forall c' k, k ∈ pre ->
     (exists c'', deserialize_eval_mult_key c' k = Ok c'')
     \/ (exists msg, deserialize_eval_mult_key c' k = Raise (RuntimeError msg)
                     /\ str_contains already_saved_marker msg = true)) ->
  deserialize_eval_mult_key (fst (insert_new_keys c pre)) bad = Raise e ->
  (forall msg, e = RuntimeError msg -> str_contains already_saved_marker msg = false) ->
  receive_mult_keys st request
  = (set_cc (Some (fst (insert_new_keys c pre))) st, HTTPException 500 (str_of_exn e)).
Proof.
  intros Hcc Hgame Hkeys Hall Hbad Hmarker. unfold receive_mult_keys.
  rewrite Hcc, Hkeys. rewrite bool_decide_eq_false_2 by (intros Hne; by apply Hne).
  simpl. rewrite (insert_mult_keys_app pre c (bad :: post) 0 0 Hall).
  simpl. rewrite Hbad.
  destruct e as [m|m|m|m|m|m|m|s|m]; try reflexivity.
  by rewrite (Hmarker m eq_refl).
Qed.

End SessionFacts.

(** ** Shares, chains and the role *)

Section ChainFacts.
Context `{FHE}.

(** X10.  /investigate_parallel, /partial_decrypt with [is_lead] false and
    the last hop of /relay_decrypt hand out the same share of a ciphertext:
    one answers with a share exactly when the others do, and it is the same
    string (the relay appends it to what it was given).  When one answers
    with an error, all three answer 500. *)
Theorem share_endpoints_agree
    (net : network) (st : AgentState) (ciphertext_b64 : string)
    (earlier : list string) (player_addresses : list string) (share_b64 : string) :
  (investigate_parallel st ciphertext_b64 = Http200 share_b64
   <-> partial_decrypt st {| pd_ciphertext := ciphertext_b64; is_lead := false |}
       = Http200 {| partial_ciphertext := share_b64; pd_success := true |})
  /\ (investigate_parallel st ciphertext_b64 = Http200 share_b64
      <-> relay_decrypt net st ciphertext_b64 earlier [] player_addresses
          = Http200 (PartialResults (earlier ++ [share_b64])))
  /\ (forall status detail,
        investigate_parallel st ciphertext_b64 = HTTPException status detail ->
        status = 500
        /\ (exists d, partial_decrypt st {| pd_ciphertext := ciphertext_b64; is_lead := false |}
                      = HTTPException 500 d)
        /\ (exists d, relay_decrypt net st ciphertext_b64 earlier [] player_addresses
                      = HTTPException 500 d)).
Proof.
  unfold investigate_parallel, partial_decrypt. simpl.
  destruct (cc st) as [c|], (keypair st) as [kp|]; simpl;
    try (split; [split; discriminate|split; [split; discriminate|]];
         intros status detail [= <- <-]; split; [done|]; split; by eexists).
  destruct (deserialize_ciphertext c ciphertext_b64) as [ct|e]; simpl.
  - split; [|split].
    + split; intros [= <-]; reflexivity.
    + split; [by intros [= <-]|]. intros [= Heq]. apply app_inj_tail in Heq as [_ <-]. done.
    + discriminate.
  - split; [split; discriminate|split; [split; discriminate|]].
    intros status detail [= <- <-]. split; [done|]. split; by eexists.
Qed.

(** A hop whose next party fails answers with an error itself. *)
Lemma relay_decrypt_propagates_failure
    (net : network) (st next_player : AgentState) (ciphertext_b64 : string)
    (earlier : list string) (next_index : Z) (rest : list Z)
    (player_addresses : list string) (c : CryptoContext) (kp : KeyPair)
    (ct : Ciphertext) (a : string) (status : Z) (detail : string) :
  cc st = Some c -> keypair st = Some kp ->
  deserialize_ciphertext c ciphertext_b64 = Ok ct ->
  py_index player_addresses next_index = Ok a ->
  net !! a = Some next_player ->
  relay_decrypt net next_player ciphertext_b64
    (earlier ++ [serialize_ciphertext c (own_share c ct kp)]) rest player_addresses
  = HTTPException status detail ->
  relay_decrypt net st ciphertext_b64 earlier (next_index :: rest) player_addresses
  = HTTPException 500 (str_of_exn (HTTPStatusError status)).
Proof.
  intros Hcc Hkp Hct Ha Hnet Hnext.
  rewrite (relay_decrypt_unfold _ _ _ _ _ _ c kp ct) by done.
  simpl. by rewrite Ha, Hnet, Hnext.
Qed.

(** X11.  A relay chain whose next party has no address in the list, is not
    reachable, or has no context or key pair fails as a whole: the first hop
    answers 500, whatever was collected on the way, and however many parties
    come before or after the failing one. *)
Theorem relay_chain_breaks_at_missing_party
    (net : network) (ciphertext_b64 : string) (player_addresses : list string)
    (c : CryptoContext) (ct : Ciphertext) (missing : Z) (rest : list Z)
    (order : list Z) :
  forall (st : AgentState) (kp : KeyPair) (earlier : list string)
         (peers : list (AgentState * KeyPair)),
    cc st = Some c -> keypair st = Some kp ->
    deserialize_ciphertext c ciphertext_b64 = Ok ct ->
    Forall2 (reachable net player_addresses c ct) order peers ->
    (exists e, py_index player_addresses missing = Raise e)
    \/ (exists a, py_index player_addresses missing = Ok a
                  /\ (net !! a = None
                      \/ exists p, net !! a = Some p
                                   /\ (cc p = None \/ keypair p = None))) ->
    exists detail,
      relay_decrypt net st ciphertext_b64 earlier (order ++ missing :: rest)%list
        player_addresses
      = HTTPException 500 detail.
Proof.
  induction order as [|i order IH];
    intros st kp earlier peers Hcc Hkp Hct Hpeers Hmissing.
  - simpl app. rewrite (relay_decrypt_unfold _ _ _ _ _ _ c kp ct) by done. simpl.
    destruct Hmissing as [[e ->]|(a & -> & [->|(p & -> & Hp)])]; [by eexists..|].
    destruct rest; simpl;
      (destruct Hp as [->| ->]; [|destruct (cc p)]); by eexists.
  - inversion Hpeers as [|? p ? peers' Hp Hrest]; subst.
    destruct Hp as ((a & Ha & Hnet) & Hcc' & Hkp' & _).
    destruct (IH (fst p) (snd p)
                (earlier ++ [serialize_ciphertext c (own_share c ct kp)])%list
                peers' Hcc' Hkp' Hct Hrest Hmissing) as [detail Hnext].
    eexists. simpl app.
    by apply (relay_decrypt_propagates_failure net st (fst p) _ _ _ _ _ c kp ct a 500 detail).
Qed.

End ChainFacts.

Section RoleFacts.
Context `{FHE}.

(** X12.  A successful /blind_role_assignment stores the role list and the
    party's own entry [encrypted_roles[my_index]], which it has checked to
    deserialize.  /complete_role_decryption then decrypts that entry: the
    role is the label of the fusion of the received shares and the party's
    own share of it; afterwards /reveal_role answers with that label and
    /get_encrypted_role_vector with the entry, also when opening the
    conversation failed. *)
Theorem blind_assignment_feeds_role_decryption
    (st st1 : AgentState) (request : BlindRoleRequest) (msg : string)
    (c : CryptoContext) (kp : KeyPair) (received : list string)
    (shares : list Ciphertext) (conversation : result string) :
  cc st = Some c -> keypair st = Some kp ->
  blind_role_assignment st request = (st1, Http200 msg) ->
  mapM (deserialize_ciphertext c) received = Ok shares ->
  exists (enc : string) (ct : Ciphertext),
    py_index (blind_encrypted_roles request) (blind_my_index request) = Ok enc
    /\ deserialize_ciphertext c enc = Ok ct
    /\ my_encrypted_role st1 = Some enc
    /\ all_encrypted_roles st1 = blind_encrypted_roles request
    /\ (exists pk, deserialize_public_key c (Some (blind_joint_public_key request)) = Ok pk
                   /\ joint_public_key st1 = Some pk)
    /\ let st2 := fst (complete_role_decryption st1 received conversation) in
       let label :=
         str_lower
           (one_hot_to_role
              (py_take NUM_ROLE_TYPES
                 (fusion_decrypt c
                    (shares ++ [partial_decrypt_main c ct (secretKey kp)])%list))) in
       role st2 = Some label
       /\ reveal_role st2 = Http200 label
       /\ get_encrypted_role_vector st2 = Http200 enc.
Proof.
  intros Hcc Hkp Hblind Hshares. unfold blind_role_assignment in Hblind.
  rewrite Hcc in Hblind. simpl in Hblind.
  destruct (deserialize_public_key c (Some (blind_joint_public_key request)))
    as [pk|e] eqn:Hpk; [|discriminate].
  destruct (py_index (blind_encrypted_roles request) (blind_my_index request))
    as [enc|e] eqn:Henc.
  2:{ destruct (blind_player_addresses request); discriminate. }
  assert (Hst1 : exists ct, deserialize_ciphertext c enc = Ok ct
            /\ cc st1 = Some c /\ keypair st1 = Some kp /\ my_encrypted_role st1 = Some enc
            /\ all_encrypted_roles st1 = blind_encrypted_roles request
            /\ joint_public_key st1 = Some pk).
  { destruct (blind_player_addresses request); simpl in Hblind; rewrite Hcc in Hblind;
      simpl in Hblind;
      (destruct (deserialize_ciphertext c enc) as [ct|e] eqn:Hct; [|discriminate]);
      injection Hblind as <- _; exists ct; by repeat split. }
  destruct Hst1 as (ct & Hct & Hcc1 & Hkp1 & Hmine & Hall & Hjoint).
  exists enc, ct. repeat split; try done; eauto.
  all: unfold complete_role_decryption;
    rewrite Hcc1, Hmine, Hkp1; simpl; rewrite Hshares; simpl; rewrite Hct; simpl;
    destruct (bool_decide _), conversation; simpl; by rewrite ?Hmine.
Qed.

End RoleFacts.

(** ** Death announcements and decoys *)

Section AnnouncementFacts.
Context `{FHE}.

Lemma confirmed_dead_is_no_level (c : Suspicion.manager_class) :
  Suspicion.LEVEL_ENUM c (str_lower "confirmed_dead") = None.
Proof. by destruct c. Qed.

Lemma write_note_unknown_level (m : Suspicion.manager) (i : Z) (lv why : string)
    (t : Z) (c : bool) :
  Suspicion.LEVEL_ENUM (Suspicion.cls m) (str_lower lv) = None ->
  fst (Suspicion.write_note m i lv why t c) = m.
Proof.
  intros Hlv. unfold Suspicion.write_note. rewrite Hlv.
  repeat match goal with
         | |- context [if ?b then _ else _] => destruct b; simpl; try reflexivity
         | |- context [match ?o with Some _ => _ | None => _ end] =>
             destruct o; simpl; try reflexivity
         end.
Qed.

Lemma set_suspicion_notes_same (st : AgentState) :
  set_suspicion_notes (suspicion_notes st) st = st.
Proof. by destruct st. Qed.

(** X6.  /death_announcement asks [write_note] for the level
    "confirmed_dead", which is a member of neither enum, so every such write
    is refused.  An announcement whose entries all name a player answers
    "ok" and changes nothing but the dead marks of the notes about the
    announced players: the revealed roles are not stored. *)
Theorem death_announcement_only_marks_dead (deaths : list Death) :
  forall (st : AgentState) (indices : list Z),
    death_player_index <$> deaths = Some <$> indices ->
    receive_death_announcement st deaths
    = (set_suspicion_notes
         ((fun m => foldl Suspicion.mark_player_dead m indices) <$> suspicion_notes st) st,
       Http200 "ok").
Proof.
  induction deaths as [|death deaths IH]; intros st indices Hidx.
  - destruct indices; [|discriminate]. simpl.
    destruct (suspicion_notes st) eqn:Hn; simpl; by rewrite <- Hn, set_suspicion_notes_same.
  - destruct indices as [|i indices]; [discriminate|].
    injection Hidx as Hi Hrest. simpl.
    destruct (suspicion_notes st) as [m|] eqn:Hn; simpl.
    + unfold announce_death. rewrite Hi.
      rewrite write_note_unknown_level by apply confirmed_dead_is_no_level.
      rewrite (IH _ indices Hrest). reflexivity.
    + rewrite (IH _ indices Hrest). by rewrite Hn.
Qed.

End AnnouncementFacts.

Section DecoyFacts.
Context `{FHE}.

Lemma mapM_Ok {A B : Type} (f : A -> result B) (g : A -> B) (l : list A) :
  (forall a, f a = Ok (g a)) -> mapM f l = Ok (g <$> l).
Proof.
  intros Hf. induction l as [|a l IH]; [done|].
  simpl. rewrite Hf. simpl. fold (fmap (M:=list) g l). by rewrite IH.
Qed.

(** The address the investigation derives for player [i] when no address
    list was configured. *)
Lemma investigation_addresses_default (st : AgentState) :
  player_addresses st = [] ->
  investigation_addresses st
  = Ok ((fun i => if i =? 0 then Some "http://localhost:9000"
                  else if bool_decide (Some i = player_index st) then None
                  else Some ("http://localhost:" +:+ pretty (8764 + i)))
          <$> range (num_players st)).
Proof.
  intros Hpa. unfold investigation_addresses. rewrite Hpa.
  apply mapM_Ok. intros i.
  by destruct (i =? 0), (bool_decide (Some i = player_index st)).
Qed.

Lemma decoy_routes (me : option Z) (l : list Z) :
  omap id
    (snd <$> List.filter
               (fun ia : Z * option string =>
                  bool_decide (Some (fst ia) <> me)
                  && from_option str_truthy false (snd ia))
               (zip l
                  ((fun i => if i =? 0 then Some "http://localhost:9000"
                             else if bool_decide (Some i = me) then None
                             else Some ("http://localhost:" +:+ pretty (8764 + i)))
                     <$> l)))
  = dummy_address <$> List.filter (fun i => bool_decide (Some i <> me)) l.
Proof.
  induction l as [|i l IH]; [done|].
  cbn [fmap list_fmap zip zip_with List.filter fst snd].
  destruct (decide (Some i = me)) as [Hme|Hme].
  - rewrite (bool_decide_eq_false_2 (Some i <> me)) by (intros Hne; by apply Hne).
    cbn [andb]. exact IH.
  - rewrite (bool_decide_eq_true_2 (Some i <> me)) by done.
    rewrite (bool_decide_eq_false_2 (Some i = me)) by done. cbn [andb].
    assert (Haddr : (if i =? 0 then Some "http://localhost:9000"
                     else Some ("http://localhost:" +:+ pretty (8764 + i)))
                    = Some (dummy_address i)).
    { unfold dummy_address. by destruct (i =? 0). }
    rewrite Haddr.
    change (from_option str_truthy false (Some (dummy_address i))) with true.
    cbn iota. cbn [fmap list_fmap snd].
    change (omap id (Some (dummy_address i) :: ?l)) with (dummy_address i :: omap id l).
    f_equal. exact IH.
Qed.

Lemma send_dummy_investigation_packets_run (st : AgentState) (c : CryptoContext)
    (pk : PublicKey) :
  cc st = Some c -> joint_public_key st = Some pk ->
  send_dummy_investigation_packets st
  = (set_outbox
       (outbox st ++
        ((fun i => {| post_url := dummy_address i +:+ "/investigate_parallel";
                      post_ciphertext :=
                        serialize_ciphertext c
                          (encrypt c pk (zero_plain (num_players st)) (entropy st)) |})
           <$> List.filter (fun i => bool_decide (Some i <> player_index st))
                           (range (num_players st))))%list
       (set_entropy (S (entropy st)) st),
     Ok tt).
Proof.
  intros Hc Hp.
  unfold send_dummy_investigation_packets, create_zero_vector, serialize,
    bind, get, lift, assign, pure.
  rewrite Hc, Hp. simpl. rewrite Hc. reflexivity.
Qed.

(** X13.  A party that holds its context and the joint key encrypts one zero
    vector, with one draw, and posts that one ciphertext to
    /investigate_parallel of every player index but its own, at port 9000
    for index 0 and 8764 + i for the others, whatever addresses were
    configured.  When no address list was configured, these URLs are, in the
    same order, those a police investigation by this party sends its
    requests to. *)
Theorem decoys_take_the_investigation_routes
    (st : AgentState) (c : CryptoContext) (pk : PublicKey) :
  cc st = Some c -> joint_public_key st = Some pk ->
  let decoy :=
    serialize_ciphertext c (encrypt c pk (zero_plain (num_players st)) (entropy st)) in
  let others :=
    List.filter (fun i => bool_decide (Some i <> player_index st))
      (range (num_players st)) in
  exists posts : list Post,
    send_dummy_investigation_packets st
    = (set_outbox (outbox st ++ posts)%list (set_entropy (S (entropy st)) st), Ok tt)
    /\ post_url <$> posts
       = (fun i => ("http://localhost:" +:+ pretty (if i =? 0 then 9000 else 8764 + i))
                   +:+ "/investigate_parallel") <$> others
    /\ Forall (fun p => post_ciphertext p = decoy) posts
    /\ (player_addresses st = [] ->
        exists addrs : list (option string),
          investigation_addresses st = Ok addrs
          /\ post_url <$> posts
             = (fun a => a +:+ "/investigate_parallel")
                 <$> omap id (investigation_targets st addrs)).
Proof.
  intros Hc Hp decoy others. eexists.
  split; [by apply send_dummy_investigation_packets_run|].
  split; [|split].
  - rewrite <- list_fmap_compose. reflexivity.
  - apply Forall_fmap, Forall_forall. by intros i _.
  - intros Hpa. eexists. split; [by apply investigation_addresses_default|].
    unfold investigation_targets. rewrite decoy_routes.
    rewrite <- !list_fmap_compose. reflexivity.
Qed.

End DecoyFacts.

(** ** What the action endpoint keeps and when it fails *)

Section EndpointFacts.
Context `{FHE}.

Lemma preserves_apply {A F : Type} (f : AgentState -> F) (m : py A) (st : AgentState) :
  preserves f m -> f (fst (m st)) = f st.
Proof. intros Hm. apply Hm. Qed.

Lemma preserves_bind {A B F : Type} (f : AgentState -> F) (m : py A) (k : A -> py B) :
  preserves f m -> (forall a, preserves f (k a)) -> preserves f (bind m k).
Proof.
  intros Hm Hk st. unfold bind. specialize (Hm st).
  destruct (m st) as [st' [a|e]]; simpl in *; [|done].
  by rewrite Hk.
Qed.

Lemma preserves_bind_tail {A B F : Type} (f : AgentState -> F) (m : py A)
    (k : A -> py B) (st : AgentState) :
  (forall a, preserves f (k a)) -> f (fst (bind m k st)) = f (fst (m st)).
Proof.
  intros Hk. unfold bind. destruct (m st) as [st' [a|e]]; simpl; [|done].
  apply Hk.
Qed.

Lemma preserves_get {F : Type} (f : AgentState -> F) : preserves f get.
Proof. by intros st. Qed.

Lemma preserves_pure {A F : Type} (f : AgentState -> F) (a : A) : preserves f (pure a).
Proof. by intros st. Qed.

Lemma preserves_lift {A F : Type} (f : AgentState -> F) (r : result A) :
  preserves f (lift r).
Proof. by intros st. Qed.

Lemma preserves_assign {F : Type} (f : AgentState -> F) (g : AgentState -> AgentState) :
  (forall st, f (g st) = f st) -> preserves f (assign g).
Proof. intros Hg st. apply Hg. Qed.

Ltac head_of t := lazymatch t with ?f _ => head_of f | _ => t end.

Ltac keeps :=
  cbv beta;
  lazymatch goal with
  | |- preserves _ (bind _ _) => apply preserves_bind; [keeps | intros ?; keeps]
  | |- preserves _ get => apply preserves_get
  | |- preserves _ (pure _) => apply preserves_pure
  | |- preserves _ (lift _) => apply preserves_lift
  | |- preserves _ (assign (mark_dead_players _)) =>
      apply preserves_assign; intros ?; unfold mark_dead_players;
      match goal with |- context [suspicion_notes ?s] => destruct (suspicion_notes s) end;
      reflexivity
  | |- preserves _ (assign _) => apply preserves_assign; intros ?; reflexivity
  | |- preserves _ (match ?x with _ => _ end) => destruct x; keeps
  | |- preserves _ ?m => let h := head_of m in unfold h; keeps
  end.

Lemma request_action_fst (st : AgentState) (request : GameUpdateRequest) (runs : AIRuns) :
  fst (request_action st request runs)
  = run_queued_tasks (fst (request_action_body request runs st)).
Proof. unfold request_action. by destruct (request_action_body request runs st). Qed.

Lemma request_action_snd (st : AgentState) (request : GameUpdateRequest) (runs : AIRuns) :
  snd (request_action st request runs)
  = catch_500 (snd (request_action_body request runs st)).
Proof. unfold request_action. by destruct (request_action_body request runs st). Qed.

Lemma run_queued_tasks_keeps {F : Type} (f : AgentState -> F) (st : AgentState) :
  preserves f send_dummy_investigation_packets ->
  (forall s, f (set_dummy_task false s) = f s) ->
  f (run_queued_tasks st) = f st.
Proof.
  intros Hsend Hflag. unfold run_queued_tasks. destruct (dummy_task st); [|done].
  by rewrite Hsend, Hflag.
Qed.

Lemma bind_pure {A B : Type} (a : A) (k : A -> py B) (s : AgentState) :
  bind (pure a) k s = k a s.
Proof. reflexivity. Qed.

(** X14.  /request_action never touches what the party is in the game: the
    game identifier, the context, the key pair, the joint key, the role, the
    player index and the number of players are the same afterwards, whether
    the handler answers or fails.  It never revives a party: the party is
    alive afterwards exactly when it was alive before and is listed among
    the survivors. *)
Theorem request_action_keeps_the_party
    (st : AgentState) (request : GameUpdateRequest) (runs : AIRuns) :
  let st' := fst (request_action st request runs) in
  game_id st' = game_id st /\ cc st' = cc st /\ keypair st' = keypair st
  /\ joint_public_key st' = joint_public_key st /\ role st' = role st
  /\ player_index st' = player_index st /\ num_players st' = num_players st
  /\ alive st' = alive st && py_in (player_index st) (survivors request).
Proof.
  intros st'. subst st'. rewrite request_action_fst.
  set (f := fun s : AgentState =>
              (game_id s, cc s, keypair s, joint_public_key s, role s,
               player_index s, num_players s)).
  assert (Hid : f (run_queued_tasks (fst (request_action_body request runs st))) = f st).
  { rewrite run_queued_tasks_keeps; [|keeps|done].
    apply preserves_apply. keeps. }
  unfold f in Hid. injection Hid as -> -> -> -> -> -> ->.
  repeat split.
  rewrite (run_queued_tasks_keeps alive); [|keeps|done].
  unfold request_action_body. rewrite !bind_assign, bind_get.
  match goal with
  | |- context [py_in (player_index ?s) _] => change (player_index s) with (player_index st)
  end.
  destruct (py_in (player_index st) (survivors request)); cbv beta iota;
    change (negb true) with false; change (negb false) with true; cbv iota.
  - rewrite bind_pure. cbv beta.
    match goal with
    | |- alive (fst (?m ?s)) = _ => rewrite (preserves_apply alive m s ltac:(keeps))
    end.
    by rewrite andb_true_r.
  - rewrite bind_assign. cbv beta.
    match goal with
    | |- alive (fst (?m ?s)) = _ => rewrite (preserves_apply alive m s ltac:(keeps))
    end.
    by rewrite andb_false_r.
Qed.


Lemma bind_when {B : Type} (b : bool) (g : AgentState -> AgentState)
    (k : unit -> py B) (s : AgentState) :
  bind (if b then assign g else pure tt) k s = k tt (if b then g s else s).
Proof. by destruct b. Qed.

(** The state in which [request_action] decides between the dead and the
    live answer: the flags are reset, the party has marked itself dead when
    it is missing from the survivors, and the dead players are marked in the
    notes. *)
Lemma state_at_dispatch (request : GameUpdateRequest) (st : AgentState) :
  let s0 := set_current_phase (phase request)
              (set_pending_chat_messages []
                 (set_pending_action_target None
                    (set_action_submitted false (set_chat_task false st)))) in
  let s2 := mark_dead_players request
              (if negb (py_in (player_index st) (survivors request))
               then set_alive false s0 else s0) in
  alive s2 = alive st && py_in (player_index st) (survivors request)
  /\ current_turn s2 = current_turn st
  /\ agent s2 = agent st
  /\ cc s2 = cc st
  /\ joint_public_key s2 = joint_public_key st
  /\ role s2 = role st
  /\ suspicion_notes s2
     = (fun m =>
          foldl (fun m i =>
                   if negb (bool_decide (i ∈ survivors request))
                      && bool_decide (Some i <> player_index st)
                   then Suspicion.mark_player_dead m i else m)
                m (range (num_players st)))
         <$> suspicion_notes st.
Proof.
  intros s0 s2. subst s0 s2. unfold mark_dead_players.
  destruct (py_in (player_index st) (survivors request)); cbn [negb];
    match goal with
    | |- context [match suspicion_notes ?s with _ => _ end] =>
        change (suspicion_notes s) with (suspicion_notes st);
        destruct (suspicion_notes st) eqn:Hnotes
    end; rewrite ?andb_true_r, ?andb_false_r; repeat split;
    first [reflexivity | exact Hnotes].
Qed.

(** Runs the reset at the head of [request_action_body] and names the state
    at the dispatch [s2], with what [state_at_dispatch] says about it. *)
Ltac enter_body st request s2 Hfacts :=
  unfold request_action_body;
  rewrite !bind_assign, !bind_get;
  repeat match goal with
         | |- context [py_in (player_index ?s) _] =>
             progress change (player_index s) with (player_index st)
         end;
  rewrite !bind_when; cbv beta;
  rewrite !bind_assign, !bind_get; cbv beta;
  pose proof (state_at_dispatch request st) as Hfacts; cbv zeta in Hfacts;
  match goal with
  | |- context [mark_dead_players request ?s1] =>
      generalize dependent (mark_dead_players request s1)
  end;
  intros s2 Hfacts.

Ltac keep f :=
  match goal with
  | |- context [f (fst (?m ?s))] => rewrite (preserves_apply f m s ltac:(keeps))
  end.

Lemma handle_night_phase_turn (request : GameUpdateRequest) (runs : AIRuns)
    (s : AgentState) :
  current_turn (fst (handle_night_phase request runs s)) = current_turn s + 1.
Proof.
  unfold handle_night_phase. rewrite bind_get, bind_assign. cbv beta.
  keep current_turn. reflexivity.
Qed.

(** X15.  The turn counter advances by one when a live party that is among
    the survivors is asked for its night action, also when the handler then
    fails; no other request changes it. *)
Theorem night_round_advances_the_turn
    (st : AgentState) (request : GameUpdateRequest) (runs : AIRuns) :
  current_turn (fst (request_action st request runs))
  = if alive st && py_in (player_index st) (survivors request)
       && bool_decide (phase request = "night")
    then current_turn st + 1 else current_turn st.
Proof.
  rewrite request_action_fst.
  rewrite (run_queued_tasks_keeps current_turn); [|keeps|done].
  enter_body st request s2 Hfacts.
  destruct Hfacts as (Hal & Hturn & _). rewrite Hal.
  destruct (alive st && py_in (player_index st) (survivors request)); cbn [negb andb].
  - rewrite preserves_bind_tail by (intros ?; keeps).
    destruct (bool_decide (phase request = "vote")) eqn:Hvote.
    + apply bool_decide_eq_true in Hvote. rewrite Hvote.
      keep current_turn. exact Hturn.
    + destruct (bool_decide (phase request = "night")).
      * rewrite preserves_bind_tail by (intros ?; keeps).
        by rewrite handle_night_phase_turn, Hturn.
      * destruct (bool_decide (phase request = "chat") || bool_decide (phase request = "day"));
          keep current_turn; exact Hturn.
  - keep current_turn. exact Hturn.
Qed.


(** X16.  A party that is dead, or missing from the survivors, never runs
    its agent: the answer and the state after /request_action are the same
    whatever the agent's runs would have done, and the agent's tool set is
    left as it was. *)
Theorem dead_party_never_runs_the_agent
    (st : AgentState) (request : GameUpdateRequest) (runs runs' : AIRuns) :
  alive st && py_in (player_index st) (survivors request) = false ->
  request_action st request runs = request_action st request runs'
  /\ agent (fst (request_action st request runs)) = agent st.
Proof.
  intros Hdead. split.
  - unfold request_action.
    assert (Hbody : request_action_body request runs st
                    = request_action_body request runs' st); [|by rewrite Hbody].
    enter_body st request s2 Hfacts.
    destruct Hfacts as (Hal & _). rewrite Hal, Hdead. reflexivity.
  - rewrite request_action_fst.
    rewrite (run_queued_tasks_keeps agent); [|keeps|done].
    enter_body st request s2 Hfacts.
    destruct Hfacts as (Hal & _ & Hagent & _). rewrite Hal, Hdead. cbn [negb].
    keep agent. exact Hagent.
Qed.

Lemma outcome_bind {A B : Type} (P : AgentState -> Prop) (m : py A)
    (Q : A -> AgentState -> Prop) (k : A -> py B) (R : B -> AgentState -> Prop)
    (E : exn -> AgentState -> Prop) :
  outcome P m Q E -> (forall a, outcome (Q a) (k a) R E) -> outcome P (bind m k) R E.
Proof.
  intros Hm Hk st HP. unfold bind. specialize (Hm st HP).
  destruct (m st) as [st' [a|e]]; [by apply Hk|done].
Qed.

Section Safe.
Variable E : exn -> AgentState -> Prop.

(** [outcome initialised m (fun _ => initialised) E]: [m] keeps an
    initialised party initialised, and raises only as [E] allows. *)

Lemma safe_bind {A B : Type} (m : py A) (k : A -> py B) :
  outcome initialised m (fun _ => initialised) E ->
  (forall a, outcome initialised (k a) (fun _ => initialised) E) ->
  outcome initialised (bind m k) (fun _ => initialised) E.
Proof. intros Hm Hk. by apply (outcome_bind _ _ (fun _ => initialised)). Qed.

Lemma safe_get : outcome initialised get (fun _ => initialised) E.
Proof. by intros st Hst. Qed.

Lemma safe_pure {A : Type} (a : A) :
  outcome initialised (pure a) (fun _ => initialised) E.
Proof. by intros st Hst. Qed.

Lemma safe_assign (g : AgentState -> AgentState) :
  (forall st, initialised st -> initialised (g st)) ->
  outcome initialised (assign g) (fun _ => initialised) E.
Proof. intros Hg st Hst. by apply Hg. Qed.

Lemma safe_create_zero_vector :
  outcome initialised create_zero_vector (fun _ => initialised) E.
Proof.
  intros st ([c Hc] & [pk Hp] & Ha).
  unfold create_zero_vector, bind, get, lift, assign, pure. rewrite Hc, Hp. simpl.
  repeat split; simpl; eauto.
Qed.

Lemma safe_create_one_hot_vector (index : Z) :
  outcome initialised (create_one_hot_vector index) (fun _ => initialised) E.
Proof.
  intros st ([c Hc] & [pk Hp] & Ha).
  unfold create_one_hot_vector, bind, get, lift, assign, pure. rewrite Hc, Hp. simpl.
  repeat split; simpl; eauto.
Qed.

Lemma safe_serialize (ct : Ciphertext) :
  outcome initialised (serialize ct) (fun _ => initialised) E.
Proof.
  intros st ([c Hc] & Hrest).
  unfold serialize, bind, get, lift, pure. rewrite Hc. simpl. split; eauto.
Qed.

Lemma safe_set_tools (p : string) :
  outcome initialised (set_tools p) (fun _ => initialised) E.
Proof.
  intros st (Hc & Hp & [a Ha]).
  unfold set_tools, bind, get, lift, assign. rewrite Ha. simpl.
  repeat split; simpl; eauto.
Qed.

Lemma safe_mark_dead_players (request : GameUpdateRequest) :
  outcome initialised (assign (mark_dead_players request)) (fun _ => initialised) E.
Proof.
  apply safe_assign. intros st Hst. unfold mark_dead_players.
  by destruct (suspicion_notes st).
Qed.

End Safe.

Ltac safely :=
  cbv beta;
  lazymatch goal with
  | |- outcome _ (bind _ _) _ _ => apply safe_bind; [safely | intros ?; safely]
  | |- outcome _ get _ _ => apply safe_get
  | |- outcome _ (pure _) _ _ => apply safe_pure
  | |- outcome _ create_zero_vector _ _ => apply safe_create_zero_vector
  | |- outcome _ (create_one_hot_vector _) _ _ => apply safe_create_one_hot_vector
  | |- outcome _ (serialize _) _ _ => apply safe_serialize
  | |- outcome _ (set_tools _) _ _ => apply safe_set_tools
  | |- outcome _ (assign (mark_dead_players _)) _ _ => apply safe_mark_dead_players
  | |- outcome _ (assign _) _ _ => apply safe_assign; intros ? Hst; exact Hst
  | |- outcome _ (call_ai_with_retry _) _ _ => eassumption
  | |- outcome _ (match ?x with _ => _ end) _ _ => destruct x; safely
  | |- outcome _ ?m _ _ => let h := head_of m in unfold h; safely
  end.

(** The agent's runs keep the party initialised; the only exception that
    leaves [call_ai_with_retry] is the one of the first run. *)
Lemma safe_call_ai_with_retry (runs : AIRuns) :
  outcome initialised (call_ai_with_retry runs) (fun _ => initialised)
    (fun e st => first_run runs = RunRaised e /\ initialised st).
Proof.
  intros st Hst. unfold call_ai_with_retry, submit, bind, get, lift, assign, pure.
  destruct (first_run runs) as [target| |e]; simpl; [done| |done].
  destruct (action_submitted st); [done|].
  by destruct (reminder_run runs).
Qed.

Lemma safe_request_action_body (request : GameUpdateRequest) (runs : AIRuns) :
  outcome initialised (request_action_body request runs) (fun _ => initialised)
    (fun e st => first_run runs = RunRaised e /\ initialised st).
Proof.
  pose proof (safe_call_ai_with_retry runs) as Hcall.
  unfold request_action_body. safely.
Qed.

Lemma run_queued_tasks_initialised (st : AgentState) :
  initialised st -> initialised (run_queued_tasks st).
Proof.
  unfold initialised.
  rewrite (run_queued_tasks_keeps cc); [|keeps|done].
  rewrite (run_queued_tasks_keeps joint_public_key); [|keeps|done].
  by rewrite (run_queued_tasks_keeps agent); [|keeps|done].
Qed.

(** X17.  A party that has its context, the joint key and its agent answers
    /request_action with an action response unless the agent's first run
    raised; then it answers 500 with the text of that exception.  No other
    failure is possible, an exception of the reminder run included; and the
    party is still initialised afterwards, so the same holds for the next
    request. *)
Theorem initialised_party_fails_only_on_first_run
    (st : AgentState) (request : GameUpdateRequest) (runs : AIRuns) :
  initialised st ->
  initialised (fst (request_action st request runs))
  /\ ((exists resp, snd (request_action st request runs) = Http200 resp)
      \/ (exists e, first_run runs = RunRaised e
                    /\ snd (request_action st request runs)
                       = HTTPException 500 (str_of_exn e))).
Proof.
  intros Hst. pose proof (safe_request_action_body request runs st Hst) as Hbody.
  rewrite request_action_fst, request_action_snd.
  destruct (request_action_body request runs st) as [st' [resp|e]]; simpl in *.
  - split; [by apply run_queued_tasks_initialised|]. left. by eexists.
  - destruct Hbody as [Hfirst Hst']. split; [by apply run_queued_tasks_initialised|].
    right. by exists e.
Qed.


Lemma bind_raise {A B : Type} (m : py A) (k : A -> py B) (s s' : AgentState) (e : exn) :
  m s = (s', Raise e) -> bind m k s = (s', Raise e).
Proof. intros Hm. unfold bind. by rewrite Hm. Qed.

Lemma first_run_raises (runs : AIRuns) (p : string) (s : AgentState) (e : exn) :
  is_Some (agent s) -> first_run runs = RunRaised e ->
  exists s', bind (set_tools p) (fun _ => call_ai_with_retry runs) s = (s', Raise e).
Proof.
  intros [a Ha] Hfirst.
  unfold set_tools, call_ai_with_retry, bind, get, lift, assign.
  rewrite Ha, Hfirst. simpl. by eexists.
Qed.

Lemma bind_assoc_raise {A B C : Type} (m : py A) (k : A -> py B) (k' : B -> py C)
    (s s' : AgentState) (e : exn) :
  bind m k s = (s', Raise e) ->
  bind m (fun a => bind (k a) k') s = (s', Raise e).
Proof.
  unfold bind. destruct (m s) as [s1 [a|e1]].
  - intros Hk. by rewrite Hk.
  - by intros [= -> ->].
Qed.

(** X18.  The exception of the agent's first run is not caught: a live
    party among the survivors that has its agent answers /request_action
    with 500 and the text of that exception in the vote phase, and in the
    night phase unless it is a Citizen, who runs no agent at night. *)
Theorem first_run_error_is_reported
    (st : AgentState) (request : GameUpdateRequest) (runs : AIRuns) (e : exn) :
  is_Some (agent st) ->
  alive st = true -> py_in (player_index st) (survivors request) = true ->
  first_run runs = RunRaised e ->
  phase request = "vote" \/ (phase request = "night" /\ role st <> Some "citizen") ->
  snd (request_action st request runs) = HTTPException 500 (str_of_exn e).
Proof.
  intros Hagent Halive Hin Hfirst Hphase. rewrite request_action_snd.
  enter_body st request s2 Hfacts.
  destruct Hfacts as (Hal & _ & Hagent2 & _ & _ & Hrole & _).
  rewrite Hal, Halive, Hin. cbn [negb andb]. rewrite <- Hagent2 in Hagent.
  destruct Hphase as [Hvote|[Hnight Hcitizen]].
  - rewrite Hvote. rewrite (bool_decide_eq_true_2 ("vote" = "vote")) by done.
    destruct (first_run_raises runs "vote" s2 e Hagent Hfirst) as [s' Hraise].
    unfold handle_vote_phase.
    erewrite bind_raise; [reflexivity|].
    exact (bind_assoc_raise _ _ _ _ _ _ Hraise).
  - rewrite Hnight. rewrite (bool_decide_eq_false_2 ("night" = "vote")) by done.
    rewrite (bool_decide_eq_true_2 ("night" = "night")) by done.
    assert (Hraise : exists s', handle_night_phase request runs s2 = (s', Raise e)).
    { unfold handle_night_phase. rewrite bind_get, bind_assign. cbv beta.
      rewrite Hrole. rewrite bool_decide_eq_false_2 by done.
      destruct (first_run_raises runs "night" (set_current_turn (current_turn s2 + 1) s2)
                  e Hagent Hfirst) as [s' Hraise].
      exists s'. exact (bind_assoc_raise _ _ _ _ _ _ Hraise). }
    destruct Hraise as [s' Hraise].
    erewrite bind_raise; [reflexivity|].
    by apply bind_raise.
Qed.

(** X22.  A police investigation that succeeds files its verdict in the
    investigator's notes under the target, confirmed exactly when the
    verdict is MAFIA; after a MAFIA verdict the [write_suspicion_note] tool
    is refused for that player and changes nothing. *)
Theorem investigation_verdict_is_recorded_and_final
    (st : AgentState) (net : network) (t : Z) (report : InvestigationReport)
    (m : Suspicion.manager) :
  snd (_execute_police_investigation st net t) = Ok report ->
  suspicion_notes st = Some m ->
  Suspicion.cls m = Suspicion.PoliceNoteManager ->
  Some t <> Suspicion.player_index m -> 0 <= t < Suspicion.num_players m ->
  let st' := fst (_execute_police_investigation st net t) in
  let verdict := report_is_mafia report in
  let note :=
    Suspicion.new_note t
      (if verdict then Suspicion.Police Suspicion.CONFIRMED_MAFIA
       else Suspicion.Police Suspicion.CONFIRMED_NOT_MAFIA)
      (Suspicion.investigation_reasoning verdict (current_turn st)) verdict
      (current_turn st) in
  report_target report = t
  /\ suspicion_notes st'
     = Some (Suspicion.set_notes m (<[t := note]> (Suspicion.notes m)))
  /\ (verdict = true ->
      forall lv why,
        write_suspicion_note t lv why st'
        = (st', NoteReply (Suspicion.CannotUpdateConfirmed t))).
Proof.
  intros Hok Hnotes Hcls Hself Hrange st' verdict note. subst st' verdict note.
  unfold _execute_police_investigation in *.
  match goal with
  | Hok : snd (match ?v with Ok _ => _ | Raise _ => _ end) = _ |- _ =>
      destruct v as [is_mafia|e]; [|discriminate Hok]
  end.
  rewrite Hnotes, Hcls in *. simpl in Hok. injection Hok as <-. simpl.
  rewrite add_investigation_result_stored by done.
  split; [done|]. split; [done|].
  intros -> lv why. unfold write_suspicion_note. simpl.
  unfold Suspicion.write_note. simpl.
  rewrite bool_decide_eq_false_2 by done.
  replace ((t <? 0) || (Suspicion.num_players m <=? t)) with false.
  2:{ symmetry. apply orb_false_intro; [apply Z.ltb_ge | apply Z.leb_gt]; lia. }
  rewrite lookup_insert_eq. simpl. reflexivity.
Qed.


Lemma mark_player_dead_lookup (m : Suspicion.manager) (j i : Z) :
  Suspicion.notes (Suspicion.mark_player_dead m j) !! i
  = if bool_decide (i = j) then Suspicion.mark_dead <$> Suspicion.notes m !! i
    else Suspicion.notes m !! i.
Proof.
  unfold Suspicion.mark_player_dead. case_bool_decide as Hij.
  - subst j. destruct (Suspicion.notes m !! i) as [n|] eqn:Hn; simpl.
    + by rewrite lookup_insert_eq.
    + by rewrite Hn.
  - destruct (Suspicion.notes m !! j) as [n|]; simpl; [|done].
    by rewrite lookup_insert_ne.
Qed.

Lemma marked_dead_lookup (dead : Z -> bool) (l : list Z) :
  forall (m : Suspicion.manager) (i : Z),
    Suspicion.notes
      (foldl (fun m j => if dead j then Suspicion.mark_player_dead m j else m) m l) !! i
    = if bool_decide (i ∈ l) && dead i
      then Suspicion.mark_dead <$> Suspicion.notes m !! i
      else Suspicion.notes m !! i.
Proof.
  induction l as [|j l IH]; intros m i; cbn [foldl].
  - by rewrite bool_decide_eq_false_2 by apply not_elem_of_nil.
  - rewrite IH.
    assert (Hhere : Suspicion.notes
                      (if dead j then Suspicion.mark_player_dead m j else m) !! i
                    = if bool_decide (i = j) && dead i
                      then Suspicion.mark_dead <$> Suspicion.notes m !! i
                      else Suspicion.notes m !! i).
    { case_bool_decide as Hij; [subst j|]; destruct (dead _); simpl; try done;
        rewrite mark_player_dead_lookup;
        [by rewrite bool_decide_eq_true_2|by rewrite bool_decide_eq_false_2]. }
    rewrite Hhere.
    replace (bool_decide (i ∈ j :: l)) with (bool_decide (i = j) || bool_decide (i ∈ l)).
    2:{ destruct (decide (i = j)), (decide (i ∈ l));
          rewrite ?(bool_decide_eq_true_2 (i = j)), ?(bool_decide_eq_false_2 (i = j)),
            ?(bool_decide_eq_true_2 (i ∈ l)), ?(bool_decide_eq_false_2 (i ∈ l)) by done;
          simpl; symmetry;
          first [apply bool_decide_eq_true_2 | apply bool_decide_eq_false_2];
          rewrite elem_of_cons; tauto. }
    destruct (bool_decide (i = j)), (bool_decide (i ∈ l)), (dead i); simpl; try done.
    by destruct (Suspicion.notes m !! i).
Qed.

(** X23.  After /request_action the notes are those from before with the
    dead mark set on every player from 0 to [num_players - 1] that is
    missing from the survivors, the party itself apart; no other note and
    nothing else of a note changes, so a mark once set stays.  The night
    round of a Police is left out: its run may call the investigation
    tool, which files a verdict besides. *)
Theorem request_action_marks_non_survivors_dead
    (st : AgentState) (request : GameUpdateRequest) (runs : AIRuns)
    (m : Suspicion.manager) :
  suspicion_notes st = Some m ->
  phase request <> "night" \/ role st <> Some "police" ->
  exists m',
    suspicion_notes (fst (request_action st request runs)) = Some m'
    /\ forall i,
         Suspicion.notes m' !! i
         = if (0 <=? i) && (i <? num_players st)
              && negb (bool_decide (i ∈ survivors request))
              && bool_decide (Some i <> player_index st)
           then Suspicion.mark_dead <$> Suspicion.notes m !! i
           else Suspicion.notes m !! i.
Proof.
  intros Hnotes _. rewrite request_action_fst.
  rewrite (run_queued_tasks_keeps suspicion_notes); [|keeps|done].
  enter_body st request s2 Hfacts.
  destruct Hfacts as (_ & _ & _ & _ & _ & _ & Hmarked).
  keep suspicion_notes. rewrite Hmarked, Hnotes. simpl.
  eexists. split; [reflexivity|]. intros i.
  rewrite (marked_dead_lookup
             (fun j => negb (bool_decide (j ∈ survivors request))
                       && bool_decide (Some j <> player_index st))).
  replace (bool_decide (i ∈ range (num_players st)))
    with ((0 <=? i) && (i <? num_players st)).
  2:{ unfold range.
      destruct (decide (0 <= i < num_players st)) as [Hi|Hi].
      - rewrite bool_decide_eq_true_2 by (apply elem_of_seqZ; lia).
        apply andb_true_intro. split; [apply Z.leb_le|apply Z.ltb_lt]; lia.
      - rewrite bool_decide_eq_false_2 by (rewrite elem_of_seqZ; lia).
        apply andb_false_iff. rewrite Z.leb_gt, Z.ltb_ge. lia. }
  by rewrite !andb_assoc.
Qed.


End EndpointFacts.

(** ** The agent's tools *)

Section ToolFacts.
Context `{FHE}.

(** Settles the membership of a tool in an explicit list by evaluation. *)
Ltac tool_membership :=
  match goal with
  | |- ?x ∈ ?l <-> ?P =>
      first
        [ assert (Hm : x ∈ l) by (apply (bool_decide_unpack _); vm_compute; exact I);
          split; [intros _|intros _; exact Hm]
        | assert (Hm : x ∉ l) by (apply (bool_decide_unpack _); vm_compute; exact I);
          split; [intros Hx; destruct (Hm Hx)|] ]
  | |- ?x ∉ ?l => apply (bool_decide_unpack _); vm_compute; exact I
  end.

(** X19.  [create_agent_tools] hands out [submit_vote] in the vote phase
    only, [mafia_kill], [doctor_heal] and [police_investigate] in the night
    phase only and each to its own role only (a Citizen gets no action tool
    at night), [send_chat_message] in the chat and day phases only, and
    [record_investigation_result] never. *)
Theorem action_tools_by_role_and_phase (role : option string) (phase : string) :
  let tools := create_agent_tools role phase in
  (Tool.submit_vote ∈ tools <-> phase = "vote")
  /\ (Tool.mafia_kill ∈ tools <-> phase = "night" /\ role = Some "mafia")
  /\ (Tool.doctor_heal ∈ tools <-> phase = "night" /\ role = Some "doctor")
  /\ (Tool.police_investigate ∈ tools <-> phase = "night" /\ role = Some "police")
  /\ (Tool.send_chat_message ∈ tools <-> phase = "chat" \/ phase = "day")
  /\ Tool.record_investigation_result ∉ tools.
Proof.
  intros tools. subst tools. unfold create_agent_tools.
  repeat case_bool_decide; cbn [orb];
    (split; [|split; [|split; [|split; [|split]]]]);
    tool_membership; subst; try tauto; try congruence;
    try (intros [? ?]; congruence); try (intros [?|?]; congruence).
Qed.


Lemma offered_action_tools (role : option string) (phase : string) :
  (Tool.submit_vote ∈ create_agent_tools role phase -> phase = "vote")
  /\ (Tool.mafia_kill ∈ create_agent_tools role phase -> phase = "night")
  /\ (Tool.doctor_heal ∈ create_agent_tools role phase
      -> phase = "night" /\ role = Some "doctor")
  /\ (Tool.police_investigate ∈ create_agent_tools role phase -> phase = "night").
Proof.
  unfold create_agent_tools.
  repeat case_bool_decide; cbn [orb];
    (split; [|split; [|split]]); intros Hin; try done;
    exfalso; revert Hin; apply (bool_decide_unpack _); vm_compute; exact I.
Qed.

Lemma in_range_guard (t n : Z) : (0 <=? t) && (t <? n) = true -> 0 <= t < n.
Proof. rewrite andb_true_iff, Z.leb_le, Z.ltb_lt. lia. Qed.

(** What the investigation leaves behind: a recorded target, or nothing. *)
Lemma _execute_police_investigation_state (st : AgentState) (net : network) (t : Z) :
  role (fst (_execute_police_investigation st net t)) = role st
  /\ num_players (fst (_execute_police_investigation st net t)) = num_players st
  /\ player_index (fst (_execute_police_investigation st net t)) = player_index st
  /\ match snd (_execute_police_investigation st net t) with
     | Ok _ =>
         pending_action_target (fst (_execute_police_investigation st net t)) = Some t
         /\ action_submitted (fst (_execute_police_investigation st net t)) = true
     | Raise _ => fst (_execute_police_investigation st net t) = st
     end.
Proof.
  unfold _execute_police_investigation.
  match goal with
  | |- context [match ?v with Ok _ => _ | Raise _ => _ end] => destruct v as [is_mafia|e]
  end; [|done].
  destruct (suspicion_notes st) as [m|]; [destruct (Suspicion.cls m)|]; by repeat split.
Qed.

Lemma run_tool_consistent (net : network) (st0 : AgentState) (phase : string)
    (st : AgentState) (c : tool_call) :
  tool_of c ∈ create_agent_tools (role st0) phase ->
  consistent_submission st0 phase st ->
  consistent_submission st0 phase (run_tool net st c).
Proof.
  intros Hoffered Hst. pose proof Hst as (Hrole & Hn & Hme & Hnone & Hphase & Htarget).
  destruct (offered_action_tools (role st0) phase) as (Hvote & Hkill & Hheal & Hpolice).
  assert (Hrecorded : forall s t,
            role s = role st0 -> num_players s = num_players st0 ->
            player_index s = player_index st0 ->
            pending_action_target s = Some t -> action_submitted s = true ->
            phase = "vote" \/ phase = "night" ->
            0 <= t < num_players st0 ->
            (Some t = player_index st0 -> phase = "night" /\ role st0 = Some "doctor") ->
            consistent_submission st0 phase s).
  { intros s t ? ? ? Hp Hs ? ? ?.
    split; [done|]. split; [done|]. split; [done|]. split; [congruence|].
    split; [done|]. intros t' Ht'. rewrite Hp in Ht'. by injection Ht' as <-. }
  assert (Hcleared : forall s,
            role s = role st0 -> num_players s = num_players st0 ->
            player_index s = player_index st0 ->
            pending_action_target s = None ->
            (action_submitted s = true -> phase = "vote" \/ phase = "night") ->
            consistent_submission st0 phase s).
  { intros s ? ? ? Hp ?.
    split; [done|]. split; [done|]. split; [done|]. split; [done|].
    split; [done|]. intros t' Ht'. congruence. }
  destruct c as [latest|text|i lv why|t|t|t|t|t b|tool]; simpl in Hoffered;
    unfold run_tool.
  - unfold read_chat_messages. by destruct (0 <=? latest).
  - unfold send_chat_message. by destruct (negb (alive st)).
  - unfold write_suspicion_note. destruct (suspicion_notes st) as [m|]; [|done].
    by destruct (Suspicion.write_note m i lv why (current_turn st) false).
  - unfold submit_vote. destruct (negb (alive st)); [done|].
    destruct (action_submitted st) eqn:Hsub; [done|].
    destruct ((0 <=? t) && (t <? num_players st)) eqn:Hrange; simpl.
    2:{ apply Hcleared; simpl; auto. }
    apply in_range_guard in Hrange. case_bool_decide as Hself; simpl.
    2:{ apply Hcleared; simpl; auto. }
    apply (Hrecorded _ t); simpl; auto; [lia|congruence].
  - unfold mafia_kill. destruct (negb (alive st)); [done|].
    destruct (action_submitted st) eqn:Hsub; [done|].
    destruct ((0 <=? t) && (t <? num_players st)) eqn:Hrange; simpl.
    2:{ apply Hcleared; simpl; auto. }
    apply in_range_guard in Hrange. case_bool_decide as Hself; simpl.
    2:{ apply Hcleared; simpl; auto. }
    apply (Hrecorded _ t); simpl; auto; [lia|congruence].
  - unfold doctor_heal. destruct (negb (alive st)); [done|].
    destruct (action_submitted st) eqn:Hsub; [done|].
    destruct ((0 <=? t) && (t <? num_players st)) eqn:Hrange; simpl.
    2:{ apply Hcleared; simpl; auto. right. by apply Hheal. }
    apply in_range_guard in Hrange.
    apply (Hrecorded _ t); simpl; auto; [right; by apply Hheal|lia].
  - unfold police_investigate. destruct (negb (alive st)); [done|].
    destruct (action_submitted st) eqn:Hsub; [done|].
    destruct ((0 <=? t) && (t <? num_players st)) eqn:Hrange; simpl.
    2:{ apply Hcleared; simpl; auto. }
    apply in_range_guard in Hrange. case_bool_decide as Hself; simpl.
    2:{ apply Hcleared; simpl; auto. }
    destruct (_execute_police_investigation_state st net t) as (Hr & Hn' & Hme' & Hres).
    destruct (_execute_police_investigation st net t) as [st' [report|e]];
      simpl in *.
    + destruct Hres as [Hpending Hsubmitted].
      apply (Hrecorded _ t); auto; [congruence..|lia|congruence].
    + subst st'. apply Hcleared; simpl; auto.
  - unfold record_investigation_result. case_bool_decide; [done|].
    destruct (suspicion_notes st) as [m|]; [|done].
    destruct (Suspicion.cls m); [done|].
    by destruct (Suspicion.add_investigation_result m t b (current_turn st)).
  - done.
Qed.

(** X20.  Whatever tools of its tool set the agent calls during a run, in
    whatever order and with whatever arguments, starting from the reset
    flags: a pending target exists only once an action was submitted, an
    action is submitted only in the vote and night phases, and the pending
    target is a player index between 0 and [num_players - 1] that is not
    the party's own, except for a Doctor healing itself at night. *)
Theorem offered_tools_submit_valid_targets
    (net : network) (st : AgentState) (phase : string) (calls : list tool_call) :
  action_submitted st = false -> pending_action_target st = None ->
  Forall (fun c => tool_of c ∈ create_agent_tools (role st) phase) calls ->
  consistent_submission st phase (run_tools net st calls).
Proof.
  intros Hsub Hpending Hcalls.
  assert (Hstart : consistent_submission st phase st).
  { repeat split; try done; congruence. }
  unfold run_tools. revert Hstart. generalize st at 2 4 as s.
  induction Hcalls as [|c calls Hc _ IH]; intros s Hs; [done|].
  simpl. apply IH. by apply run_tool_consistent.
Qed.

Lemma send_chat_messages_queue (net : network) (texts : list string) :
  forall st : AgentState,
    pending_chat_messages (run_tools net st (call_send_chat_message <$> texts))
    = (pending_chat_messages st ++ (if alive st then texts else []))%list.
Proof.
  induction texts as [|text texts IH]; intros st.
  - simpl. destruct (alive st); by rewrite app_nil_r.
  - cbn [fmap list_fmap run_tools foldl]. fold (run_tools net).
    change (foldl (run_tool net) ?s ?l) with (run_tools net s l).
    rewrite IH. unfold run_tool, send_chat_message.
    destruct (alive st) eqn:Halive; simpl; rewrite Halive; [|done].
    by rewrite <- app_assoc.
Qed.

(** X21.  The messages a live party sends with [send_chat_message] are
    queued behind those already pending, in the order sent, and one poll of
    /chat/messages hands all of them over and empties the queue, so the
    next poll gets nothing; a dead party's messages are not queued. *)
Theorem chat_messages_are_polled_once
    (net : network) (st : AgentState) (texts : list string) :
  let st1 := run_tools net st (call_send_chat_message <$> texts) in
  snd (get_chat_messages st1)
  = (pending_chat_messages st ++ (if alive st then texts else []))%list
  /\ snd (get_chat_messages (fst (get_chat_messages st1))) = [].
Proof.
  intros st1. split; [|reflexivity]. apply send_chat_messages_queue.
Qed.

End ToolFacts.

(** C3, as the claim has it, fails at /dkg_round: a body that names another
    game is served, and the party's key pair is replaced. *)
Lemma dkg_round_accepts_foreign_game :
  ~ (forall (st : AgentState) (body : DKGRoundBody),
       body_game_id body <> game_id st ->
       exists detail, dkg_round_endpoint st body = (st, HTTPException 500 detail)).
Proof.
  intros Hclaim.
  destruct (Hclaim (Toy.player 0) Toy.foreign_round) as [detail Hrun].
  - intros Heq. vm_compute in Heq. discriminate Heq.
  - apply (f_equal snd) in Hrun. vm_compute in Hrun. discriminate Hrun.
Qed.

Lemma mult_key_rounds_reject_foreign_game_witness :
  (exists detail, generate_keyswitchgen (Toy.player 1) Toy.foreign_request
                  = (Toy.player 1, HTTPException 500 detail))
  /\ (exists detail, generate_multmultkey (Toy.player 1) Toy.foreign_request
                     = (Toy.player 1, HTTPException 500 detail))
  /\ (exists detail, generate_mult_key (Toy.player 1) Toy.foreign_request
                     = (Toy.player 1, HTTPException 500 detail))
  /\ (exists detail, receive_mult_keys (Toy.player 1) Toy.foreign_request
                     = (Toy.player 1, HTTPException 500 detail))
  /\ dkg_round_endpoint (Toy.player 1) Toy.foreign_round
     = dkg_round_endpoint (Toy.player 1)
         {| body_game_id := Some "game-1";
            body_round_number := 1;
            body_previous_public_key := None |}.
Proof.
  apply (mult_key_rounds_reject_foreign_game (Toy.player 1) Toy.foreign_request
           Toy.foreign_round (Some "game-1")).
  intros Heq. vm_compute in Heq. discriminate Heq.
Defined.

Lemma receive_mult_keys_skips_duplicates_witness :
  receive_mult_keys (Toy.with_own_key (Toy.player 1)) Toy.merged_keys
  = (set_cc (Some ["key-3"; "key-2"; "key-0"; "key-1"]) (Toy.with_own_key (Toy.player 1)),
     Http200 (KeysReceived 3)).
Proof.
  apply (receive_mult_keys_skips_duplicates (Toy.with_own_key (Toy.player 1))
           Toy.merged_keys ["key-1"] ["key-0"; "key-1"; "key-2"; "key-3"]).
  - reflexivity.
  - reflexivity.
  - reflexivity.
  - intros c' k Hk. change (deserialize_eval_mult_key c' k) with (Toy.insert_key c' k).
    unfold Toy.insert_key.
    match goal with |- context [bool_decide ?P] => destruct (bool_decide P) end.
    + right. eexists. split; [reflexivity|]. vm_compute. reflexivity.
    + left. apply list_elem_of_In in Hk. simpl in Hk.
      destruct Hk as [<-|[<-|[<-|[<-|[]]]]]; by eexists.
Defined.

(** C1, as the claim has it, fails: the hop at player 1, with player 2 still
    to visit, does not answer with the list of shares but with the decrypted
    vector. *)
Lemma relay_first_hop_returns_plaintext :
  ~ (exists shares,
       relay_decrypt Toy.net (Toy.player 1) Toy.relay_ciphertext [] [2] Toy.addresses
       = Http200 (PartialResults shares))
  /\ relay_decrypt Toy.net (Toy.player 1) Toy.relay_ciphertext [] [2] Toy.addresses
     = Http200 (DecryptedVector (Toy.fuse [Toy.relay_share 1; Toy.relay_share 2])).
Proof.
  split.
  - intros (shares & Hanswer).
    pose proof (relay_nonfinal_no_share_list Toy.net (Toy.player 1) Toy.relay_ciphertext
                  [] 2 [] Toy.addresses) as Hno.
    rewrite Hanswer in Hno. discriminate Hno.
  - vm_compute. reflexivity.
Qed.

(** A chain of three hops: the hop at player 2 fuses what player 3 hands
    back, and player 1 passes the decrypted vector on. *)
Example relay_three_hops :
  relay_decrypt Toy.net (Toy.player 2) Toy.relay_ciphertext
    [Toy.print_list (Toy.relay_share 1)] [3] Toy.addresses
  = Http200 (DecryptedVector
               (Toy.fuse [Toy.relay_share 1; Toy.relay_share 2; Toy.relay_share 3]))
  /\ relay_decrypt Toy.net (Toy.player 1) Toy.relay_ciphertext [] [2; 3] Toy.addresses
     = Http200 (DecryptedVector
                  (Toy.fuse [Toy.relay_share 1; Toy.relay_share 2; Toy.relay_share 3])).
Proof. split; vm_compute; reflexivity. Qed.

Lemma relay_requester_fuses_witness :
  relay_decrypt Toy.net (Toy.player 1) Toy.relay_ciphertext [] [] Toy.addresses
  = Http200 (PartialResults [Toy.print_list (Toy.relay_share 1)])
  /\ relay_decrypt Toy.net (Toy.player 2) Toy.relay_ciphertext
       [Toy.print_list (Toy.relay_share 1)] [] Toy.addresses
     = Http200 (PartialResults [Toy.print_list (Toy.relay_share 1);
                                Toy.print_list (Toy.relay_share 2)])
  /\ relay_decrypt Toy.net (Toy.player 1) Toy.relay_ciphertext [] [2] Toy.addresses
     = Http200 (DecryptedVector (Toy.fuse [Toy.relay_share 1; Toy.relay_share 2])).
Proof.
  assert (Hp : reachable Toy.net Toy.addresses ([] : list string) (Toy.role_ciphertext 1)
                 2 (Toy.player 2, Toy.keys 2)).
  { split; [exists "http://localhost:8766"; split; vm_compute; reflexivity
           | split; [reflexivity | split; [reflexivity | vm_compute; reflexivity]]]. }
  assert (Hct : deserialize_ciphertext ([] : list string) Toy.relay_ciphertext
                = Ok (Toy.role_ciphertext 1)) by (vm_compute; reflexivity).
  assert (Hown : deserialize_ciphertext ([] : list string)
                   (serialize_ciphertext ([] : list string)
                      (own_share [] (Toy.role_ciphertext 1) (Toy.keys 1)))
                 = Ok (own_share ([] : list string) (Toy.role_ciphertext 1) (Toy.keys 1)))
    by (vm_compute; reflexivity).
  destruct (relay_requester_fuses Toy.net (Toy.player 1) Toy.relay_ciphertext [] 2
              Toy.addresses ([] : list string) (Toy.role_ciphertext 1) (Toy.keys 1)
              (Toy.player 2, Toy.keys 2) eq_refl eq_refl Hct Hown Hp)
    as (Hlast & Hsecond & Hfirst & _).
  split; [exact Hlast|]. split; [exact Hsecond|exact Hfirst].
Defined.

(** C2, as the claim has it, fails.  With [remaining_order = [1; 2; 3]] sent
    to player 1 the requester is not handed a list of four distinct shares:
    the answer is a decrypted vector, computed from the share of player 1
    twice and those of players 2 and 3, without a share of player 0. *)
Lemma relay_chain_claim_fails :
  ~ (exists shares,
       relay_decrypt Toy.net (Toy.player 1) Toy.relay_ciphertext [] [1; 2; 3] Toy.addresses
       = Http200 (PartialResults shares)
       /\ length shares = 4%nat /\ NoDup shares)
  /\ relay_decrypt Toy.net (Toy.player 1) Toy.relay_ciphertext [] [1; 2; 3] Toy.addresses
     = Http200 (DecryptedVector
                  (Toy.fuse [Toy.relay_share 1; Toy.relay_share 1;
                             Toy.relay_share 2; Toy.relay_share 3])).
Proof.
  split.
  - intros (shares & Hanswer & _).
    pose proof (relay_nonfinal_no_share_list Toy.net (Toy.player 1) Toy.relay_ciphertext
                  [] 1 [2; 3] Toy.addresses) as Hno.
    rewrite Hanswer in Hno. discriminate Hno.
  - vm_compute. reflexivity.
Qed.

Lemma relay_chain_collects_witness :
  let shares := [Toy.relay_share 1; Toy.relay_share 2; Toy.relay_share 3] in
  let answer :=
    relay_decrypt Toy.net (Toy.player 1) Toy.relay_ciphertext [] [2; 3] Toy.addresses in
  (answer = Http200 (PartialResults (Toy.print_list <$> shares))
   \/ answer = Http200 (DecryptedVector (Toy.fuse shares)))
  /\ length shares = 3%nat.
Proof.
  assert (Hpeers : Forall2 (reachable Toy.net Toy.addresses ([] : list string)
                              (Toy.role_ciphertext 1))
                     [2; 3] [(Toy.player 2, Toy.keys 2); (Toy.player 3, Toy.keys 3)]).
  { constructor; [|constructor; [|constructor]].
    - split; [exists "http://localhost:8766"; split; vm_compute; reflexivity
             | split; [reflexivity | split; [reflexivity | vm_compute; reflexivity]]].
    - split; [exists "http://localhost:8767"; split; vm_compute; reflexivity
             | split; [reflexivity | split; [reflexivity | vm_compute; reflexivity]]]. }
  assert (Hct : deserialize_ciphertext ([] : list string) Toy.relay_ciphertext
                = Ok (Toy.role_ciphertext 1)) by (vm_compute; reflexivity).
  assert (Hown : deserialize_ciphertext ([] : list string)
                   (serialize_ciphertext ([] : list string)
                      (own_share [] (Toy.role_ciphertext 1) (Toy.keys 1)))
                 = Ok (own_share ([] : list string) (Toy.role_ciphertext 1) (Toy.keys 1)))
    by (vm_compute; reflexivity).
  exact (relay_chain_collects Toy.net (Toy.player 1) Toy.relay_ciphertext [2; 3]
           Toy.addresses ([] : list string) (Toy.role_ciphertext 1) (Toy.keys 1)
           [(Toy.player 2, Toy.keys 2); (Toy.player 3, Toy.keys 3)]
           eq_refl eq_refl Hct Hown Hpeers).
Defined.

(** C4 fails on the code.  A Mafia and a Doctor that act in the night round
    send no decoy; only the Citizen's path queues the broadcast, which then
    reaches every other player. *)
Theorem only_citizen_sends_decoys :
  outbox (fst (request_action (Toy.player 1) (Toy.update "night" [0; 1; 2; 3])
                 (Toy.decides (Some 2)))) = []
  /\ outbox (fst (request_action (Toy.player 2) (Toy.update "night" [0; 1; 2; 3])
                    (Toy.decides (Some 2)))) = []
  /\ post_url <$> outbox (fst (request_action (Toy.player 0)
                                 (Toy.update "night" [0; 1; 2; 3]) (Toy.decides None)))
     = ["http://localhost:8765/investigate_parallel";
        "http://localhost:8766/investigate_parallel";
        "http://localhost:8767/investigate_parallel"].
Proof. repeat split; vm_compute; reflexivity. Qed.

(** C9, as the claim has it, fails in the chat phase: a live party answers
    with one ciphertext in all three places, like a dead one. *)
Lemma live_chat_response_is_duplicated :
  ~ (forall (st : AgentState) (request : GameUpdateRequest) (runs : AIRuns)
            (resp : ActionResponse),
       alive st = true ->
       py_in (player_index st) (survivors request) = true ->
       snd (request_action st request runs) = Http200 resp ->
       ~ (vote_vector resp = attack_vector resp
          /\ attack_vector resp = heal_vector resp)).
Proof.
  intros Hclaim.
  apply (Hclaim (Toy.player 1) (Toy.update "chat" [0; 1; 2; 3]) (Toy.decides None)
           {| vote_vector := "11,110,110,110,110";
              attack_vector := "11,110,110,110,110";
              heal_vector := "11,110,110,110,110";
              resp_phase := "chat";
              chat_messages := [] |}).
  - reflexivity.
  - vm_compute. reflexivity.
  - vm_compute. reflexivity.
  - split; reflexivity.
Qed.

Lemma action_triple_shape_witness :
  exists (vote attack heal : list Z) (d1 d2 d3 : nat),
    encrypts ([] : list string) Toy.joint_key "11,110,110,110,110" vote d1
    /\ encrypts ([] : list string) Toy.joint_key "14,140,140,141,140" attack d2
    /\ encrypts ([] : list string) Toy.joint_key "13,130,130,130,130" heal d3
    /\ length vote = 4%nat /\ length attack = 4%nat /\ length heal = 4%nat.
Proof.
  assert (Hresp : snd (request_action (Toy.player 1) (Toy.update "night" [0; 1; 2; 3])
                         (Toy.decides (Some 2)))
                  = Http200 {| vote_vector := "11,110,110,110,110";
                               attack_vector := "14,140,140,141,140";
                               heal_vector := "13,130,130,130,130";
                               resp_phase := "night";
                               chat_messages := [] |})
    by (vm_compute; reflexivity).
  assert (Hin : py_in (player_index (Toy.player 1))
                  (survivors (Toy.update "night" [0; 1; 2; 3])) = true)
    by (vm_compute; reflexivity).
  destruct (action_triple_shape (Toy.player 1) (Toy.update "night" [0; 1; 2; 3])
              (Toy.decides (Some 2)) ([] : list string) Toy.joint_key _
              eq_refl eq_refl eq_refl Hin Hresp)
    as (vote & attack & heal & d1 & d2 & d3 & Hv & Ha & Hh & Hl1 & Hl2 & Hl3 & _).
  exists vote, attack, heal, d1, d2, d3. repeat split; assumption.
Defined.

Lemma dead_party_duplicates_one_ciphertext_witness :
  (alive (fst (request_action (Toy.player 1) (Toy.update "night" [0; 2; 3])
                 (Toy.decides (Some 2)))) = false
   /\ snd (request_action (Toy.player 1) (Toy.update "night" [0; 2; 3])
             (Toy.decides (Some 2)))
      = Http200 {| vote_vector := "11,110,110,110,110";
                   attack_vector := "11,110,110,110,110";
                   heal_vector := "11,110,110,110,110";
                   resp_phase := "night";
                   chat_messages := [] |})
  /\ (exists (vote attack heal : list Z) (d1 d2 d3 : nat),
        encrypts ([] : list string) Toy.joint_key "11,110,110,111,110" vote d1
        /\ encrypts ([] : list string) Toy.joint_key "12,120,120,120,120" attack d2
        /\ encrypts ([] : list string) Toy.joint_key "13,130,130,130,130" heal d3
        /\ d1 <> d2 /\ d2 <> d3 /\ d1 <> d3)
  /\ (exists (vote attack heal : list Z) (d1 d2 d3 : nat),
        encrypts ([] : list string) Toy.joint_key "11,110,110,110,110" vote d1
        /\ encrypts ([] : list string) Toy.joint_key "14,140,140,141,140" attack d2
        /\ encrypts ([] : list string) Toy.joint_key "13,130,130,130,130" heal d3
        /\ d1 <> d2 /\ d2 <> d3 /\ d1 <> d3)
  /\ (exists resp : ActionResponse,
        snd (request_action (Toy.player 1) (Toy.update "chat" [0; 1; 2; 3])
               (Toy.decides None)) = Http200 resp
        /\ vote_vector resp = "11,110,110,110,110"
        /\ attack_vector resp = "11,110,110,110,110"
        /\ heal_vector resp = "11,110,110,110,110").
Proof.
  pose (vote_response := {| vote_vector := "11,110,110,111,110";
                            attack_vector := "12,120,120,120,120";
                            heal_vector := "13,130,130,130,130";
                            resp_phase := "vote";
                            chat_messages := [] |}).
  pose (night_response := {| vote_vector := "11,110,110,110,110";
                             attack_vector := "14,140,140,141,140";
                             heal_vector := "13,130,130,130,130";
                             resp_phase := "night";
                             chat_messages := [] |}).
  pose (chat_response := {| vote_vector := "11,110,110,110,110";
                            attack_vector := "11,110,110,110,110";
                            heal_vector := "11,110,110,110,110";
                            resp_phase := "chat";
                            chat_messages := [] |}).
  assert (Hnight : snd (request_action (Toy.player 1) (Toy.update "night" [0; 1; 2; 3])
                          (Toy.decides (Some 2)))
                   = Http200 night_response)
    by (vm_compute; reflexivity).
  assert (Hvote : snd (request_action (Toy.player 1) (Toy.update "vote" [0; 1; 2; 3])
                         (Toy.decides (Some 2)))
                  = Http200 vote_response)
    by (vm_compute; reflexivity).
  assert (Hchat : snd (request_action (Toy.player 1) (Toy.update "chat" [0; 1; 2; 3])
                         (Toy.decides None))
                  = Http200 chat_response)
    by (vm_compute; reflexivity).
  assert (Hin : forall phase,
             py_in (player_index (Toy.player 1))
               (survivors (Toy.update phase [0; 1; 2; 3])) = true)
    by (intros phase; vm_compute; reflexivity).
  assert (Hout : py_in (player_index (Toy.player 1))
                   (survivors (Toy.update "night" [0; 2; 3])) = false)
    by (vm_compute; reflexivity).
  assert (Hnv : phase (Toy.update "chat" [0; 1; 2; 3]) <> "vote") by (simpl; discriminate).
  assert (Hnn : phase (Toy.update "chat" [0; 1; 2; 3]) <> "night") by (simpl; discriminate).
  split; [|split; [|split]].
  - exact (proj1 (dead_party_duplicates_one_ciphertext (Toy.player 1)
                    (Toy.update "night" [0; 2; 3]) (Toy.decides (Some 2))
                    ([] : list string) Toy.joint_key eq_refl eq_refl) Hout).
  - exact (proj1 (proj2 (dead_party_duplicates_one_ciphertext (Toy.player 1)
                           (Toy.update "vote" [0; 1; 2; 3]) (Toy.decides (Some 2))
                           ([] : list string) Toy.joint_key eq_refl eq_refl)
                    eq_refl (Hin "vote") vote_response Hvote)
             (or_introl eq_refl)).
  - exact (proj1 (proj2 (dead_party_duplicates_one_ciphertext (Toy.player 1)
                           (Toy.update "night" [0; 1; 2; 3]) (Toy.decides (Some 2))
                           ([] : list string) Toy.joint_key eq_refl eq_refl)
                    eq_refl (Hin "night") night_response Hnight)
             (or_intror eq_refl)).
  - exists chat_response. split; [exact Hchat|].
    exact (proj2 (proj2 (dead_party_duplicates_one_ciphertext (Toy.player 1)
                           (Toy.update "chat" [0; 1; 2; 3]) (Toy.decides None)
                           ([] : list string) Toy.joint_key eq_refl eq_refl)
                    eq_refl (Hin "chat") chat_response Hchat)
             Hnv Hnn).
Defined.

Lemma complete_role_decryption_own_share_last_witness :
  (forall conversation,
     role (fst (complete_role_decryption (Toy.player 3) (Toy.shares_for 3) conversation))
     = Some "police")
  /\ snd (complete_role_decryption (Toy.player 3) (Toy.shares_for 3) (Ok "conv-1"))
     = Http200 "police".
Proof.
  apply (complete_role_decryption_own_share_last
           (Toy.player 3) (Toy.shares_for 3) "conv-1" ([] : list string)
           [[0; 40; 40; 40; 41; -4; -4; -4; -4];
            [0; 40; 40; 40; 41; -8; -8; -8; -8];
            [0; 40; 40; 40; 41; -12; -12; -12; -12]]
           "4,40,40,40,41" [4; 40; 40; 40; 41]
           (Toy.keys 3));
    vm_compute; reflexivity.
Defined.



Lemma confirmed_notes_are_final_witness :
  Suspicion.notes (Suspicion.write_notes Toy.notebook Toy.rewrites) !! 1
    = Some Toy.mafia_note
  /\ (exists msg,
        Suspicion.write_note Toy.notebook 1 "low" "seems friendly" 3 false
          = (Toy.notebook, msg)
        /\ Suspicion.is_refusal msg = true)
  /\ (forall is_mafia, exists n',
        Suspicion.notes
          (fst (Suspicion.add_investigation_result Toy.notebook 2 is_mafia 5)) !! 2
          = Some n'
        /\ Suspicion.is_confirmed n' = is_mafia)
  /\ Suspicion.write_note
       (fst (Suspicion.add_investigation_result Toy.notebook 2 false 5))
       2 "Suspected_Doctor" "healed twice" 6 false
     = (Suspicion.set_notes Toy.notebook
          (<[2 := Suspicion.new_note 2 (Suspicion.Police Suspicion.SUSPECTED_DOCTOR)
                    "healed twice" false 6]> (Suspicion.notes Toy.notebook)),
        Suspicion.NoteUpdated
          (Suspicion.new_note 2 (Suspicion.Police Suspicion.SUSPECTED_DOCTOR)
             "healed twice" false 6)).
Proof.
  apply (confirmed_notes_are_final Toy.notebook 1 Toy.mafia_note Toy.rewrites
           "low" "seems friendly" 3 false
           Toy.notebook 2 5 "Suspected_Doctor" "healed twice" 6 false
           (Suspicion.Police Suspicion.SUSPECTED_DOCTOR)).
  - vm_compute. reflexivity.
  - reflexivity.
  - intros Heq. vm_compute in Heq. discriminate Heq.
  - change (0 <= 2 < 4). lia.
  - vm_compute. reflexivity.
Defined.

(** A level spelled with U+212A KELVIN SIGN in place of the letter K is
    lower-cased to a valid level, as by Python's [lower], and the note is
    filed. *)
Example write_note_lowers_the_kelvin_sign :
  let kelvin := String "226" (String "132" (String "170" EmptyString)) in
  let m := Suspicion.init Suspicion.SuspicionNoteManager 4 (Some 0) in
  str_lower ("UN" +:+ kelvin +:+ "NOWN") = "unknown"
  /\ Suspicion.write_note m 2 ("un" +:+ kelvin +:+ "nown") "no idea" 3 false
     = (Suspicion.set_notes m
          (<[2 := Suspicion.new_note 2 (Suspicion.Basic Suspicion.UNKNOWN) "no idea"
                    false 3]> (Suspicion.notes m)),
        Suspicion.NoteUpdated
          (Suspicion.new_note 2 (Suspicion.Basic Suspicion.UNKNOWN) "no idea" false 3)).
Proof. split; vm_compute; reflexivity. Qed.

Lemma rewriting_a_note_clears_the_dead_mark_witness :
  let m := Suspicion.init Suspicion.SuspicionNoteManager 4 (Some 0) in
  Suspicion.notes (Suspicion.mark_player_dead m 2) !! 2
  = Some (Suspicion.mkNote 2 (Suspicion.Basic Suspicion.UNKNOWN) "No information yet"
            false 0 true)
  /\ Suspicion.mark_player_dead (Suspicion.mark_player_dead m 2) 2
     = Suspicion.mark_player_dead m 2
  /\ Suspicion.notes
       (fst (Suspicion.write_note (Suspicion.mark_player_dead m 2) 2 "HIGH"
               "voted oddly" 3 false)) !! 2
     = Some (Suspicion.mkNote 2 (Suspicion.Basic Suspicion.HIGH_SUSPICION) "voted oddly"
               false 3 false).
Proof.
  apply (rewriting_a_note_clears_the_dead_mark
           (Suspicion.init Suspicion.SuspicionNoteManager 4 (Some 0)) 2
           (Suspicion.new_note 2 (Suspicion.Basic Suspicion.UNKNOWN) "No information yet"
              false 0)
           "HIGH" "voted oddly" 3 false (Suspicion.Basic Suspicion.HIGH_SUSPICION)).
  - vm_compute. reflexivity.
  - reflexivity.
  - intros Heq. vm_compute in Heq. discriminate Heq.
  - change (0 <= 2 < 4). lia.
  - vm_compute. reflexivity.
Defined.

Lemma investigated_player_listed_until_dead_witness :
  (1 ∈ Suspicion.get_confirmed_mafia Toy.notebook <-> true = true)
  /\ (1 ∈ Suspicion.get_confirmed_not_mafia Toy.notebook <-> true = false)
  /\ (1 ∉ Suspicion.get_confirmed_mafia (Suspicion.mark_player_dead Toy.notebook 1))
  /\ (1 ∉ Suspicion.get_confirmed_not_mafia (Suspicion.mark_player_dead Toy.notebook 1)).
Proof.
  apply (investigated_player_listed_until_dead
           (Suspicion.init Suspicion.PoliceNoteManager 4 (Some 3)) 1 true 2).
  - apply well_formed_init.
  - intros Heq. vm_compute in Heq. discriminate Heq.
  - change (0 <= 1 < 4). lia.
Defined.

Lemma death_announcement_only_marks_dead_witness :
  receive_death_announcement (Toy.player 3) Toy.deaths
  = (set_suspicion_notes
       ((fun m => foldl Suspicion.mark_player_dead m [1; 2])
          <$> suspicion_notes (Toy.player 3))
       (Toy.player 3),
     Http200 "ok").
Proof.
  apply (death_announcement_only_marks_dead Toy.deaths (Toy.player 3) [1; 2]).
  reflexivity.
Defined.

Lemma key_switch_round_follows_setup_witness :
  let st1 := fst (dkg_setup initial_state Toy.setup_request) in
  let st2 := fst (dkg_round st1 Toy.lead_round) in
  exists (c : list string) (kp : KeyPair),
    cc st2 = Some c /\ keypair st2 = Some kp
    /\ game_id st2 = Some "game-1"
    /\ snd (generate_keyswitchgen st2 Toy.switch_request)
       = Http200 (EvalKeyResponse (pretty (7 + secretKey kp))).
Proof.
  intros st1 st2.
  destruct (key_switch_round_follows_setup initial_state st1 st2 Toy.setup_request
              Toy.lead_round Toy.switch_request "DKG setup complete for player 1"
              {| public_key := "1"; dkg_success := true |})
    as (c & kp & _ & Hcc & Hkp & _ & Hgame & Hserved & _).
  - vm_compute. reflexivity.
  - vm_compute. reflexivity.
  - exists c, kp. split; [exact Hcc|]. split; [exact Hkp|]. split; [exact Hgame|].
    rewrite Hserved by reflexivity. reflexivity.
Defined.

Lemma failed_setup_switches_the_game_witness :
  let st1 := fst (@dkg_setup Toy.strict Toy.strict_player Toy.malformed_setup) in
  @game_id Toy.strict st1 = Some "game-2"
  /\ @cc Toy.strict st1 = Some []
  /\ @keypair Toy.strict st1 = Some Toy.strict_keys
  /\ snd (@generate_keyswitchgen Toy.strict st1 Toy.switch_request_2)
     = Http200 (EvalKeyResponse "9")
  /\ exists detail,
       snd (@generate_keyswitchgen Toy.strict st1 Toy.switch_request)
       = HTTPException 500 detail.
Proof.
  intros st1.
  pose proof (@failed_setup_switches_the_game Toy.strict Toy.strict_player st1
                Toy.malformed_setup Toy.switch_request_2 500
                "Cannot deserialize an empty context" [] Toy.strict_keys
                eq_refl eq_refl eq_refl) as (Hgame & Hcc & Hkp & Hnew & _).
  pose proof (@failed_setup_switches_the_game Toy.strict Toy.strict_player st1
                Toy.malformed_setup Toy.switch_request 500
                "Cannot deserialize an empty context" [] Toy.strict_keys
                eq_refl eq_refl eq_refl) as (_ & _ & _ & _ & Hold).
  split; [exact Hgame|]. split; [exact Hcc|]. split; [exact Hkp|]. split.
  - rewrite Hnew by reflexivity. vm_compute. reflexivity.
  - apply Hold; [reflexivity|]. intros Heq. vm_compute in Heq. discriminate Heq.
Defined.

Lemma receive_mult_keys_keeps_keys_before_failure_witness :
  receive_mult_keys (Toy.player 1) Toy.broken_keys
  = (set_cc (Some ["key-0"]) (Toy.player 1),
     HTTPException 500 "Cannot deserialize an empty key").
Proof.
  apply (receive_mult_keys_keeps_keys_before_failure (Toy.player 1) Toy.broken_keys
           ([] : list string) ["key-0"] ["key-2"] ""
           (RuntimeError "Cannot deserialize an empty key")).
  - reflexivity.
  - reflexivity.
  - reflexivity.
  - intros c' k Hk. change (deserialize_eval_mult_key c' k) with (Toy.insert_key c' k).
    unfold Toy.insert_key.
    match goal with |- context [bool_decide ?P] => destruct (bool_decide P) end.
    + right. eexists. split; [reflexivity|]. vm_compute. reflexivity.
    + left. apply list_elem_of_In in Hk. simpl in Hk.
      destruct Hk as [<-|[]]. by eexists.
  - vm_compute. reflexivity.
  - intros msg [= <-]. vm_compute. reflexivity.
Defined.

Lemma relay_chain_breaks_at_missing_party_witness :
  exists detail,
    relay_decrypt Toy.net (Toy.player 1) Toy.relay_ciphertext [] [2; 9; 3] Toy.addresses
    = HTTPException 500 detail.
Proof.
  assert (Hpeers : Forall2 (reachable Toy.net Toy.addresses ([] : list string)
                              (Toy.role_ciphertext 1))
                     [2] [(Toy.player 2, Toy.keys 2)]).
  { constructor; [|constructor].
    split; [exists "http://localhost:8766"; split; vm_compute; reflexivity
           | split; [reflexivity | split; [reflexivity | vm_compute; reflexivity]]]. }
  assert (Hct : deserialize_ciphertext ([] : list string) Toy.relay_ciphertext
                = Ok (Toy.role_ciphertext 1)) by (vm_compute; reflexivity).
  apply (relay_chain_breaks_at_missing_party Toy.net Toy.relay_ciphertext Toy.addresses
           ([] : list string) (Toy.role_ciphertext 1) 9 [3] [2]
           (Toy.player 1) (Toy.keys 1) [] [(Toy.player 2, Toy.keys 2)]
           eq_refl eq_refl Hct Hpeers).
  left. eexists. vm_compute. reflexivity.
Defined.

Lemma blind_assignment_feeds_role_decryption_witness :
  let st1 := fst (blind_role_assignment (Toy.player 3) Toy.blind_request) in
  let st2 := fst (complete_role_decryption st1 (Toy.shares_for 3) (Ok "conv-1")) in
  my_encrypted_role st1 = Some "4,40,40,40,41"
  /\ role st2 = Some "police"
  /\ reveal_role st2 = Http200 "police"
  /\ get_encrypted_role_vector st2 = Http200 "4,40,40,40,41".
Proof.
  intros st1 st2.
  destruct (blind_assignment_feeds_role_decryption (Toy.player 3) st1 Toy.blind_request
              "Waiting for threshold decryption" ([] : list string) (Toy.keys 3)
              (Toy.shares_for 3)
              [[0; 40; 40; 40; 41; -4; -4; -4; -4];
               [0; 40; 40; 40; 41; -8; -8; -8; -8];
               [0; 40; 40; 40; 41; -12; -12; -12; -12]]
              (Ok "conv-1"))
    as (enc & ct & Henc & Hct & Hmine & _ & _ & Hrole & Hreveal & Hvector);
    try (vm_compute; reflexivity).
  assert (enc = "4,40,40,40,41") as -> by (vm_compute in Henc; congruence).
  assert (ct = [4; 40; 40; 40; 41]) as -> by (vm_compute in Hct; congruence).
  split; [exact Hmine|]. split; [|split].
  - fold st2 in Hrole. rewrite Hrole. vm_compute. reflexivity.
  - fold st2 in Hreveal. rewrite Hreveal. vm_compute. reflexivity.
  - exact Hvector.
Defined.

Lemma decoys_take_the_investigation_routes_witness :
  (exists posts : list Post,
     send_dummy_investigation_packets (Toy.player 2)
     = (set_outbox posts (set_entropy 11 (Toy.player 2)), Ok tt)
     /\ post_url <$> posts
        = ["http://localhost:9000/investigate_parallel";
           "http://localhost:8765/investigate_parallel";
           "http://localhost:8767/investigate_parallel"]
     /\ Forall (fun p => post_ciphertext p = "11,110,110,110,110") posts)
  /\ (let st := set_player_addresses [] (Toy.player 0) in
      exists (posts : list Post) (addrs : list (option string)),
        send_dummy_investigation_packets st
        = (set_outbox posts (set_entropy 11 st), Ok tt)
        /\ investigation_addresses st = Ok addrs
        /\ post_url <$> posts
           = (fun a => a +:+ "/investigate_parallel")
               <$> omap id (investigation_targets st addrs)).
Proof.
  split.
  - destruct (decoys_take_the_investigation_routes (Toy.player 2)
                ([] : list string) Toy.joint_key eq_refl eq_refl)
      as (posts & Hrun & Hurls & Hsame & _).
    exists posts. split; [exact Hrun|]. split; [exact Hurls|exact Hsame].
  - destruct (decoys_take_the_investigation_routes
                (set_player_addresses [] (Toy.player 0))
                ([] : list string) Toy.joint_key eq_refl eq_refl)
      as (posts & Hrun & _ & _ & Hroutes).
    destruct (Hroutes eq_refl) as (addrs & Haddrs & Hsame).
    exists posts, addrs. split; [exact Hrun|]. split; [exact Haddrs|exact Hsame].
Defined.

Lemma dead_party_never_runs_the_agent_witness :
  request_action (Toy.player 1) (Toy.update "night" [0; 2; 3]) (Toy.decides (Some 2))
  = request_action (Toy.player 1) (Toy.update "night" [0; 2; 3]) (Toy.decides None)
  /\ agent (fst (request_action (Toy.player 1) (Toy.update "night" [0; 2; 3])
                   (Toy.decides (Some 2))))
     = Some {| tools := "" |}.
Proof.
  apply (dead_party_never_runs_the_agent (Toy.player 1) (Toy.update "night" [0; 2; 3])
           (Toy.decides (Some 2)) (Toy.decides None)).
  vm_compute. reflexivity.
Defined.

Lemma initialised_party_fails_only_on_first_run_witness :
  initialised (fst (request_action (Toy.player 1) (Toy.update "vote" [0; 1; 2; 3])
                      (Toy.decides (Some 2))))
  /\ ((exists resp,
         snd (request_action (Toy.player 1) (Toy.update "vote" [0; 1; 2; 3])
                (Toy.decides (Some 2))) = Http200 resp)
      \/ (exists e,
            first_run (Toy.decides (Some 2)) = RunRaised e
            /\ snd (request_action (Toy.player 1) (Toy.update "vote" [0; 1; 2; 3])
                      (Toy.decides (Some 2)))
               = HTTPException 500 (str_of_exn e))).
Proof.
  apply (initialised_party_fails_only_on_first_run (Toy.player 1)
           (Toy.update "vote" [0; 1; 2; 3]) (Toy.decides (Some 2))).
  split; [|split]; eexists; reflexivity.
Defined.

Lemma first_run_error_is_reported_witness :
  snd (request_action (Toy.player 1) (Toy.update "vote" [0; 1; 2; 3]) Toy.failing_run)
  = HTTPException 500 "rate limit exceeded".
Proof.
  apply (first_run_error_is_reported (Toy.player 1) (Toy.update "vote" [0; 1; 2; 3])
           Toy.failing_run (OtherError "rate limit exceeded")).
  - eexists. reflexivity.
  - reflexivity.
  - vm_compute. reflexivity.
  - reflexivity.
  - left. reflexivity.
Defined.

Lemma offered_tools_submit_valid_targets_witness :
  consistent_submission (Toy.player 2) "night"
    (run_tools Toy.net (Toy.player 2) Toy.doctor_calls).
Proof.
  apply (offered_tools_submit_valid_targets Toy.net (Toy.player 2) "night"
           Toy.doctor_calls).
  - reflexivity.
  - reflexivity.
  - repeat constructor; apply (bool_decide_unpack _); vm_compute; exact I.
Defined.

Lemma investigation_verdict_is_recorded_and_final_witness :
  let st' := fst (_execute_police_investigation (Toy.player 3) Toy.net 1) in
  suspicion_notes st'
  = Some (Suspicion.set_notes (Suspicion.init Suspicion.PoliceNoteManager 4 (Some 3))
            (<[1 := Suspicion.new_note 1 (Suspicion.Police Suspicion.CONFIRMED_MAFIA)
                      (Suspicion.investigation_reasoning true 0) true 0]>
               (Suspicion.notes (Suspicion.init Suspicion.PoliceNoteManager 4 (Some 3)))))
  /\ forall lv why,
       write_suspicion_note 1 lv why st'
       = (st', NoteReply (Suspicion.CannotUpdateConfirmed 1)).
Proof.
  intros st'.
  destruct (investigation_verdict_is_recorded_and_final (Toy.player 3) Toy.net 1
              {| report_target := 1; report_is_mafia := true |}
              (Suspicion.init Suspicion.PoliceNoteManager 4 (Some 3)))
    as (_ & Hnotes & Hfinal).
  - vm_compute. reflexivity.
  - reflexivity.
  - reflexivity.
  - intros Heq. vm_compute in Heq. discriminate Heq.
  - change (0 <= 1 < 4). lia.
  - split; [exact Hnotes|]. exact (Hfinal eq_refl).
Defined.

Lemma request_action_marks_non_survivors_dead_witness :
  exists m',
    suspicion_notes (fst (request_action (Toy.player 1) (Toy.update "night" [0; 1; 3])
                            (Toy.decides (Some 0))))
    = Some m'
    /\ forall i,
         Suspicion.notes m' !! i
         = if (0 <=? i) && (i <? 4) && negb (bool_decide (i ∈ [0; 1; 3]))
              && bool_decide (Some i <> Some 1)
           then Suspicion.mark_dead
                  <$> Suspicion.notes
                        (Suspicion.init Suspicion.SuspicionNoteManager 4 (Some 1)) !! i
           else Suspicion.notes
                  (Suspicion.init Suspicion.SuspicionNoteManager 4 (Some 1)) !! i.
Proof.
  apply (request_action_marks_non_survivors_dead (Toy.player 1)
           (Toy.update "night" [0; 1; 3]) (Toy.decides (Some 0))
           (Suspicion.init Suspicion.SuspicionNoteManager 4 (Some 1)) eq_refl).
  right. intros Heq. vm_compute in Heq. discriminate Heq.
Defined.
